(** * A verified model of the platformer simulation core

    This development embeds the simulation logic of [src/game.js] (player
    locomotion and damage, the collision resolver, level construction, the
    per-tick level update and the mission gate) as executable Rocq functions
    and proves the properties that the specification states about it.

    Conventions of the embedding.
    - JavaScript numbers are modelled by exact rationals ([Q]); counters that
      the program only ever moves by whole steps (rings, lives, score, hit
      counts, level indices) are integers ([Z]).  Rounding of IEEE doubles is
      not modelled.
    - Objects mutated in place become records threaded through the functions;
      [r <| f := v |>] is the assignment [r.f = v].
    - Calls into the audio, console and rendering collaborators have no effect
      on the simulation state and are left out; fields read only by the
      renderer are left out of the records. *)

From Stdlib Require Import QArith Qminmax Qround Qabs Lqa ZArith Lia List String Bool.
From Stdlib Require Import DecimalString.
From stdpp Require Import gmap strings.
Import ListNotations.
Local Open Scope Q_scope.

(** ** Record assignment *)

Class Setter {R T : Type} (proj : R -> T) := set : T -> R -> R.
Arguments set {R T} proj {Setter} _ _.
Notation "r <| f := v |>" := (set f v r) (at level 1, left associativity, f at level 9).

(** ** Numbers *)

Definition Qltb (a b : Q) : bool := negb (Qle_bool b a).
Infix "<?" := Qltb : Q_scope.
Infix "<=?" := Qle_bool : Q_scope.
Infix "=?" := Qeq_bool : Q_scope.

(** [Math.floor]. *)
Definition Math_floor (q : Q) : Z := Qfloor q.

(** ** core/math *)

Definition clamp (v min max : Q) : Q := Qmax min (Qmin max v).

Definition lerp (a b t : Q) : Q := a + (b - a) * t.

Definition sign (v : Q) : Q := if v <? 0 then -1 else if 0 <? v then 1 else 0.

Module Rect.
Record t : Type := mk { x : Q; y : Q; w : Q; h : Q }.
End Rect.

Definition rectFromCenterBottom (centerX bottomY w h : Q) : Rect.t :=
  {| Rect.x := centerX - w / 2; Rect.y := bottomY - h; Rect.w := w; Rect.h := h |}.

Definition aabbIntersects (a b : Rect.t) : bool :=
  (Rect.x a <? Rect.x b + Rect.w b) && (Rect.x b <? Rect.x a + Rect.w a) &&
  (Rect.y a <? Rect.y b + Rect.h b) && (Rect.y b <? Rect.y a + Rect.h a).

(** ** core/constants *)

Module GAME.
Definition targetFps : Q := 60.
Definition fixedDt : Q := 1 / 60.
Definition maxDt : Q := 1 / 20.
End GAME.

(** Values are in pixels per frame; the code scales them by [dt * 60]. *)
Module PHYS.
Definition gravity : Q := 0.21875.
Definition terminalVel : Q := 16.
Definition topSpeed : Q := 6.
Definition jumpVel : Q := 6.5.
Definition jumpCutMultiplier : Q := 0.5.
End PHYS.

Module INPUT_CONST.
Definition jumpBufferSeconds : Q := 5 / 60.
Definition coyoteSeconds : Q := 6 / 60.
End INPUT_CONST.

(** ** game/player: state, damage and respawn *)

Module Player.

Record t : Type := mk {
  x : Q;
  y : Q;  (* bottom of the collision volume *)
  spawnX : Q;
  spawnY : Q;
  vx : Q;
  vy : Q;
  grounded : bool;
  _coyoteUntil : Q;
  rolling : bool;
  rings : Z;
  score : Z;
  lives : Z;
  invuln : Q;
  jumpsRemaining : Z;
  hasGunPower : bool;
  gunCooldown : Q;
  powerFlash : Q;
  shootFlash : Q;
  comboCount : Z;
  comboTimer : Q;
  hasShieldPower : bool;
  shieldActive : bool;
  shieldHits : Z;
  shieldMaxHits : Z;
  shieldShatter : Q;
  springLaunchTimer : Q;
  facing : Z;  (* 1 = right, -1 = left *)
  isBig : bool;
  growthTransformTimer : Q;
  magnetTimer : Q;
  _justLaunchedSpring : bool  (* raised by Level.update on a spring launch, cleared by the engine *)
}.

#[global] Instance set_x : Setter x := fun v r =>
  mk v (y r) (spawnX r) (spawnY r) (vx r) (vy r) (grounded r) (_coyoteUntil r) (rolling r)
    (rings r) (score r) (lives r) (invuln r) (jumpsRemaining r) (hasGunPower r) (gunCooldown r)
    (powerFlash r) (shootFlash r) (comboCount r) (comboTimer r) (hasShieldPower r)
    (shieldActive r) (shieldHits r) (shieldMaxHits r) (shieldShatter r) (springLaunchTimer r)
    (facing r) (isBig r) (growthTransformTimer r) (magnetTimer r) (_justLaunchedSpring r).
#[global] Instance set_y : Setter y := fun v r =>
  mk (x r) v (spawnX r) (spawnY r) (vx r) (vy r) (grounded r) (_coyoteUntil r) (rolling r)
    (rings r) (score r) (lives r) (invuln r) (jumpsRemaining r) (hasGunPower r) (gunCooldown r)
    (powerFlash r) (shootFlash r) (comboCount r) (comboTimer r) (hasShieldPower r)
    (shieldActive r) (shieldHits r) (shieldMaxHits r) (shieldShatter r) (springLaunchTimer r)
    (facing r) (isBig r) (growthTransformTimer r) (magnetTimer r) (_justLaunchedSpring r).
#[global] Instance set_spawnX : Setter spawnX := fun v r =>
  mk (x r) (y r) v (spawnY r) (vx r) (vy r) (grounded r) (_coyoteUntil r) (rolling r) (rings r)
    (score r) (lives r) (invuln r) (jumpsRemaining r) (hasGunPower r) (gunCooldown r)
    (powerFlash r) (shootFlash r) (comboCount r) (comboTimer r) (hasShieldPower r)
    (shieldActive r) (shieldHits r) (shieldMaxHits r) (shieldShatter r) (springLaunchTimer r)
    (facing r) (isBig r) (growthTransformTimer r) (magnetTimer r) (_justLaunchedSpring r).
#[global] Instance set_spawnY : Setter spawnY := fun v r =>
  mk (x r) (y r) (spawnX r) v (vx r) (vy r) (grounded r) (_coyoteUntil r) (rolling r) (rings r)
    (score r) (lives r) (invuln r) (jumpsRemaining r) (hasGunPower r) (gunCooldown r)
    (powerFlash r) (shootFlash r) (comboCount r) (comboTimer r) (hasShieldPower r)
    (shieldActive r) (shieldHits r) (shieldMaxHits r) (shieldShatter r) (springLaunchTimer r)
    (facing r) (isBig r) (growthTransformTimer r) (magnetTimer r) (_justLaunchedSpring r).
#[global] Instance set_vx : Setter vx := fun v r =>
  mk (x r) (y r) (spawnX r) (spawnY r) v (vy r) (grounded r) (_coyoteUntil r) (rolling r)
    (rings r) (score r) (lives r) (invuln r) (jumpsRemaining r) (hasGunPower r) (gunCooldown r)
    (powerFlash r) (shootFlash r) (comboCount r) (comboTimer r) (hasShieldPower r)
    (shieldActive r) (shieldHits r) (shieldMaxHits r) (shieldShatter r) (springLaunchTimer r)
    (facing r) (isBig r) (growthTransformTimer r) (magnetTimer r) (_justLaunchedSpring r).
#[global] Instance set_vy : Setter vy := fun v r =>
  mk (x r) (y r) (spawnX r) (spawnY r) (vx r) v (grounded r) (_coyoteUntil r) (rolling r)
    (rings r) (score r) (lives r) (invuln r) (jumpsRemaining r) (hasGunPower r) (gunCooldown r)
    (powerFlash r) (shootFlash r) (comboCount r) (comboTimer r) (hasShieldPower r)
    (shieldActive r) (shieldHits r) (shieldMaxHits r) (shieldShatter r) (springLaunchTimer r)
    (facing r) (isBig r) (growthTransformTimer r) (magnetTimer r) (_justLaunchedSpring r).
#[global] Instance set_grounded : Setter grounded := fun v r =>
  mk (x r) (y r) (spawnX r) (spawnY r) (vx r) (vy r) v (_coyoteUntil r) (rolling r) (rings r)
    (score r) (lives r) (invuln r) (jumpsRemaining r) (hasGunPower r) (gunCooldown r)
    (powerFlash r) (shootFlash r) (comboCount r) (comboTimer r) (hasShieldPower r)
    (shieldActive r) (shieldHits r) (shieldMaxHits r) (shieldShatter r) (springLaunchTimer r)
    (facing r) (isBig r) (growthTransformTimer r) (magnetTimer r) (_justLaunchedSpring r).
#[global] Instance set_coyoteUntil : Setter _coyoteUntil := fun v r =>
  mk (x r) (y r) (spawnX r) (spawnY r) (vx r) (vy r) (grounded r) v (rolling r) (rings r)
    (score r) (lives r) (invuln r) (jumpsRemaining r) (hasGunPower r) (gunCooldown r)
    (powerFlash r) (shootFlash r) (comboCount r) (comboTimer r) (hasShieldPower r)
    (shieldActive r) (shieldHits r) (shieldMaxHits r) (shieldShatter r) (springLaunchTimer r)
    (facing r) (isBig r) (growthTransformTimer r) (magnetTimer r) (_justLaunchedSpring r).
#[global] Instance set_rolling : Setter rolling := fun v r =>
  mk (x r) (y r) (spawnX r) (spawnY r) (vx r) (vy r) (grounded r) (_coyoteUntil r) v (rings r)
    (score r) (lives r) (invuln r) (jumpsRemaining r) (hasGunPower r) (gunCooldown r)
    (powerFlash r) (shootFlash r) (comboCount r) (comboTimer r) (hasShieldPower r)
    (shieldActive r) (shieldHits r) (shieldMaxHits r) (shieldShatter r) (springLaunchTimer r)
    (facing r) (isBig r) (growthTransformTimer r) (magnetTimer r) (_justLaunchedSpring r).
#[global] Instance set_rings : Setter rings := fun v r =>
  mk (x r) (y r) (spawnX r) (spawnY r) (vx r) (vy r) (grounded r) (_coyoteUntil r) (rolling r) v
    (score r) (lives r) (invuln r) (jumpsRemaining r) (hasGunPower r) (gunCooldown r)
    (powerFlash r) (shootFlash r) (comboCount r) (comboTimer r) (hasShieldPower r)
    (shieldActive r) (shieldHits r) (shieldMaxHits r) (shieldShatter r) (springLaunchTimer r)
    (facing r) (isBig r) (growthTransformTimer r) (magnetTimer r) (_justLaunchedSpring r).
#[global] Instance set_score : Setter score := fun v r =>
  mk (x r) (y r) (spawnX r) (spawnY r) (vx r) (vy r) (grounded r) (_coyoteUntil r) (rolling r)
    (rings r) v (lives r) (invuln r) (jumpsRemaining r) (hasGunPower r) (gunCooldown r)
    (powerFlash r) (shootFlash r) (comboCount r) (comboTimer r) (hasShieldPower r)
    (shieldActive r) (shieldHits r) (shieldMaxHits r) (shieldShatter r) (springLaunchTimer r)
    (facing r) (isBig r) (growthTransformTimer r) (magnetTimer r) (_justLaunchedSpring r).
#[global] Instance set_lives : Setter lives := fun v r =>
  mk (x r) (y r) (spawnX r) (spawnY r) (vx r) (vy r) (grounded r) (_coyoteUntil r) (rolling r)
    (rings r) (score r) v (invuln r) (jumpsRemaining r) (hasGunPower r) (gunCooldown r)
    (powerFlash r) (shootFlash r) (comboCount r) (comboTimer r) (hasShieldPower r)
    (shieldActive r) (shieldHits r) (shieldMaxHits r) (shieldShatter r) (springLaunchTimer r)
    (facing r) (isBig r) (growthTransformTimer r) (magnetTimer r) (_justLaunchedSpring r).
#[global] Instance set_invuln : Setter invuln := fun v r =>
  mk (x r) (y r) (spawnX r) (spawnY r) (vx r) (vy r) (grounded r) (_coyoteUntil r) (rolling r)
    (rings r) (score r) (lives r) v (jumpsRemaining r) (hasGunPower r) (gunCooldown r)
    (powerFlash r) (shootFlash r) (comboCount r) (comboTimer r) (hasShieldPower r)
    (shieldActive r) (shieldHits r) (shieldMaxHits r) (shieldShatter r) (springLaunchTimer r)
    (facing r) (isBig r) (growthTransformTimer r) (magnetTimer r) (_justLaunchedSpring r).
#[global] Instance set_jumpsRemaining : Setter jumpsRemaining := fun v r =>
  mk (x r) (y r) (spawnX r) (spawnY r) (vx r) (vy r) (grounded r) (_coyoteUntil r) (rolling r)
    (rings r) (score r) (lives r) (invuln r) v (hasGunPower r) (gunCooldown r) (powerFlash r)
    (shootFlash r) (comboCount r) (comboTimer r) (hasShieldPower r) (shieldActive r)
    (shieldHits r) (shieldMaxHits r) (shieldShatter r) (springLaunchTimer r) (facing r)
    (isBig r) (growthTransformTimer r) (magnetTimer r) (_justLaunchedSpring r).
#[global] Instance set_hasGunPower : Setter hasGunPower := fun v r =>
  mk (x r) (y r) (spawnX r) (spawnY r) (vx r) (vy r) (grounded r) (_coyoteUntil r) (rolling r)
    (rings r) (score r) (lives r) (invuln r) (jumpsRemaining r) v (gunCooldown r) (powerFlash r)
    (shootFlash r) (comboCount r) (comboTimer r) (hasShieldPower r) (shieldActive r)
    (shieldHits r) (shieldMaxHits r) (shieldShatter r) (springLaunchTimer r) (facing r)
    (isBig r) (growthTransformTimer r) (magnetTimer r) (_justLaunchedSpring r).
#[global] Instance set_gunCooldown : Setter gunCooldown := fun v r =>
  mk (x r) (y r) (spawnX r) (spawnY r) (vx r) (vy r) (grounded r) (_coyoteUntil r) (rolling r)
    (rings r) (score r) (lives r) (invuln r) (jumpsRemaining r) (hasGunPower r) v (powerFlash r)
    (shootFlash r) (comboCount r) (comboTimer r) (hasShieldPower r) (shieldActive r)
    (shieldHits r) (shieldMaxHits r) (shieldShatter r) (springLaunchTimer r) (facing r)
    (isBig r) (growthTransformTimer r) (magnetTimer r) (_justLaunchedSpring r).
#[global] Instance set_powerFlash : Setter powerFlash := fun v r =>
  mk (x r) (y r) (spawnX r) (spawnY r) (vx r) (vy r) (grounded r) (_coyoteUntil r) (rolling r)
    (rings r) (score r) (lives r) (invuln r) (jumpsRemaining r) (hasGunPower r) (gunCooldown r)
    v (shootFlash r) (comboCount r) (comboTimer r) (hasShieldPower r) (shieldActive r)
    (shieldHits r) (shieldMaxHits r) (shieldShatter r) (springLaunchTimer r) (facing r)
    (isBig r) (growthTransformTimer r) (magnetTimer r) (_justLaunchedSpring r).
#[global] Instance set_shootFlash : Setter shootFlash := fun v r =>
  mk (x r) (y r) (spawnX r) (spawnY r) (vx r) (vy r) (grounded r) (_coyoteUntil r) (rolling r)
    (rings r) (score r) (lives r) (invuln r) (jumpsRemaining r) (hasGunPower r) (gunCooldown r)
    (powerFlash r) v (comboCount r) (comboTimer r) (hasShieldPower r) (shieldActive r)
    (shieldHits r) (shieldMaxHits r) (shieldShatter r) (springLaunchTimer r) (facing r)
    (isBig r) (growthTransformTimer r) (magnetTimer r) (_justLaunchedSpring r).
#[global] Instance set_comboCount : Setter comboCount := fun v r =>
  mk (x r) (y r) (spawnX r) (spawnY r) (vx r) (vy r) (grounded r) (_coyoteUntil r) (rolling r)
    (rings r) (score r) (lives r) (invuln r) (jumpsRemaining r) (hasGunPower r) (gunCooldown r)
    (powerFlash r) (shootFlash r) v (comboTimer r) (hasShieldPower r) (shieldActive r)
    (shieldHits r) (shieldMaxHits r) (shieldShatter r) (springLaunchTimer r) (facing r)
    (isBig r) (growthTransformTimer r) (magnetTimer r) (_justLaunchedSpring r).
#[global] Instance set_comboTimer : Setter comboTimer := fun v r =>
  mk (x r) (y r) (spawnX r) (spawnY r) (vx r) (vy r) (grounded r) (_coyoteUntil r) (rolling r)
    (rings r) (score r) (lives r) (invuln r) (jumpsRemaining r) (hasGunPower r) (gunCooldown r)
    (powerFlash r) (shootFlash r) (comboCount r) v (hasShieldPower r) (shieldActive r)
    (shieldHits r) (shieldMaxHits r) (shieldShatter r) (springLaunchTimer r) (facing r)
    (isBig r) (growthTransformTimer r) (magnetTimer r) (_justLaunchedSpring r).
#[global] Instance set_hasShieldPower : Setter hasShieldPower := fun v r =>
  mk (x r) (y r) (spawnX r) (spawnY r) (vx r) (vy r) (grounded r) (_coyoteUntil r) (rolling r)
    (rings r) (score r) (lives r) (invuln r) (jumpsRemaining r) (hasGunPower r) (gunCooldown r)
    (powerFlash r) (shootFlash r) (comboCount r) (comboTimer r) v (shieldActive r)
    (shieldHits r) (shieldMaxHits r) (shieldShatter r) (springLaunchTimer r) (facing r)
    (isBig r) (growthTransformTimer r) (magnetTimer r) (_justLaunchedSpring r).
#[global] Instance set_shieldActive : Setter shieldActive := fun v r =>
  mk (x r) (y r) (spawnX r) (spawnY r) (vx r) (vy r) (grounded r) (_coyoteUntil r) (rolling r)
    (rings r) (score r) (lives r) (invuln r) (jumpsRemaining r) (hasGunPower r) (gunCooldown r)
    (powerFlash r) (shootFlash r) (comboCount r) (comboTimer r) (hasShieldPower r) v
    (shieldHits r) (shieldMaxHits r) (shieldShatter r) (springLaunchTimer r) (facing r)
    (isBig r) (growthTransformTimer r) (magnetTimer r) (_justLaunchedSpring r).
#[global] Instance set_shieldHits : Setter shieldHits := fun v r =>
  mk (x r) (y r) (spawnX r) (spawnY r) (vx r) (vy r) (grounded r) (_coyoteUntil r) (rolling r)
    (rings r) (score r) (lives r) (invuln r) (jumpsRemaining r) (hasGunPower r) (gunCooldown r)
    (powerFlash r) (shootFlash r) (comboCount r) (comboTimer r) (hasShieldPower r)
    (shieldActive r) v (shieldMaxHits r) (shieldShatter r) (springLaunchTimer r) (facing r)
    (isBig r) (growthTransformTimer r) (magnetTimer r) (_justLaunchedSpring r).
#[global] Instance set_shieldMaxHits : Setter shieldMaxHits := fun v r =>
  mk (x r) (y r) (spawnX r) (spawnY r) (vx r) (vy r) (grounded r) (_coyoteUntil r) (rolling r)
    (rings r) (score r) (lives r) (invuln r) (jumpsRemaining r) (hasGunPower r) (gunCooldown r)
    (powerFlash r) (shootFlash r) (comboCount r) (comboTimer r) (hasShieldPower r)
    (shieldActive r) (shieldHits r) v (shieldShatter r) (springLaunchTimer r) (facing r)
    (isBig r) (growthTransformTimer r) (magnetTimer r) (_justLaunchedSpring r).
#[global] Instance set_shieldShatter : Setter shieldShatter := fun v r =>
  mk (x r) (y r) (spawnX r) (spawnY r) (vx r) (vy r) (grounded r) (_coyoteUntil r) (rolling r)
    (rings r) (score r) (lives r) (invuln r) (jumpsRemaining r) (hasGunPower r) (gunCooldown r)
    (powerFlash r) (shootFlash r) (comboCount r) (comboTimer r) (hasShieldPower r)
    (shieldActive r) (shieldHits r) (shieldMaxHits r) v (springLaunchTimer r) (facing r)
    (isBig r) (growthTransformTimer r) (magnetTimer r) (_justLaunchedSpring r).
#[global] Instance set_springLaunchTimer : Setter springLaunchTimer := fun v r =>
  mk (x r) (y r) (spawnX r) (spawnY r) (vx r) (vy r) (grounded r) (_coyoteUntil r) (rolling r)
    (rings r) (score r) (lives r) (invuln r) (jumpsRemaining r) (hasGunPower r) (gunCooldown r)
    (powerFlash r) (shootFlash r) (comboCount r) (comboTimer r) (hasShieldPower r)
    (shieldActive r) (shieldHits r) (shieldMaxHits r) (shieldShatter r) v (facing r) (isBig r)
    (growthTransformTimer r) (magnetTimer r) (_justLaunchedSpring r).
#[global] Instance set_facing : Setter facing := fun v r =>
  mk (x r) (y r) (spawnX r) (spawnY r) (vx r) (vy r) (grounded r) (_coyoteUntil r) (rolling r)
    (rings r) (score r) (lives r) (invuln r) (jumpsRemaining r) (hasGunPower r) (gunCooldown r)
    (powerFlash r) (shootFlash r) (comboCount r) (comboTimer r) (hasShieldPower r)
    (shieldActive r) (shieldHits r) (shieldMaxHits r) (shieldShatter r) (springLaunchTimer r) v
    (isBig r) (growthTransformTimer r) (magnetTimer r) (_justLaunchedSpring r).
#[global] Instance set_isBig : Setter isBig := fun v r =>
  mk (x r) (y r) (spawnX r) (spawnY r) (vx r) (vy r) (grounded r) (_coyoteUntil r) (rolling r)
    (rings r) (score r) (lives r) (invuln r) (jumpsRemaining r) (hasGunPower r) (gunCooldown r)
    (powerFlash r) (shootFlash r) (comboCount r) (comboTimer r) (hasShieldPower r)
    (shieldActive r) (shieldHits r) (shieldMaxHits r) (shieldShatter r) (springLaunchTimer r)
    (facing r) v (growthTransformTimer r) (magnetTimer r) (_justLaunchedSpring r).
#[global] Instance set_growthTransformTimer : Setter growthTransformTimer := fun v r =>
  mk (x r) (y r) (spawnX r) (spawnY r) (vx r) (vy r) (grounded r) (_coyoteUntil r) (rolling r)
    (rings r) (score r) (lives r) (invuln r) (jumpsRemaining r) (hasGunPower r) (gunCooldown r)
    (powerFlash r) (shootFlash r) (comboCount r) (comboTimer r) (hasShieldPower r)
    (shieldActive r) (shieldHits r) (shieldMaxHits r) (shieldShatter r) (springLaunchTimer r)
    (facing r) (isBig r) v (magnetTimer r) (_justLaunchedSpring r).
#[global] Instance set_magnetTimer : Setter magnetTimer := fun v r =>
  mk (x r) (y r) (spawnX r) (spawnY r) (vx r) (vy r) (grounded r) (_coyoteUntil r) (rolling r)
    (rings r) (score r) (lives r) (invuln r) (jumpsRemaining r) (hasGunPower r) (gunCooldown r)
    (powerFlash r) (shootFlash r) (comboCount r) (comboTimer r) (hasShieldPower r)
    (shieldActive r) (shieldHits r) (shieldMaxHits r) (shieldShatter r) (springLaunchTimer r)
    (facing r) (isBig r) (growthTransformTimer r) v (_justLaunchedSpring r).
#[global] Instance set_justLaunchedSpring : Setter _justLaunchedSpring := fun v r =>
  mk (x r) (y r) (spawnX r) (spawnY r) (vx r) (vy r) (grounded r) (_coyoteUntil r) (rolling r)
    (rings r) (score r) (lives r) (invuln r) (jumpsRemaining r) (hasGunPower r) (gunCooldown r)
    (powerFlash r) (shootFlash r) (comboCount r) (comboTimer r) (hasShieldPower r)
    (shieldActive r) (shieldHits r) (shieldMaxHits r) (shieldShatter r) (springLaunchTimer r)
    (facing r) (isBig r) (growthTransformTimer r) (magnetTimer r) v.

(** [new Player({x, y})]. *)
Definition new (x0 y0 : Q) : t :=
  {| x := x0; y := y0; spawnX := x0; spawnY := y0; vx := 0; vy := 0;
     grounded := false; _coyoteUntil := 0; rolling := false;
     rings := 0; score := 0; lives := 5; invuln := 0; jumpsRemaining := 2;
     hasGunPower := false; gunCooldown := 0; powerFlash := 0; shootFlash := 0;
     comboCount := 0; comboTimer := 0;
     hasShieldPower := false; shieldActive := false; shieldHits := 0;
     shieldMaxHits := 5; shieldShatter := 0; springLaunchTimer := 0;
     facing := 1; isBig := false; growthTransformTimer := 0; magnetTimer := 0;
     _justLaunchedSpring := false |}.

Definition respawn (x0 y0 : Q) (p : t) : t :=
  p <| x := x0 |> <| y := y0 |> <| vx := 0 |> <| vy := 0 |>
    <| grounded := false |> <| _coyoteUntil := 0 |> <| rolling := false |>
    <| invuln := 0 |> <| jumpsRemaining := 2%Z |>
    <| hasGunPower := false |> <| gunCooldown := 0 |>
    <| powerFlash := 0 |> <| shootFlash := 0 |>
    <| comboCount := 0%Z |> <| comboTimer := 0 |>
    <| hasShieldPower := false |> <| shieldActive := false |>
    <| shieldHits := 0%Z |> <| shieldShatter := 0 |>
    <| springLaunchTimer := 0 |> <| isBig := false |>
    <| growthTransformTimer := 0 |> <| magnetTimer := 0 |>.

Definition setSpawn (x0 y0 : Q) (p : t) : t :=
  p <| spawnX := x0 |> <| spawnY := y0 |>.

Definition takeHit (knockDir : Q) (p : t) : t :=
  if 0 <? invuln p then p
  else if shieldActive p && hasShieldPower p then
    (* Shield absorbs damage first *)
    let p := p <| shieldHits := (shieldHits p + 1)%Z |> in
    if (shieldMaxHits p <=? shieldHits p)%Z
    then p <| shieldActive := false |> <| shieldShatter := 0.5 |>
    else p
  else if (0 <? rings p)%Z then
    p <| rings := 0%Z |> <| invuln := 1.0 |>
      <| vx := (- knockDir) * 2.5 |> <| vy := -4.5 |> <| grounded := false |>
  else if isBig p then
    (* Big hero: revert to small; small hero: lose life *)
    p <| isBig := false |> <| invuln := 1.2 |>
      <| vx := (- knockDir) * 3 |> <| vy := -5 |> <| grounded := false |>
  else
    let p := p <| lives := (lives p - 1)%Z |> <| invuln := 1.0 |> in
    respawn (spawnX p) (spawnY p) p.

Definition addComboScore (base : Z) (p : t) : t :=
  let nowCombo := if 0 <? comboTimer p then (comboCount p + 1)%Z else 1%Z in
  let p := p <| comboCount := nowCombo |> <| comboTimer := 1.5 |> in
  let mult := 1 + (inject_Z nowCombo - 1) * 0.5 in
  p <| score := (score p + Math_floor (inject_Z base * mult))%Z |>.

Definition getHitbox (p : t) : Rect.t :=
  let w := if isBig p then 20 else 16 in
  let h := if isBig p then 40 else 28 in
  if rolling p then
    let rw := if isBig p then 30 else 24 in
    let rh := if isBig p then 30 else 24 in
    rectFromCenterBottom (x p) (y p) rw rh
  else rectFromCenterBottom (x p) (y p) w h.

Definition _doJump (p : t) : t :=
  p <| grounded := false |> <| vy := - PHYS.jumpVel |>.

Definition _doDoubleJump (p : t) : t :=
  p <| grounded := false |> <| vy := (- PHYS.jumpVel) * 0.85 |>.

End Player.


(** ** The functions of [Math] that are not rational

    [Math.sin], [Math.sqrt] and [Math.PI] are not functions on [Q]; the model
    takes an interpretation of them as a parameter, and every theorem holds
    for all interpretations. *)

Class JSMath : Type := {
  Math_sin : Q -> Q;
  Math_sqrt : Q -> Q;
  Math_PI : Q
}.

(** The [%] operator on numbers: the remainder of the truncated division. *)
Definition Qtrunc (q : Q) : Z := Z.quot (Qnum q) (Zpos (Qden q)).
Definition fmod (a b : Q) : Q := a - b * inject_Z (Qtrunc (a / b)).

(** [for (let i = 0; i < n; i++)]: the values taken by [i]. *)
Definition upto (n : Z) : list Z := map Z.of_nat (seq 0 (Z.to_nat n)).

(** [for (const a of l) { ... }] where the body updates the element [a] in
    place and a state [s] around it. *)
Fixpoint forEach {A S : Type} (body : S -> A -> S * A) (s : S) (l : list A) : S * list A :=
  match l with
  | [] => (s, [])
  | a :: l' =>
      let '(s1, a') := body s a in
      let '(s2, l'') := forEach body s1 l' in
      (s2, a' :: l'')
  end.

(** [l.filter(keep)] where the callback [keep] also acts on a state [s]. *)
Fixpoint filterM {A S : Type} (keep : S -> A -> S * bool) (s : S) (l : list A)
  : S * list A :=
  match l with
  | [] => (s, [])
  | a :: l' =>
      let '(s1, k) := keep s a in
      let '(s2, l'') := filterM keep s1 l' in
      (s2, if k then a :: l'' else l'')
  end.

(** ** Level entities *)

Module Box.
Inductive type_t : Type := coin | power_green | power_blue | growth.
Record t : Type := mk {
  x : Q;
  y : Q;
  w : Q;
  h : Q;
  type : type_t;
  used : bool;
  bounceAnim : Q
}.

#[global] Instance set_x : Setter x := fun v r =>
  mk v (y r) (w r) (h r) (type r) (used r) (bounceAnim r).
#[global] Instance set_y : Setter y := fun v r =>
  mk (x r) v (w r) (h r) (type r) (used r) (bounceAnim r).
#[global] Instance set_w : Setter w := fun v r =>
  mk (x r) (y r) v (h r) (type r) (used r) (bounceAnim r).
#[global] Instance set_h : Setter h := fun v r =>
  mk (x r) (y r) (w r) v (type r) (used r) (bounceAnim r).
#[global] Instance set_type : Setter type := fun v r =>
  mk (x r) (y r) (w r) (h r) v (used r) (bounceAnim r).
#[global] Instance set_used : Setter used := fun v r =>
  mk (x r) (y r) (w r) (h r) (type r) v (bounceAnim r).
#[global] Instance set_bounceAnim : Setter bounceAnim := fun v r =>
  mk (x r) (y r) (w r) (h r) (type r) (used r) v.
End Box.

Module Spring.
Inductive dir_t : Type := up | diag_left | diag_right.
Record t : Type := mk {
  x : Q;
  y : Q;
  w : Q;
  h : Q;
  dir : dir_t;
  compress : Q
}.

#[global] Instance set_x : Setter x := fun v r =>
  mk v (y r) (w r) (h r) (dir r) (compress r).
#[global] Instance set_y : Setter y := fun v r =>
  mk (x r) v (w r) (h r) (dir r) (compress r).
#[global] Instance set_w : Setter w := fun v r =>
  mk (x r) (y r) v (h r) (dir r) (compress r).
#[global] Instance set_h : Setter h := fun v r =>
  mk (x r) (y r) (w r) v (dir r) (compress r).
#[global] Instance set_dir : Setter dir := fun v r =>
  mk (x r) (y r) (w r) (h r) v (compress r).
#[global] Instance set_compress : Setter compress := fun v r =>
  mk (x r) (y r) (w r) (h r) (dir r) v.
End Spring.

Module Coin.
(** [static] is absent ([undefined], hence falsy) on the coins released by
    boxes and by the boss. *)
Record t : Type := mk {
  x : Q;
  y : Q;
  vx : Q;
  vy : Q;
  active : bool;
  static : bool
}.

#[global] Instance set_x : Setter x := fun v r =>
  mk v (y r) (vx r) (vy r) (active r) (static r).
#[global] Instance set_y : Setter y := fun v r =>
  mk (x r) v (vx r) (vy r) (active r) (static r).
#[global] Instance set_vx : Setter vx := fun v r =>
  mk (x r) (y r) v (vy r) (active r) (static r).
#[global] Instance set_vy : Setter vy := fun v r =>
  mk (x r) (y r) (vx r) v (active r) (static r).
#[global] Instance set_active : Setter active := fun v r =>
  mk (x r) (y r) (vx r) (vy r) v (static r).
#[global] Instance set_static : Setter static := fun v r =>
  mk (x r) (y r) (vx r) (vy r) (active r) v.
End Coin.

Module MagnetPickup.
Record t : Type := mk {
  x : Q;
  y : Q;
  collected : bool;
  bob : Q
}.

#[global] Instance set_x : Setter x := fun v r =>
  mk v (y r) (collected r) (bob r).
#[global] Instance set_y : Setter y := fun v r =>
  mk (x r) v (collected r) (bob r).
#[global] Instance set_collected : Setter collected := fun v r =>
  mk (x r) (y r) v (bob r).
#[global] Instance set_bob : Setter bob := fun v r =>
  mk (x r) (y r) (collected r) v.
End MagnetPickup.

Module PowerPickup.
Record t : Type := mk {
  x : Q;
  y : Q;
  vy : Q;
  maxY : Q;
  type : Box.type_t;
  collected : bool;
  bob : Q
}.

#[global] Instance set_x : Setter x := fun v r =>
  mk v (y r) (vy r) (maxY r) (type r) (collected r) (bob r).
#[global] Instance set_y : Setter y := fun v r =>
  mk (x r) v (vy r) (maxY r) (type r) (collected r) (bob r).
#[global] Instance set_vy : Setter vy := fun v r =>
  mk (x r) (y r) v (maxY r) (type r) (collected r) (bob r).
#[global] Instance set_maxY : Setter maxY := fun v r =>
  mk (x r) (y r) (vy r) v (type r) (collected r) (bob r).
#[global] Instance set_type : Setter type := fun v r =>
  mk (x r) (y r) (vy r) (maxY r) v (collected r) (bob r).
#[global] Instance set_collected : Setter collected := fun v r =>
  mk (x r) (y r) (vy r) (maxY r) (type r) v (bob r).
#[global] Instance set_bob : Setter bob := fun v r =>
  mk (x r) (y r) (vy r) (maxY r) (type r) (collected r) v.
End PowerPickup.

Module Fruit.
Record t : Type := mk {
  x : Q;
  y : Q;
  vy : Q;
  maxY : Q;
  collected : bool;
  bob : Q
}.

#[global] Instance set_x : Setter x := fun v r =>
  mk v (y r) (vy r) (maxY r) (collected r) (bob r).
#[global] Instance set_y : Setter y := fun v r =>
  mk (x r) v (vy r) (maxY r) (collected r) (bob r).
#[global] Instance set_vy : Setter vy := fun v r =>
  mk (x r) (y r) v (maxY r) (collected r) (bob r).
#[global] Instance set_maxY : Setter maxY := fun v r =>
  mk (x r) (y r) (vy r) v (collected r) (bob r).
#[global] Instance set_collected : Setter collected := fun v r =>
  mk (x r) (y r) (vy r) (maxY r) v (bob r).
#[global] Instance set_bob : Setter bob := fun v r =>
  mk (x r) (y r) (vy r) (maxY r) (collected r) v.
End Fruit.

Module Bullet.
Record t : Type := mk {
  x : Q;
  y : Q;
  vx : Q;
  life : Q;
  dir : Q
}.

#[global] Instance set_x : Setter x := fun v r =>
  mk v (y r) (vx r) (life r) (dir r).
#[global] Instance set_y : Setter y := fun v r =>
  mk (x r) v (vx r) (life r) (dir r).
#[global] Instance set_vx : Setter vx := fun v r =>
  mk (x r) (y r) v (life r) (dir r).
#[global] Instance set_life : Setter life := fun v r =>
  mk (x r) (y r) (vx r) v (dir r).
#[global] Instance set_dir : Setter dir := fun v r =>
  mk (x r) (y r) (vx r) (life r) v.
End Bullet.

Module BossAttack.
Record t : Type := mk {
  x : Q;
  y : Q;
  vx : Q;
  vy : Q;
  life : Q;
  r : Q
}.

#[global] Instance set_x : Setter x := fun v a =>
  mk v (y a) (vx a) (vy a) (life a) (r a).
#[global] Instance set_y : Setter y := fun v a =>
  mk (x a) v (vx a) (vy a) (life a) (r a).
#[global] Instance set_vx : Setter vx := fun v a =>
  mk (x a) (y a) v (vy a) (life a) (r a).
#[global] Instance set_vy : Setter vy := fun v a =>
  mk (x a) (y a) (vx a) v (life a) (r a).
#[global] Instance set_life : Setter life := fun v a =>
  mk (x a) (y a) (vx a) (vy a) v (r a).
#[global] Instance set_r : Setter r := fun v a =>
  mk (x a) (y a) (vx a) (vy a) (life a) v.
End BossAttack.

(** ** Hostiles *)

Module Enemy.
Record t : Type := mk {
  x : Q; y : Q; w : Q; h : Q;
  baseX : Q; range : Q; speed : Q; dir : Q;
  alive : bool; hp : Q; maxHp : Q;
  hitTimer : Q; deathTimer : Q
}.

(** [new Enemy({x, y, range, speed, hp})]. *)
Definition new (x0 y0 range0 speed0 hp0 : Q) : t :=
  {| x := x0; y := y0; w := 32; h := 28; baseX := x0; range := range0;
     speed := speed0; dir := 1; alive := true; hp := hp0; maxHp := hp0;
     hitTimer := 0; deathTimer := 0 |}.

Definition getAabb (e : t) : Rect.t :=
  {| Rect.x := x e - w e / 2; Rect.y := y e - h e; Rect.w := w e; Rect.h := h e |}.

Definition takeHit (amount : Q) (e : t) : t :=
  if negb (alive e) then e
  else
    let hp' := Qmax 0 (hp e - amount) in
    let dead := hp' <=? 0 in
    {| x := x e; y := y e; w := w e; h := h e; baseX := baseX e; range := range e;
       speed := speed e; dir := dir e;
       alive := if dead then false else alive e;
       hp := hp'; maxHp := maxHp e;
       hitTimer := 0.2;
       deathTimer := if dead then 0.5 else deathTimer e |}.

Definition update (dt : Q) (e : t) : t :=
  if negb (alive e) then
    {| x := x e; y := y e; w := w e; h := h e; baseX := baseX e; range := range e;
       speed := speed e; dir := dir e; alive := alive e; hp := hp e; maxHp := maxHp e;
       hitTimer := hitTimer e;
       deathTimer := if 0 <? deathTimer e then Qmax 0 (deathTimer e - dt)
                     else deathTimer e |}
  else
    let hitTimer' := if 0 <? hitTimer e then Qmax 0 (hitTimer e - dt) else hitTimer e in
    let frameScale := dt * 60 in
    let x' := x e + dir e * speed e * frameScale in
    let dir1 := if baseX e + range e <? x' then -1 else dir e in
    let dir2 := if x' <? baseX e - range e then 1 else dir1 in
    {| x := x'; y := y e; w := w e; h := h e; baseX := baseX e; range := range e;
       speed := speed e; dir := dir2; alive := alive e; hp := hp e; maxHp := maxHp e;
       hitTimer := hitTimer'; deathTimer := deathTimer e |}.
End Enemy.

Module BirdEnemy.
Record t : Type := mk {
  x : Q; y : Q; baseX : Q; baseY : Q; range : Q; speed : Q; amp : Q;
  w : Q; h : Q; dir : Q; t_ : Q;
  alive : bool; hp : Q; maxHp : Q;
  hitTimer : Q; deathTimer : Q
}.

(** [new BirdEnemy({x, y, range, speed, amp, hp})]. *)
Definition new (x0 y0 range0 speed0 amp0 hp0 : Q) : t :=
  {| x := x0; y := y0; baseX := x0; baseY := y0; range := range0; speed := speed0;
     amp := amp0; w := 32; h := 24; dir := 1; t_ := 0; alive := true;
     hp := hp0; maxHp := hp0; hitTimer := 0; deathTimer := 0 |}.

Definition getAabb (e : t) : Rect.t :=
  {| Rect.x := x e - w e / 2; Rect.y := y e - h e / 2; Rect.w := w e; Rect.h := h e |}.

Definition takeHit (amount : Q) (e : t) : t :=
  if negb (alive e) then e
  else
    let hp' := Qmax 0 (hp e - amount) in
    let dead := hp' <=? 0 in
    {| x := x e; y := y e; baseX := baseX e; baseY := baseY e; range := range e;
       speed := speed e; amp := amp e; w := w e; h := h e; dir := dir e; t_ := t_ e;
       alive := if dead then false else alive e;
       hp := hp'; maxHp := maxHp e;
       hitTimer := 0.2;
       deathTimer := if dead then 0.5 else deathTimer e |}.

Definition update `{JSMath} (dt : Q) (e : t) : t :=
  if negb (alive e) then
    {| x := x e; y := y e; baseX := baseX e; baseY := baseY e; range := range e;
       speed := speed e; amp := amp e; w := w e; h := h e; dir := dir e; t_ := t_ e;
       alive := alive e; hp := hp e; maxHp := maxHp e; hitTimer := hitTimer e;
       deathTimer := if 0 <? deathTimer e then Qmax 0 (deathTimer e - dt)
                     else deathTimer e |}
  else
    let hitTimer' := if 0 <? hitTimer e then Qmax 0 (hitTimer e - dt) else hitTimer e in
    let frameScale := dt * 60 in
    let x' := x e + dir e * speed e * frameScale in
    let dir1 := if baseX e + range e <? x' then -1 else dir e in
    let dir2 := if x' <? baseX e - range e then 1 else dir1 in
    let t' := t_ e + dt in
    {| x := x'; y := baseY e + Math_sin (t' * 3) * amp e;
       baseX := baseX e; baseY := baseY e; range := range e;
       speed := speed e; amp := amp e; w := w e; h := h e; dir := dir2; t_ := t';
       alive := alive e; hp := hp e; maxHp := maxHp e;
       hitTimer := hitTimer'; deathTimer := deathTimer e |}.
End BirdEnemy.

(** The entries of [Level._enemies]: the code calls [update], [getAabb] and
    [takeHit] on them and reads [alive], [isFlying] and [x], whichever class
    they belong to. *)
Module Hostile.
Inductive t : Type :=
| Ground (e : Enemy.t)
| Bird (b : BirdEnemy.t).

Definition isFlying (e : t) : bool :=
  match e with Ground _ => false | Bird _ => true end.
Definition alive (e : t) : bool :=
  match e with Ground e => Enemy.alive e | Bird b => BirdEnemy.alive b end.
Definition x (e : t) : Q :=
  match e with Ground e => Enemy.x e | Bird b => BirdEnemy.x b end.
Definition getAabb (e : t) : Rect.t :=
  match e with Ground e => Enemy.getAabb e | Bird b => BirdEnemy.getAabb b end.
Definition takeHit (amount : Q) (e : t) : t :=
  match e with
  | Ground e => Ground (Enemy.takeHit amount e)
  | Bird b => Bird (BirdEnemy.takeHit amount b)
  end.
Definition update `{JSMath} (dt : Q) (e : t) : t :=
  match e with
  | Ground e => Ground (Enemy.update dt e)
  | Bird b => Bird (BirdEnemy.update dt b)
  end.
(** [e.alive = false], the assignment made by a stomp. *)
Definition kill (e : t) : t :=
  match e with
  | Ground e =>
      Ground {| Enemy.x := Enemy.x e; Enemy.y := Enemy.y e; Enemy.w := Enemy.w e;
                Enemy.h := Enemy.h e; Enemy.baseX := Enemy.baseX e;
                Enemy.range := Enemy.range e; Enemy.speed := Enemy.speed e;
                Enemy.dir := Enemy.dir e; Enemy.alive := false; Enemy.hp := Enemy.hp e;
                Enemy.maxHp := Enemy.maxHp e; Enemy.hitTimer := Enemy.hitTimer e;
                Enemy.deathTimer := Enemy.deathTimer e |}
  | Bird b =>
      Bird {| BirdEnemy.x := BirdEnemy.x b; BirdEnemy.y := BirdEnemy.y b;
              BirdEnemy.baseX := BirdEnemy.baseX b; BirdEnemy.baseY := BirdEnemy.baseY b;
              BirdEnemy.range := BirdEnemy.range b; BirdEnemy.speed := BirdEnemy.speed b;
              BirdEnemy.amp := BirdEnemy.amp b; BirdEnemy.w := BirdEnemy.w b;
              BirdEnemy.h := BirdEnemy.h b; BirdEnemy.dir := BirdEnemy.dir b;
              BirdEnemy.t_ := BirdEnemy.t_ b; BirdEnemy.alive := false;
              BirdEnemy.hp := BirdEnemy.hp b; BirdEnemy.maxHp := BirdEnemy.maxHp b;
              BirdEnemy.hitTimer := BirdEnemy.hitTimer b;
              BirdEnemy.deathTimer := BirdEnemy.deathTimer b |}
  end.
End Hostile.

Module Boss.
(** [_hitParticles], which only the renderer reads and which is the one place
    where the program draws random numbers, is left out. *)
Record t : Type := mk {
  x : Q; y : Q; baseX : Q; range : Q; w : Q; h : Q;
  maxHp : Q; hp : Q; alive : bool;
  hurtTimer : Q; deathTimer : Q; dir : Q;
  attackCooldown : Q; attackInterval : Q
}.

(** [new Boss({x, y, levelIndex, maxHp})]. *)
Definition new (x0 y0 levelIndex maxHp0 : Q) : t :=
  {| x := x0; y := y0; baseX := x0; range := 200 + levelIndex * 10; w := 96; h := 96;
     maxHp := maxHp0; hp := maxHp0; alive := true; hurtTimer := 0; deathTimer := 0;
     dir := -1; attackCooldown := 0; attackInterval := 2.5 - levelIndex * 0.1 |}.

Definition getAabb (b : t) : Rect.t :=
  {| Rect.x := x b - w b / 2; Rect.y := y b - h b; Rect.w := w b; Rect.h := h b |}.

Definition takeHit (amount : Q) (b : t) : t :=
  if negb (alive b) then b
  else
    let hp' := Qmax 0 (hp b - amount) in
    let dead := hp' <=? 0 in
    {| x := x b; y := y b; baseX := baseX b; range := range b; w := w b; h := h b;
       maxHp := maxHp b; hp := hp';
       alive := if dead then false else alive b;
       hurtTimer := 0.3;
       deathTimer := if dead then 0.6 else deathTimer b;
       dir := dir b; attackCooldown := attackCooldown b;
       attackInterval := attackInterval b |}.

(** [update(dt, player, level)] reads [player.x] and may call
    [level.spawnBossAttack]; the attack to spawn, if any, is returned with
    the boss. *)
Definition update (dt : Q) (playerX : Q) (b : t) : t * option BossAttack.t :=
  let frameScale := dt * 60 in
  let hurtTimer' := if 0 <? hurtTimer b then Qmax 0 (hurtTimer b - dt) else hurtTimer b in
  if negb (alive b) then
    ({| x := x b; y := y b; baseX := baseX b; range := range b; w := w b; h := h b;
        maxHp := maxHp b; hp := hp b; alive := alive b; hurtTimer := hurtTimer';
        deathTimer := Qmax 0 (deathTimer b - dt);
        dir := dir b; attackCooldown := attackCooldown b;
        attackInterval := attackInterval b |}, None)
  else
    let x' := x b + dir b * 0.7 * frameScale in
    let dir1 := if baseX b + range b <? x' then -1 else dir b in
    let dir2 := if x' <? baseX b - range b then 1 else dir1 in
    let moved cooldown :=
      {| x := x'; y := y b; baseX := baseX b; range := range b; w := w b; h := h b;
         maxHp := maxHp b; hp := hp b; alive := alive b; hurtTimer := hurtTimer';
         deathTimer := deathTimer b; dir := dir2; attackCooldown := cooldown;
         attackInterval := attackInterval b |} in
    if 0 <? attackCooldown b then
      (moved (Qmax 0 (attackCooldown b - dt)), None)
    else
      let dx := playerX - x' in
      let distX := Qabs dx in
      if (distX <? 800) && (30 <? distX) then
        let speed := 5 in
        let vx := if 0 <? dx then speed else - speed in
        let vy := 0 in
        (moved (attackInterval b),
         Some {| BossAttack.x := x'; BossAttack.y := y b - 40; BossAttack.vx := vx;
                 BossAttack.vy := vy; BossAttack.life := 3.0; BossAttack.r := 12 |})
      else (moved (attackCooldown b), None).
End Boss.


(** ** Mission tasks and level themes *)

Module Task.
Inductive type_t : Type :=
| coins | flyingEnemies | groundEnemies | springsUsed | bothCoins | bossNoShield | timeLimit.

(** [target] is [None] where the code reads [undefined] out of an array. *)
Record t : Type := mk {
  id : string;
  type : type_t;
  target : option Z;
  mandatory : bool;
  description : string
}.
End Task.

Module Progress.
Record t : Type := mk {
  coinsCollected : Z;
  flyingKilled : Z;
  flyingTotal : Z;
  groundKilled : Z;
  groundTotal : Z;
  springsUsed : Z;
  hasPowerCoin : bool;
  hasShieldCoin : bool;
  bossDefeatedNoShield : bool;
  startTime : option Q;  (* undefined until the first tick *)
  reachedGoal : bool;
  goalReachedTime : option Q  (* undefined until the goal is reached *)
}.

#[global] Instance set_coinsCollected : Setter coinsCollected := fun v r =>
  mk v (flyingKilled r) (flyingTotal r) (groundKilled r) (groundTotal r) (springsUsed r)
    (hasPowerCoin r) (hasShieldCoin r) (bossDefeatedNoShield r) (startTime r) (reachedGoal r)
    (goalReachedTime r).
#[global] Instance set_flyingKilled : Setter flyingKilled := fun v r =>
  mk (coinsCollected r) v (flyingTotal r) (groundKilled r) (groundTotal r) (springsUsed r)
    (hasPowerCoin r) (hasShieldCoin r) (bossDefeatedNoShield r) (startTime r) (reachedGoal r)
    (goalReachedTime r).
#[global] Instance set_flyingTotal : Setter flyingTotal := fun v r =>
  mk (coinsCollected r) (flyingKilled r) v (groundKilled r) (groundTotal r) (springsUsed r)
    (hasPowerCoin r) (hasShieldCoin r) (bossDefeatedNoShield r) (startTime r) (reachedGoal r)
    (goalReachedTime r).
#[global] Instance set_groundKilled : Setter groundKilled := fun v r =>
  mk (coinsCollected r) (flyingKilled r) (flyingTotal r) v (groundTotal r) (springsUsed r)
    (hasPowerCoin r) (hasShieldCoin r) (bossDefeatedNoShield r) (startTime r) (reachedGoal r)
    (goalReachedTime r).
#[global] Instance set_groundTotal : Setter groundTotal := fun v r =>
  mk (coinsCollected r) (flyingKilled r) (flyingTotal r) (groundKilled r) v (springsUsed r)
    (hasPowerCoin r) (hasShieldCoin r) (bossDefeatedNoShield r) (startTime r) (reachedGoal r)
    (goalReachedTime r).
#[global] Instance set_springsUsed : Setter springsUsed := fun v r =>
  mk (coinsCollected r) (flyingKilled r) (flyingTotal r) (groundKilled r) (groundTotal r) v
    (hasPowerCoin r) (hasShieldCoin r) (bossDefeatedNoShield r) (startTime r) (reachedGoal r)
    (goalReachedTime r).
#[global] Instance set_hasPowerCoin : Setter hasPowerCoin := fun v r =>
  mk (coinsCollected r) (flyingKilled r) (flyingTotal r) (groundKilled r) (groundTotal r)
    (springsUsed r) v (hasShieldCoin r) (bossDefeatedNoShield r) (startTime r) (reachedGoal r)
    (goalReachedTime r).
#[global] Instance set_hasShieldCoin : Setter hasShieldCoin := fun v r =>
  mk (coinsCollected r) (flyingKilled r) (flyingTotal r) (groundKilled r) (groundTotal r)
    (springsUsed r) (hasPowerCoin r) v (bossDefeatedNoShield r) (startTime r) (reachedGoal r)
    (goalReachedTime r).
#[global] Instance set_bossDefeatedNoShield : Setter bossDefeatedNoShield := fun v r =>
  mk (coinsCollected r) (flyingKilled r) (flyingTotal r) (groundKilled r) (groundTotal r)
    (springsUsed r) (hasPowerCoin r) (hasShieldCoin r) v (startTime r) (reachedGoal r)
    (goalReachedTime r).
#[global] Instance set_startTime : Setter startTime := fun v r =>
  mk (coinsCollected r) (flyingKilled r) (flyingTotal r) (groundKilled r) (groundTotal r)
    (springsUsed r) (hasPowerCoin r) (hasShieldCoin r) (bossDefeatedNoShield r) v
    (reachedGoal r) (goalReachedTime r).
#[global] Instance set_reachedGoal : Setter reachedGoal := fun v r =>
  mk (coinsCollected r) (flyingKilled r) (flyingTotal r) (groundKilled r) (groundTotal r)
    (springsUsed r) (hasPowerCoin r) (hasShieldCoin r) (bossDefeatedNoShield r) (startTime r) v
    (goalReachedTime r).
#[global] Instance set_goalReachedTime : Setter goalReachedTime := fun v r =>
  mk (coinsCollected r) (flyingKilled r) (flyingTotal r) (groundKilled r) (groundTotal r)
    (springsUsed r) (hasPowerCoin r) (hasShieldCoin r) (bossDefeatedNoShield r) (startTime r)
    (reachedGoal r) v.
End Progress.

(** [a[i]] for an integer [i]: [undefined] outside the array. *)
Definition arrayGet {A : Type} (a : list A) (i : Z) : option A :=
  if (i <? 0)%Z then None else nth_error a (Z.to_nat i).

(** The template literal [`${n}`] of an integer. *)
Definition string_of_Z (n : Z) : string := NilZero.string_of_int (Z.to_int n).

Definition getTasksForLevel (levelIndex : Z) : list Task.t :=
  let L := ("L" ++ string_of_Z levelIndex)%string in
  let coinTargets := [8; 10; 12; 14; 16; 18; 20; 22; 24; 26]%Z in
  let pool :=
    [ Task.mk (L ++ "_coins") Task.coins (arrayGet coinTargets (Z.min levelIndex 9))
        true "Collect gold coins";
      Task.mk (L ++ "_fly") Task.flyingEnemies (Some (-1)%Z)
        (levelIndex <? 5)%Z "Defeat all flying enemies";
      Task.mk (L ++ "_spring") Task.springsUsed
        (Some (if (levelIndex <? 4)%Z then 2 else 3)%Z) false "Use spring jumps" ]
    ++ (if (2 <=? levelIndex)%Z
        then [Task.mk (L ++ "_both") Task.bothCoins (Some 1%Z) false
                "Collect green & blue coins"] else [])
    ++ (if (4 <=? levelIndex)%Z
        then [Task.mk (L ++ "_boss") Task.bossNoShield (Some 1%Z) false
                "Defeat boss with shield intact"] else [])
    ++ (if (3 <=? levelIndex)%Z
        then [Task.mk (L ++ "_ground") Task.groundEnemies (Some (-1)%Z) false
                "Defeat all ground enemies"] else [])
    ++ (if (5 <=? levelIndex)%Z
        then [Task.mk (L ++ "_time") Task.timeLimit
                (arrayGet [120; 150; 140; 180; 160; 200]%Z (Z.rem levelIndex 6)) false
                "Reach goal in time"] else []) in
  let count := Z.min (Z.of_nat (length pool)) (Z.max 2 (2 + Z.rem levelIndex 3)) in
  firstn (Z.to_nat count) pool.

Module LevelDef.
Record t : Type := mk {
  name : string; sky : string; hill : string; groundTop : string; dirt : string
}.
End LevelDef.

Definition LEVEL_DEFS : list LevelDef.t :=
  [ LevelDef.mk "Green Plains (Day)" "#8cb4ff" "rgba(47,160,110,0.45)" "#2fdc74" "#a86a2a";
    LevelDef.mk "Haunted Hills (Night)" "#070814" "rgba(140,140,255,0.14)" "#4fe68a" "#3b2430";
    LevelDef.mk "Forest Grove" "#5dc7ff" "rgba(25,110,65,0.55)" "#2fdc74" "#5c3b22";
    LevelDef.mk "Underwater Ruins" "#154064" "rgba(80,160,220,0.45)" "#6ad7ff" "#24405d";
    LevelDef.mk "Desert Dunes" "#ffd08a" "rgba(220,160,80,0.35)" "#c7ff6a" "#c08a2a";
    LevelDef.mk "Sky Islands" "#bfe6ff" "rgba(255,255,255,0.45)" "#e8fff7" "#6a7a8a";
    LevelDef.mk "Lava Caverns" "#2a0b0b" "rgba(255,120,60,0.25)" "#ffcc6a" "#5a1a10";
    LevelDef.mk "City Rooftops" "#0a0f2a" "rgba(255,255,255,0.10)" "#5dffb0" "#3a3a44";
    LevelDef.mk "Ocean Night" "#062238" "rgba(40,170,220,0.35)" "#2fdc74" "#20485f";
    LevelDef.mk "Starship Zone" "#05060d" "rgba(120,255,240,0.12)" "#66fff0" "#2a2a38" ].

(** ** The level: construction and reset *)

Module Level.
(** [_clouds], [_coinAnim], [_powerCoinAnim] and [_muzzleFlash] are read only
    by the renderer and are left out. *)
Record t : Type := mk {
  def : option LevelDef.t;  (* entry of LEVEL_DEFS, undefined when the lookup misses *)
  index : Z;
  width : Q;
  height : Q;
  _solids : list Rect.t;
  _coins : list Coin.t;
  _enemies : list Hostile.t;
  _powerPickups : list PowerPickup.t;
  _bullets : list Bullet.t;
  _boss : option Boss.t;  (* null before the first reset *)
  _bossRewarded : bool;
  _bossAttacks : list BossAttack.t;
  _springs : list Spring.t;
  _boxes : list Box.t;
  _fruits : list Fruit.t;
  _magnetPickups : list MagnetPickup.t;
  goalX : Q;
  _tasks : list Task.t;
  _progress : Progress.t;
  _completedTasks : gset string;
  _justCompleted : option (string * Q)  (* id and remaining timer *)
}.

#[global] Instance set_def : Setter def := fun v r =>
  mk v (index r) (width r) (height r) (_solids r) (_coins r) (_enemies r) (_powerPickups r)
    (_bullets r) (_boss r) (_bossRewarded r) (_bossAttacks r) (_springs r) (_boxes r)
    (_fruits r) (_magnetPickups r) (goalX r) (_tasks r) (_progress r) (_completedTasks r)
    (_justCompleted r).
#[global] Instance set_index : Setter index := fun v r =>
  mk (def r) v (width r) (height r) (_solids r) (_coins r) (_enemies r) (_powerPickups r)
    (_bullets r) (_boss r) (_bossRewarded r) (_bossAttacks r) (_springs r) (_boxes r)
    (_fruits r) (_magnetPickups r) (goalX r) (_tasks r) (_progress r) (_completedTasks r)
    (_justCompleted r).
#[global] Instance set_width : Setter width := fun v r =>
  mk (def r) (index r) v (height r) (_solids r) (_coins r) (_enemies r) (_powerPickups r)
    (_bullets r) (_boss r) (_bossRewarded r) (_bossAttacks r) (_springs r) (_boxes r)
    (_fruits r) (_magnetPickups r) (goalX r) (_tasks r) (_progress r) (_completedTasks r)
    (_justCompleted r).
#[global] Instance set_height : Setter height := fun v r =>
  mk (def r) (index r) (width r) v (_solids r) (_coins r) (_enemies r) (_powerPickups r)
    (_bullets r) (_boss r) (_bossRewarded r) (_bossAttacks r) (_springs r) (_boxes r)
    (_fruits r) (_magnetPickups r) (goalX r) (_tasks r) (_progress r) (_completedTasks r)
    (_justCompleted r).
#[global] Instance set_solids : Setter _solids := fun v r =>
  mk (def r) (index r) (width r) (height r) v (_coins r) (_enemies r) (_powerPickups r)
    (_bullets r) (_boss r) (_bossRewarded r) (_bossAttacks r) (_springs r) (_boxes r)
    (_fruits r) (_magnetPickups r) (goalX r) (_tasks r) (_progress r) (_completedTasks r)
    (_justCompleted r).
#[global] Instance set_coins : Setter _coins := fun v r =>
  mk (def r) (index r) (width r) (height r) (_solids r) v (_enemies r) (_powerPickups r)
    (_bullets r) (_boss r) (_bossRewarded r) (_bossAttacks r) (_springs r) (_boxes r)
    (_fruits r) (_magnetPickups r) (goalX r) (_tasks r) (_progress r) (_completedTasks r)
    (_justCompleted r).
#[global] Instance set_enemies : Setter _enemies := fun v r =>
  mk (def r) (index r) (width r) (height r) (_solids r) (_coins r) v (_powerPickups r)
    (_bullets r) (_boss r) (_bossRewarded r) (_bossAttacks r) (_springs r) (_boxes r)
    (_fruits r) (_magnetPickups r) (goalX r) (_tasks r) (_progress r) (_completedTasks r)
    (_justCompleted r).
#[global] Instance set_powerPickups : Setter _powerPickups := fun v r =>
  mk (def r) (index r) (width r) (height r) (_solids r) (_coins r) (_enemies r) v (_bullets r)
    (_boss r) (_bossRewarded r) (_bossAttacks r) (_springs r) (_boxes r) (_fruits r)
    (_magnetPickups r) (goalX r) (_tasks r) (_progress r) (_completedTasks r) (_justCompleted r).
#[global] Instance set_bullets : Setter _bullets := fun v r =>
  mk (def r) (index r) (width r) (height r) (_solids r) (_coins r) (_enemies r)
    (_powerPickups r) v (_boss r) (_bossRewarded r) (_bossAttacks r) (_springs r) (_boxes r)
    (_fruits r) (_magnetPickups r) (goalX r) (_tasks r) (_progress r) (_completedTasks r)
    (_justCompleted r).
#[global] Instance set_boss : Setter _boss := fun v r =>
  mk (def r) (index r) (width r) (height r) (_solids r) (_coins r) (_enemies r)
    (_powerPickups r) (_bullets r) v (_bossRewarded r) (_bossAttacks r) (_springs r) (_boxes r)
    (_fruits r) (_magnetPickups r) (goalX r) (_tasks r) (_progress r) (_completedTasks r)
    (_justCompleted r).
#[global] Instance set_bossRewarded : Setter _bossRewarded := fun v r =>
  mk (def r) (index r) (width r) (height r) (_solids r) (_coins r) (_enemies r)
    (_powerPickups r) (_bullets r) (_boss r) v (_bossAttacks r) (_springs r) (_boxes r)
    (_fruits r) (_magnetPickups r) (goalX r) (_tasks r) (_progress r) (_completedTasks r)
    (_justCompleted r).
#[global] Instance set_bossAttacks : Setter _bossAttacks := fun v r =>
  mk (def r) (index r) (width r) (height r) (_solids r) (_coins r) (_enemies r)
    (_powerPickups r) (_bullets r) (_boss r) (_bossRewarded r) v (_springs r) (_boxes r)
    (_fruits r) (_magnetPickups r) (goalX r) (_tasks r) (_progress r) (_completedTasks r)
    (_justCompleted r).
#[global] Instance set_springs : Setter _springs := fun v r =>
  mk (def r) (index r) (width r) (height r) (_solids r) (_coins r) (_enemies r)
    (_powerPickups r) (_bullets r) (_boss r) (_bossRewarded r) (_bossAttacks r) v (_boxes r)
    (_fruits r) (_magnetPickups r) (goalX r) (_tasks r) (_progress r) (_completedTasks r)
    (_justCompleted r).
#[global] Instance set_boxes : Setter _boxes := fun v r =>
  mk (def r) (index r) (width r) (height r) (_solids r) (_coins r) (_enemies r)
    (_powerPickups r) (_bullets r) (_boss r) (_bossRewarded r) (_bossAttacks r) (_springs r) v
    (_fruits r) (_magnetPickups r) (goalX r) (_tasks r) (_progress r) (_completedTasks r)
    (_justCompleted r).
#[global] Instance set_fruits : Setter _fruits := fun v r =>
  mk (def r) (index r) (width r) (height r) (_solids r) (_coins r) (_enemies r)
    (_powerPickups r) (_bullets r) (_boss r) (_bossRewarded r) (_bossAttacks r) (_springs r)
    (_boxes r) v (_magnetPickups r) (goalX r) (_tasks r) (_progress r) (_completedTasks r)
    (_justCompleted r).
#[global] Instance set_magnetPickups : Setter _magnetPickups := fun v r =>
  mk (def r) (index r) (width r) (height r) (_solids r) (_coins r) (_enemies r)
    (_powerPickups r) (_bullets r) (_boss r) (_bossRewarded r) (_bossAttacks r) (_springs r)
    (_boxes r) (_fruits r) v (goalX r) (_tasks r) (_progress r) (_completedTasks r)
    (_justCompleted r).
#[global] Instance set_goalX : Setter goalX := fun v r =>
  mk (def r) (index r) (width r) (height r) (_solids r) (_coins r) (_enemies r)
    (_powerPickups r) (_bullets r) (_boss r) (_bossRewarded r) (_bossAttacks r) (_springs r)
    (_boxes r) (_fruits r) (_magnetPickups r) v (_tasks r) (_progress r) (_completedTasks r)
    (_justCompleted r).
#[global] Instance set_tasks : Setter _tasks := fun v r =>
  mk (def r) (index r) (width r) (height r) (_solids r) (_coins r) (_enemies r)
    (_powerPickups r) (_bullets r) (_boss r) (_bossRewarded r) (_bossAttacks r) (_springs r)
    (_boxes r) (_fruits r) (_magnetPickups r) (goalX r) v (_progress r) (_completedTasks r)
    (_justCompleted r).
#[global] Instance set_progress : Setter _progress := fun v r =>
  mk (def r) (index r) (width r) (height r) (_solids r) (_coins r) (_enemies r)
    (_powerPickups r) (_bullets r) (_boss r) (_bossRewarded r) (_bossAttacks r) (_springs r)
    (_boxes r) (_fruits r) (_magnetPickups r) (goalX r) (_tasks r) v (_completedTasks r)
    (_justCompleted r).
#[global] Instance set_completedTasks : Setter _completedTasks := fun v r =>
  mk (def r) (index r) (width r) (height r) (_solids r) (_coins r) (_enemies r)
    (_powerPickups r) (_bullets r) (_boss r) (_bossRewarded r) (_bossAttacks r) (_springs r)
    (_boxes r) (_fruits r) (_magnetPickups r) (goalX r) (_tasks r) (_progress r) v
    (_justCompleted r).
#[global] Instance set_justCompleted : Setter _justCompleted := fun v r =>
  mk (def r) (index r) (width r) (height r) (_solids r) (_coins r) (_enemies r)
    (_powerPickups r) (_bullets r) (_boss r) (_bossRewarded r) (_bossAttacks r) (_springs r)
    (_boxes r) (_fruits r) (_magnetPickups r) (goalX r) (_tasks r) (_progress r)
    (_completedTasks r) v.

(** [new Level(def, index)].  The constructor leaves [_progress] as the empty
    object; [reset], which [createLevel] runs next, assigns every field of
    it. *)
Definition new (def0 : option LevelDef.t) (index0 : Z) : t :=
  let width0 := 6200 + inject_Z index0 * 520 in
  {| def := def0; index := index0; width := width0; height := 900;
     _solids := []; _coins := []; _enemies := []; _powerPickups := [];
     _bullets := []; _boss := None; _bossRewarded := false; _bossAttacks := [];
     _springs := []; _boxes := []; _fruits := []; _magnetPickups := [];
     goalX := width0 - 120; _tasks := [];
     _progress := Progress.mk 0 0 0 0 0 0 false false false None false None;
     _completedTasks := ∅; _justCompleted := None |}.

(** [Array.prototype.find], with the position of the element found. *)
Fixpoint findIndex {A : Type} (f : A -> bool) (l : list A) : option (nat * A) :=
  match l with
  | [] => None
  | a :: l' =>
      if f a then Some (O, a)
      else match findIndex f l' with
           | Some (k, b) => Some (S k, b)
           | None => None
           end
  end.

Definition newBox (x0 y0 : Q) (ty : Box.type_t) : Box.t :=
  {| Box.x := x0; Box.y := y0; Box.w := 32; Box.h := 32; Box.type := ty;
     Box.used := false; Box.bounceAnim := 0 |}.

Definition newSpring (x0 y0 : Q) (d : Spring.dir_t) : Spring.t :=
  {| Spring.x := x0; Spring.y := y0; Spring.w := 24; Spring.h := 16;
     Spring.dir := d; Spring.compress := 0 |}.

Definition floorCoin (x0 y0 : Q) : Coin.t :=
  {| Coin.x := x0; Coin.y := y0; Coin.vx := 0; Coin.vy := 0;
     Coin.active := true; Coin.static := true |}.

Definition newMagnet (x0 y0 : Q) : MagnetPickup.t :=
  {| MagnetPickup.x := x0; MagnetPickup.y := y0;
     MagnetPickup.collected := false; MagnetPickup.bob := 0 |}.

Definition reset (l : t) : t :=
  let idx := index l in
  let i := inject_Z idx in
  let imod (n : Z) : Q := inject_Z (Z.rem idx n) in
  let ifloor (n : Z) : Z := (idx / n)%Z in
  let even (k : Z) : bool := (Z.rem k 2 =? 0)%Z in
  (* Slight variation per level so it feels different. *)
  let lift := imod 3%Z * 10 in
  let pitWidth := 180 + imod 4%Z * 40 in
  let pitX1 := 980 + imod 5%Z * 30 in
  let pitX2 := pitX1 + pitWidth in
  let solids0 :=
    [ Rect.mk 0 (300 + lift) pitX1 600;
      Rect.mk pitX2 (300 + lift) (width l - pitX2) 600;
      Rect.mk 320 (250 - lift) 120 20;
      Rect.mk 520 (220 - lift) 140 20;
      Rect.mk 760 (260 - lift) 120 20;
      Rect.mk 1450 (210 - lift) 260 20 ] in
  let baseY := 300 + lift in
  let springBaseX := pitX2 + 400 + i * 80 in
  let BOX_HEIGHT_ABOVE_GROUND := 48 in
  let boxW := 32 in
  let boxH := 32 in
  let boxY (platformTopY : Q) : Q := platformTopY - BOX_HEIGHT_ABOVE_GROUND - boxH in
  let floorCoinY := baseY - 10 in
  let coins :=
    flat_map (fun k => let gx := 120 + inject_Z k * 55 + imod 3%Z * 5 in
                       if gx <? pitX1 - 40 then [floorCoin gx floorCoinY] else [])
             (upto 14)
    ++ flat_map (fun k => let gx := pitX2 + 80 + inject_Z k * 60 + imod 2%Z * 8 in
                          if gx <? width l - 80 then [floorCoin gx floorCoinY] else [])
                (upto 12) in
  let magnetY := baseY - 12 in
  let magnets :=
    [ newMagnet 420 magnetY;
      newMagnet (pitX2 + 350 + i * 40) magnetY;
      newMagnet (springBaseX + 350) magnetY ]
    ++ (if (3 <=? idx)%Z then [newMagnet (width l - 1200) magnetY] else []) in
  let springs :=
    [ newSpring 340 (250 - lift) Spring.up;
      newSpring 800 (260 - lift) Spring.up;
      newSpring 1480 (210 - lift) Spring.diag_right;
      newSpring springBaseX (baseY - 20) Spring.up;
      newSpring (springBaseX + 380) (baseY - 80) Spring.diag_left;
      newSpring (springBaseX + 720) (baseY - 120) Spring.up;
      newSpring (width l - 800) (baseY - 40) Spring.diag_right ] in
  let plat1 := 250 - lift in
  let plat2 := 220 - lift in
  let plat3 := 260 - lift in
  let plat4 := 210 - lift in
  let boxes0 :=
    [ newBox 380 (boxY plat1) Box.coin;
      newBox 440 (boxY plat1) Box.coin;
      newBox 500 (boxY plat1) Box.coin;
      newBox 560 (boxY plat2) Box.coin;
      newBox 620 (boxY plat2) Box.power_green;
      newBox 680 (boxY plat2) Box.coin;
      newBox 740 (boxY plat3) Box.growth;
      newBox 800 (boxY plat3) Box.coin;
      newBox (1100 + i * 60) (boxY baseY) Box.coin;
      newBox (springBaseX + 120) (boxY (baseY - 20)) Box.coin;
      newBox (springBaseX + 200) (boxY (baseY - 20)) Box.power_blue;
      newBox (springBaseX + 280) (boxY (baseY - 20)) Box.coin;
      newBox (springBaseX + 440) (boxY (baseY - 100)) Box.coin;
      newBox (springBaseX + 500) (boxY (baseY - 100)) Box.growth;
      newBox (springBaseX + 560) (boxY (baseY - 100)) Box.coin;
      newBox (springBaseX + 680) (boxY (baseY - 140)) Box.power_green;
      newBox (springBaseX + 740) (boxY (baseY - 140)) Box.coin ] in
  (* Boss near the far right of the level on ground. *)
  let bossHp := 10 + i * 4 in
  let boss := Boss.new (width l - 260) baseY i bossHp in
  (* Enemies: more as levels go up. *)
  let enemyCount := (1 + ifloor 2%Z)%Z in
  let enemies0 :=
    map (fun k =>
           let ex := 520 + inject_Z k * 260 + imod 3%Z * 40 in
           let ey := 300 + lift in
           let hp := if even k then 2 else 1 in
           Hostile.Ground (Enemy.new ex ey (90 + inject_Z k * 20) (0.55 + i * 0.02) hp))
        (upto enemyCount) in
  let birdCount := (2 + ifloor 3%Z)%Z in
  let birds :=
    map (fun k =>
           let bx := 900 + i * 260 + inject_Z k * 420 in
           let by_ := 200 - imod 3%Z * 20 - inject_Z k * 10 in
           Hostile.Bird (BirdEnemy.new bx by_ (140 + i * 12) (0.8 + i * 0.03)
                           (20 + inject_Z (Z.rem k 2) * 10) 1))
        (upto birdCount) in
  let enemies1 := enemies0 ++ birds in
  (* Extra length and obstacles: a different pattern per level group. *)
  let layoutType := Z.rem idx 4 in
  let '(solids, boxes, enemies) :=
    if (layoutType =? 0)%Z then
      (* Type A: long staircase and sky route on the right side. *)
      let extraPitStart := width l - 1100 in
      let extraPitWidth := 220 + imod 3%Z * 40 in
      let solidsA :=
        match findIndex (fun s => (Rect.y s =? baseY) && (580 <=? Rect.h s)
                                  && (Rect.x s <? width l - 10)) solids0 with
        | Some (k, lastGround) =>
            let oldRight := Rect.x lastGround + Rect.w lastGround in
            let newRight := extraPitStart in
            let afterPitStart := extraPitStart + extraPitWidth in
            if afterPitStart <? oldRight - 80 then
              <[ k := Rect.mk (Rect.x lastGround) (Rect.y lastGround)
                        (Qmax 0 (newRight - Rect.x lastGround)) (Rect.h lastGround) ]> solids0
              ++ [Rect.mk afterPitStart baseY (oldRight - afterPitStart) (Rect.h lastGround)]
            else solids0
        | None => solids0
        end in
      let stepWidth := 140 in
      let stepHeight := 20 in
      let firstStepX := pitX2 + 120 in
      let firstStepY := baseY - 70 in
      let steps := (4 + Z.min 4 idx)%Z in
      let stairs :=
        map (fun k => Rect.mk (firstStepX + inject_Z k * (stepWidth + 40))
                        (firstStepY - inject_Z k * 30) stepWidth stepHeight)
            (upto steps) in
      let skyY := baseY - 260 in
      let skyPlatforms := (3 + Z.min 3 (ifloor 2%Z))%Z in
      let sky :=
        map (fun k => Rect.mk (firstStepX + 140 + inject_Z k * 260 + i * 40)
                        (skyY + (if even k then 0 else -40)) 160 20)
            (upto skyPlatforms) in
      let stairCoins := (8 + idx)%Z in
      let stairBoxes :=
        map (fun k => let cx := firstStepX + 20 + inject_Z k * 70 in
                      let stepTop := firstStepY - inject_Z k * 30 in
                      newBox (cx - boxW / 2) (boxY stepTop) Box.coin)
            (upto stairCoins) in
      let skyCoins := (6 + ifloor 2%Z)%Z in
      let skyBoxes :=
        map (fun k => let cx := firstStepX + 140 + inject_Z k * 220 + i * 30 in
                      let platTop := skyY + (if even k then 0 else -40) in
                      newBox (cx - boxW / 2) (boxY platTop) Box.coin)
            (upto skyCoins) in
      (solidsA ++ stairs ++ sky,
       boxes0 ++ stairBoxes ++ skyBoxes,
       enemies1 ++
       [ Hostile.Ground (Enemy.new (firstStepX + 3 * (stepWidth + 40) + i * 40) baseY
                           (140 + i * 10) (0.75 + i * 0.03) 2);
         Hostile.Ground (Enemy.new (width l - 550) baseY
                           (160 + i * 8) (0.85 + i * 0.035) 2) ])
    else if (layoutType =? 1)%Z then
      (* Type B: zig-zag mid-air platforms and multiple short pits. *)
      let segmentStart := pitX2 + 260 in
      let pits := (3 + ifloor 2%Z)%Z in
      let pitSolids :=
        map (fun k => let pitStart := segmentStart + inject_Z k * 320 in
                      let pitW := 120 + inject_Z (Z.rem k 2) * 60 in
                      Rect.mk (pitStart + pitW) baseY 200 600)
            (upto pits) in
      let platCount := (6 + idx)%Z in
      let plats :=
        map (fun k => Rect.mk (segmentStart + inject_Z k * 210)
                        (baseY - 80 - inject_Z k * 10 * (if even k then 1 else -1)) 130 20)
            (upto platCount) in
      let platBoxes :=
        map (fun k => let cx := segmentStart + inject_Z k * 210 + 40 in
                      let platTop :=
                        baseY - 80 - inject_Z k * 10 * (if even k then 1 else -1) in
                      newBox (cx - boxW / 2) (boxY platTop) Box.coin)
            (upto platCount) in
      (solids0 ++ pitSolids ++ plats,
       boxes0 ++ platBoxes,
       enemies1 ++
       [ Hostile.Ground (Enemy.new (segmentStart + 260) baseY
                           (120 + i * 12) (0.8 + i * 0.03) 2);
         Hostile.Ground (Enemy.new (segmentStart + 260 * 3) (baseY - 40)
                           (140 + i * 10) (0.85 + i * 0.03) 1) ])
    else if (layoutType =? 2)%Z then
      (* Type C: tall vertical towers and small floating stepping stones. *)
      let towerBase := pitX2 + 220 in
      let towerCount := (4 + ifloor 2%Z)%Z in
      let towers :=
        map (fun k => Rect.mk (towerBase + inject_Z k * 320)
                        (baseY - 80 - inject_Z k * 10) 80 680)
            (upto towerCount) in
      let stoneCount := (10 + idx)%Z in
      let stones :=
        map (fun k => Rect.mk (towerBase + 80 + inject_Z k * 160)
                        (baseY - 180 - inject_Z (Z.rem k 3) * 40) 90 18)
            (upto stoneCount) in
      let stoneBoxes :=
        map (fun k => let cx := towerBase + 80 + inject_Z k * 160 + 30 in
                      let platTop := baseY - 180 - inject_Z (Z.rem k 3) * 40 in
                      newBox (cx - boxW / 2) (boxY platTop) Box.coin)
            (upto stoneCount) in
      (solids0 ++ towers ++ stones,
       boxes0 ++ stoneBoxes,
       enemies1 ++
       [ Hostile.Ground (Enemy.new (towerBase + 160) baseY
                           (150 + i * 10) (0.8 + i * 0.03) 2);
         Hostile.Ground (Enemy.new (towerBase + 160 * 3) (baseY - 60)
                           (130 + i * 8) (0.9 + i * 0.03) 1) ])
    else
      (* Type D: high sky path with sparse ground islands. *)
      let islandBase := pitX2 + 260 in
      let islandCount := (4 + ifloor 2%Z)%Z in
      let islands :=
        map (fun k => Rect.mk (islandBase + inject_Z k * 420) baseY 180 600)
            (upto islandCount) in
      let skyPathY := baseY - 260 in
      let skyPlats := (6 + idx)%Z in
      let path :=
        map (fun k => Rect.mk (islandBase + inject_Z k * 220)
                        (skyPathY + (if even k then -30 else 20)) 150 20)
            (upto skyPlats) in
      let pathBoxes :=
        map (fun k => let cx := islandBase + inject_Z k * 220 + 50 in
                      let platTop := skyPathY + (if even k then -30 else 20) in
                      newBox (cx - boxW / 2) (boxY platTop) Box.coin)
            (upto skyPlats) in
      (solids0 ++ islands ++ path,
       boxes0 ++ pathBoxes,
       enemies1 ++
       [ Hostile.Ground (Enemy.new (islandBase + 260) (baseY - 40)
                           (150 + i * 10) (0.85 + i * 0.03) 2);
         Hostile.Ground (Enemy.new (width l - 620) (baseY - 80)
                           (190 + i * 8) (0.95 + i * 0.03) 1) ]) in
  (* Mission tasks: 2-4 per level, varied *)
  let flyingTotal := Z.of_nat (length (filter (fun e => Hostile.isFlying e) enemies)) in
  let groundTotal :=
    Z.of_nat (length (filter (fun e => negb (Hostile.isFlying e)) enemies)) in
  let tasks :=
    map (fun t =>
           match Task.type t with
           | Task.flyingEnemies =>
               Task.mk (Task.id t) (Task.type t) (Some flyingTotal) (Task.mandatory t)
                 (Task.description t)
           | Task.groundEnemies =>
               Task.mk (Task.id t) (Task.type t) (Some groundTotal) (Task.mandatory t)
                 (Task.description t)
           | _ => t
           end)
        (getTasksForLevel idx) in
  let progress :=
    {| Progress.coinsCollected := 0; Progress.flyingKilled := 0;
       Progress.flyingTotal := flyingTotal; Progress.groundKilled := 0;
       Progress.groundTotal := groundTotal; Progress.springsUsed := 0;
       Progress.hasPowerCoin := false; Progress.hasShieldCoin := false;
       Progress.bossDefeatedNoShield := false; Progress.startTime := None;
       Progress.reachedGoal := false; Progress.goalReachedTime := None |} in
  l <| _bossRewarded := false |> <| _solids := solids |> <| _powerPickups := [] |>
    <| _coins := coins |> <| _magnetPickups := magnets |> <| _springs := springs |>
    <| _boxes := boxes |> <| _boss := Some boss |> <| _enemies := enemies |>
    <| _tasks := tasks |> <| _progress := progress |>
    <| _completedTasks := ∅ |> <| _justCompleted := None |>.

Definition spawnBullet (x0 y0 dir0 : Q) (l : t) : t :=
  let speed := 12 in
  l <| _bullets := _bullets l ++
         [ {| Bullet.x := x0; Bullet.y := y0; Bullet.vx := dir0 * speed;
              Bullet.life := 1.0; Bullet.dir := dir0 |} ] |>.

Definition spawnBossAttack (a : BossAttack.t) (l : t) : t :=
  l <| _bossAttacks := _bossAttacks l ++ [a] |>.

Definition areMandatoryTasksComplete (l : t) : bool :=
  forallb (fun t => negb (Task.mandatory t && negb (bool_decide (Task.id t ∈ _completedTasks l))))
          (_tasks l).

Definition hasAliveBoss (l : t) : bool :=
  match _boss l with Some b => Boss.alive b | None => false end.

Definition getSolidsNear (hb : Rect.t) (l : t) : list Rect.t :=
  let margin := 96 in
  let minX := Rect.x hb - margin in
  let maxX := Rect.x hb + Rect.w hb + margin in
  let platformSolids :=
    filter (fun s => (Rect.x s <? maxX) && (minX <? Rect.x s + Rect.w s)) (_solids l) in
  let boxTopHeight := 8 in
  let boxTops :=
    map (fun b => Rect.mk (Box.x b) (Box.y b) (Box.w b) boxTopHeight)
        (filter (fun b => (minX <? Box.x b + Box.w b) && (Box.x b <? maxX)) (_boxes l)) in
  platformSolids ++ boxTops.

(** *** The per-tick update

    [Level.update(dt, player, nowSeconds)] is a sequence of blocks, each a
    loop over one collection; every block below is one of them, in the order
    of the source, acting on the pair of the level and the player.  [phb] is
    the player's hitbox taken once at the start of the update, and [px], [py]
    its centre. *)

Definition state : Type := t * Player.t.

(** Opening statements: start time, goal detection, the "just completed"
    timer. *)
Definition updateProgressClock (dt nowSeconds : Q) (st : state) : state :=
  let '(l, player) := st in
  let pr := _progress l in
  let pr :=
    match Progress.startTime pr with
    | None => pr <| Progress.startTime := Some nowSeconds |>
    | Some _ => pr
    end in
  let pr :=
    if goalX l - 20 <=? Player.x player then
      let pr := pr <| Progress.reachedGoal := true |> in
      match Progress.goalReachedTime pr with
      | None => pr <| Progress.goalReachedTime := Some nowSeconds |>
      | Some _ => pr
      end
    else pr in
  let jc :=
    match _justCompleted l with
    | Some (id, timer) =>
        let timer := timer - dt in
        if timer <=? 0 then None else Some (id, timer)
    | None => None
    end in
  (l <| _progress := pr |> <| _justCompleted := jc |>, player).

(** Springs: when the player lands on a spring, launch upward or diagonal. *)
Definition springStep (dt : Q) (phb : Rect.t) (st : state) (s : Spring.t)
  : state * Spring.t :=
  let '(l, player) := st in
  let playerBottom := Rect.y phb + Rect.h phb in
  let s :=
    if 0 <? Spring.compress s
    then s <| Spring.compress := Qmax 0 (Spring.compress s - dt * 4) |>
    else s in
  let sx := Spring.x s - Spring.w s / 2 in
  let sy := Spring.y s - Spring.h s in
  let sb := Rect.mk sx sy (Spring.w s) (Spring.h s) in
  if negb (aabbIntersects phb sb) then (st, s)
  else if Player.vy player <? 0 then (st, s)
  else if playerBottom <? sy + 4 then (st, s)
  else if Spring.y s + 8 <? playerBottom then (st, s)
  else
    let s := s <| Spring.compress := 0.35 |> in
    let pr := _progress l in
    let l := l <| _progress := pr <| Progress.springsUsed :=
                                       (Progress.springsUsed pr + 1)%Z |> |> in
    let player :=
      player <| Player.grounded := false |> <| Player.springLaunchTimer := 0.4 |>
             <| Player._justLaunchedSpring := true |> in
    let normalJumpVel := 6.5 in
    let springBoost := 1.35 in
    let maxSpringVy := (- normalJumpVel) * springBoost in
    let player :=
      match Spring.dir s with
      | Spring.up => player <| Player.vy := maxSpringVy |> <| Player.vx := 0 |>
      | Spring.diag_left => player <| Player.vy := maxSpringVy |> <| Player.vx := -4 |>
      | Spring.diag_right => player <| Player.vy := maxSpringVy |> <| Player.vx := 4 |>
      end in
    ((l, player), s).

Definition updateSprings (dt : Q) (phb : Rect.t) (st : state) : state :=
  let '((l, player), springs) := forEach (springStep dt phb) st (_springs (fst st)) in
  (l <| _springs := springs |>, player).

(** The content released by a box when it is activated: coins pushed on
    [_coins], or a power orb on [_powerPickups], or a fruit on [_fruits]. *)
Definition spawnContent (box : Box.t) (l : t) : t :=
  let SPAWN_OFFSET_ABOVE_BOX := 28 in
  let cx := Box.x box + Box.w box / 2 in
  let boxTopY := Box.y box in
  let spawnY := boxTopY - SPAWN_OFFSET_ABOVE_BOX in
  match Box.type box with
  | Box.coin =>
      let count := Z.max 1 (1 + Z.rem (index l) 3) in
      l <| _coins := _coins l ++
             map (fun i =>
                    {| Coin.x := cx + (inject_Z i - inject_Z count / 2) * 8;
                       Coin.y := spawnY;
                       Coin.vx := (inject_Z i - inject_Z count / 2) * 1.8;
                       Coin.vy := -9 - inject_Z i * 0.6;
                       Coin.active := true; Coin.static := false |})
                 (upto count) |>
  | Box.power_green | Box.power_blue =>
      let POWER_MAX_RISE := 22 in
      l <| _powerPickups := _powerPickups l ++
             [ {| PowerPickup.x := cx; PowerPickup.y := spawnY; PowerPickup.vy := -3.2;
                  PowerPickup.maxY := spawnY - POWER_MAX_RISE;
                  PowerPickup.type := Box.type box;
                  PowerPickup.collected := false; PowerPickup.bob := 0 |} ] |>
  | Box.growth =>
      let FRUIT_MAX_RISE := 22 in
      l <| _fruits := _fruits l ++
             [ {| Fruit.x := cx; Fruit.y := spawnY; Fruit.vy := -3.2;
                  Fruit.maxY := spawnY - FRUIT_MAX_RISE;
                  Fruit.collected := false; Fruit.bob := 0 |} ] |>
  end.

(** The activation test of a box: horizontal overlap with the hitbox, the
    player moving upward, and the top of the hitbox sweeping across the
    bottom edge of the box during this tick. *)
Definition hitsFromBelow (dt : Q) (phb : Rect.t) (player : Player.t) (box : Box.t) : bool :=
  let frameScale := dt * 60 in
  let boxLeft := Box.x box in
  let boxRight := Box.x box + Box.w box in
  let boxBottom := Box.y box + Box.h box in
  let boxTop := Box.y box in
  if (Rect.x phb + Rect.w phb <? boxLeft) || (boxRight <? Rect.x phb) then false
  else if 0 <=? Player.vy player then false
  else
    let playerTop := Rect.y phb in
    let playerBottom := Rect.y phb + Rect.h phb in
    let prevPlayerTop := playerTop - Player.vy player * frameScale in
    (boxBottom <=? prevPlayerTop) && (playerTop <? boxBottom) && (boxTop <? playerBottom).

(** Body of the loop over [_boxes]. *)
Definition boxStep (dt : Q) (phb : Rect.t) (st : state) (box : Box.t) : state * Box.t :=
  let '(l, player) := st in
  let box :=
    if 0 <? Box.bounceAnim box
    then box <| Box.bounceAnim := Qmax 0 (Box.bounceAnim box - dt) |>
    else box in
  (* One-time use: after activation, disable further collisions *)
  if Box.used box then (st, box)
  else if negb (hitsFromBelow dt phb player box) then (st, box)
  else
    (* Activate once: bounce animation, spawn item instantly, set used *)
    let box := box <| Box.used := true |> <| Box.bounceAnim := 0.28 |> in
    let l := spawnContent box l in
    let player := player <| Player.vy := 0.6 |> in
    ((l, player), box).

Definition updateBoxes (dt : Q) (phb : Rect.t) (st : state) : state :=
  let '((l, player), boxes) := forEach (boxStep dt phb) st (_boxes (fst st)) in
  (l <| _boxes := boxes |>, player).

(** Released coins: gravity, bounce; floor coins (static) do not move. *)
Definition coinPhysics (dt boxGroundY : Q) (c : Coin.t) : Coin.t :=
  if negb (Coin.active c) then c
  else if Coin.static c then c
  else
    let grav := 0.4 in
    let c := c <| Coin.vy := Coin.vy c + grav * dt * 60 |> in
    let c := c <| Coin.y := Coin.y c + Coin.vy c * dt * 60 |> in
    let c := c <| Coin.x := Coin.x c + Coin.vx c * dt * 60 |> in
    if boxGroundY <=? Coin.y c then
      let c := c <| Coin.y := boxGroundY |> in
      let c := c <| Coin.vy := (- Coin.vy c) * 0.45 |> in
      if Qabs (Coin.vy c) <? 2 then c <| Coin.vy := 0 |> else c
    else c.

Definition updateCoins (dt : Q) (st : state) : state :=
  let '(l, player) := st in
  let boxGroundY := 300 + inject_Z (Z.rem (index l) 3) * 10 in
  (l <| _coins := map (coinPhysics dt boxGroundY) (_coins l) |>, player).

(** What collecting a coin does, on both collection paths. *)
Definition collectCoin (st : state) (c : Coin.t) : state * Coin.t :=
  let '(l, player) := st in
  let c := c <| Coin.active := false |> in
  let pr := _progress l in
  let l := l <| _progress := pr <| Progress.coinsCollected :=
                                     (Progress.coinsCollected pr + 1)%Z |> |> in
  let player := player <| Player.rings := (Player.rings player + 1)%Z |> in
  let player := Player.addComboScore 10 player in
  ((l, player), c).

Definition magnetStep `{JSMath} (dt px py : Q) (st : state) (c : Coin.t) : state * Coin.t :=
  let MAGNET_RADIUS := 140 in
  let MAGNET_PULL_SPEED := 5.5 in
  let MAGNET_COLLECT_R := 28 in
  if negb (Coin.active c) then (st, c)
  else
    let dx := px - Coin.x c in
    let dy := py - Coin.y c in
    let dist := Math_sqrt (dx * dx + dy * dy) in
    let '(c, dist) :=
      if (dist <? MAGNET_RADIUS) && (0.1 <? dist) then
        let move := MAGNET_PULL_SPEED * dt * 60 in
        let c := c <| Coin.x := Coin.x c + (dx / dist) * Qmin move dist |> in
        let c := c <| Coin.y := Coin.y c + (dy / dist) * Qmin move dist |> in
        let dx := px - Coin.x c in
        let dy := py - Coin.y c in
        (c, Math_sqrt (dx * dx + dy * dy))
      else (c, dist) in
    if dist <? MAGNET_COLLECT_R then collectCoin st c else (st, c).

Definition updateMagnetField `{JSMath} (dt px py : Q) (st : state) : state :=
  if 0 <? Player.magnetTimer (snd st) then
    let '((l, player), coins) := forEach (magnetStep dt px py) st (_coins (fst st)) in
    (l <| _coins := coins |>, player)
  else st.

Definition coinStep (px py : Q) (st : state) (c : Coin.t) : state * Coin.t :=
  let r := 16 in
  let r2 := r * r in
  if negb (Coin.active c) then (st, c)
  else
    let dx := Coin.x c - px in
    let dy := Coin.y c - py in
    if dx * dx + dy * dy <=? r2 then collectCoin st c else (st, c).

Definition collectCoins (px py : Q) (st : state) : state :=
  let '((l, player), coins) := forEach (coinStep px py) st (_coins (fst st)) in
  (l <| _coins := coins |>, player).

(** The bob animation of a magnet pickup, advanced by one tick. *)
Definition magnetBob `{JSMath} (dt : Q) (mp : MagnetPickup.t) : MagnetPickup.t :=
  mp <| MagnetPickup.bob := fmod (MagnetPickup.bob mp + dt * 6) (Math_PI * 2) |>.

(** The radius test between the centre [(px, py)] of the hitbox and a magnet
    pickup at its bobbing height. *)
Definition magnetReached `{JSMath} (px py : Q) (mp : MagnetPickup.t) : bool :=
  let mx := MagnetPickup.x mp in
  let my := MagnetPickup.y mp + Math_sin (MagnetPickup.bob mp) * 4 in
  let mdx := px - mx in
  let mdy := py - my in
  mdx * mdx + mdy * mdy <=? 24 * 24.

(** Magnet pickups: collecting one sets the timer to 8 seconds. *)
Definition magnetPickupStep `{JSMath} (dt px py : Q) (st : state) (mp : MagnetPickup.t)
  : state * MagnetPickup.t :=
  let '(l, player) := st in
  if MagnetPickup.collected mp then (st, mp)
  else
    let mp := magnetBob dt mp in
    if magnetReached px py mp then
      let mp := mp <| MagnetPickup.collected := true |> in
      let player := player <| Player.magnetTimer := 8 |> in
      ((l, player), mp)
    else (st, mp).

Definition updateMagnetPickups `{JSMath} (dt px py : Q) (st : state) : state :=
  let '((l, player), mps) :=
    forEach (magnetPickupStep dt px py) st (_magnetPickups (fst st)) in
  (l <| _magnetPickups := filter (fun m => negb (MagnetPickup.collected m)) mps |>, player).

(** Power pickups (green gun / blue shield): controlled rise, then float. *)
Definition powerPickupStep `{JSMath} (dt : Q) (phb : Rect.t) (st : state) (pp : PowerPickup.t)
  : state * PowerPickup.t :=
  let '(l, player) := st in
  let powerGravityLight := 0.06 in
  let powerMaxUpwardVy := -3.5 in
  if PowerPickup.collected pp then (st, pp)
  else
    let pp := pp <| PowerPickup.y := PowerPickup.y pp + PowerPickup.vy pp * dt * 60 |> in
    let pp := pp <| PowerPickup.vy := PowerPickup.vy pp + powerGravityLight * dt * 60 |> in
    let pp := pp <| PowerPickup.vy := Qmin (PowerPickup.vy pp) 1.2 |> in
    let pp :=
      if PowerPickup.vy pp <? powerMaxUpwardVy
      then pp <| PowerPickup.vy := powerMaxUpwardVy |> else pp in
    let pp :=
      if PowerPickup.y pp <? PowerPickup.maxY pp
      then pp <| PowerPickup.y := PowerPickup.maxY pp |> <| PowerPickup.vy := 0 |>
      else pp in
    let pp := pp <| PowerPickup.bob := fmod (PowerPickup.bob pp + dt * 5) (Math_PI * 2) |> in
    let pb := Rect.mk (PowerPickup.x pp - 14) (PowerPickup.y pp - 14) 28 28 in
    if aabbIntersects phb pb then
      let pp := pp <| PowerPickup.collected := true |> in
      let pr := _progress l in
      let '(l, player) :=
        match PowerPickup.type pp with
        | Box.power_green =>
            (l <| _progress := pr <| Progress.hasPowerCoin := true |> |>,
             player <| Player.hasGunPower := true |> <| Player.gunCooldown := 0 |>)
        | _ =>
            (l <| _progress := pr <| Progress.hasShieldCoin := true |> |>,
             player <| Player.hasShieldPower := true |>)
        end in
      let player := player <| Player.powerFlash := 0.5 |> in
      ((l, player), pp)
    else (st, pp).

Definition updatePowerPickups `{JSMath} (dt : Q) (phb : Rect.t) (st : state) : state :=
  let '((l, player), pps) := forEach (powerPickupStep dt phb) st (_powerPickups (fst st)) in
  (l <| _powerPickups := filter (fun p => negb (PowerPickup.collected p)) pps |>, player).

(** Fruit: controlled rise, then float in place. *)
Definition fruitStep `{JSMath} (dt : Q) (phb : Rect.t) (st : state) (fruit : Fruit.t)
  : state * Fruit.t :=
  let '(l, player) := st in
  let fruitGravityLight := 0.06 in
  let fruitMaxUpwardVy := -3.5 in
  if Fruit.collected fruit then (st, fruit)
  else
    let fruit := fruit <| Fruit.y := Fruit.y fruit + Fruit.vy fruit * dt * 60 |> in
    let fruit := fruit <| Fruit.vy := Fruit.vy fruit + fruitGravityLight * dt * 60 |> in
    let fruit := fruit <| Fruit.vy := Qmin (Fruit.vy fruit) 1.2 |> in
    let fruit :=
      if Fruit.vy fruit <? fruitMaxUpwardVy
      then fruit <| Fruit.vy := fruitMaxUpwardVy |> else fruit in
    let fruit :=
      if Fruit.y fruit <? Fruit.maxY fruit
      then fruit <| Fruit.y := Fruit.maxY fruit |> <| Fruit.vy := 0 |>
      else fruit in
    let fruit := fruit <| Fruit.bob := fmod (Fruit.bob fruit + dt * 5) (Math_PI * 2) |> in
    let fruitBox := Rect.mk (Fruit.x fruit - 14) (Fruit.y fruit - 14) 28 28 in
    if aabbIntersects phb fruitBox then
      let fruit := fruit <| Fruit.collected := true |> in
      let player :=
        player <| Player.isBig := true |> <| Player.growthTransformTimer := 0.6 |> in
      ((l, player), fruit)
    else (st, fruit).

Definition updateFruits `{JSMath} (dt : Q) (phb : Rect.t) (st : state) : state :=
  let '((l, player), fruits) := forEach (fruitStep dt phb) st (_fruits (fst st)) in
  (l <| _fruits := filter (fun f => negb (Fruit.collected f)) fruits |>, player).

(** Enemies: stomp if falling and the player was above, else the player is
    hit. *)
Definition enemyStep (phb : Rect.t) (st : state) (e : Hostile.t) : state * Hostile.t :=
  let '(l, player) := st in
  if negb (Hostile.alive e) then (st, e)
  else
    let eb := Hostile.getAabb e in
    if negb (aabbIntersects phb eb) then (st, e)
    else
      let playerBottom := Rect.y phb + Rect.h phb in
      let enemyTop := Rect.y eb in
      let wasAbove := playerBottom - Player.vy player <=? enemyTop + 6 in
      if (0 <? Player.vy player) && wasAbove then
        let e := Hostile.kill e in
        let pr := _progress l in
        let pr :=
          if Hostile.isFlying e
          then pr <| Progress.flyingKilled := (Progress.flyingKilled pr + 1)%Z |>
          else pr <| Progress.groundKilled := (Progress.groundKilled pr + 1)%Z |> in
        let player := Player.addComboScore 100 player in
        let player := player <| Player.vy := -4.5 |> <| Player.grounded := false |> in
        ((l <| _progress := pr |>, player), e)
      else
        let knockDir := if Player.x player <? Hostile.x e then -1 else 1 in
        ((l, Player.takeHit knockDir player), e).

Definition updateEnemies `{JSMath} (dt : Q) (phb : Rect.t) (st : state) : state :=
  let '(l, player) := st in
  let l := l <| _enemies := map (Hostile.update dt) (_enemies l) |> in
  let '((l, player), enemies) := forEach (enemyStep phb) (l, player) (_enemies l) in
  (l <| _enemies := enemies |>, player).

(** Contact between the player and a living boss, once the boss has moved:
    the pair returned is the boss and the player after the contact. *)
Definition bossContact (phb : Rect.t) (boss : Boss.t) (player : Player.t)
  : Boss.t * Player.t :=
  if Boss.alive boss then
    let bb := Boss.getAabb boss in
    if aabbIntersects phb bb then
      let playerBottom := Rect.y phb + Rect.h phb in
      let bossTop := Rect.y bb in
      let wasAboveBoss := playerBottom - Player.vy player <=? bossTop + 8 in
      if (0 <? Player.vy player) && wasAboveBoss then
        (* Stomp bounces player only; boss takes damage ONLY from hero bullets *)
        (boss, player <| Player.vy := -5 |> <| Player.grounded := false |>)
      else
        let knockDir := if Player.x player <? Boss.x boss then -1 else 1 in
        (boss, Player.takeHit knockDir player)
    else (boss, player)
  else (boss, player).

(** Boss update and collisions. *)
Definition updateBoss (dt : Q) (phb : Rect.t) (st : state) : state :=
  let '(l, player) := st in
  match _boss l with
  | Some boss =>
      let '(boss, attack) := Boss.update dt (Player.x player) boss in
      let l :=
        match attack with
        | Some a => spawnBossAttack a l
        | None => l
        end in
      let '(boss, player) := bossContact phb boss player in
      (l <| _boss := Some boss |>, player)
  | None => st
  end.

(** Boss attacks: move and collide with the player.  [filterM] is
    [Array.prototype.filter] with a callback that also acts on the state. *)
Definition attackFilter (phb : Rect.t) (st : state) (atk : BossAttack.t) : state * bool :=
  let '(l, player) := st in
  if (BossAttack.life atk <=? 0) || (BossAttack.x atk <? -100)
     || (width l + 100 <? BossAttack.x atk) then (st, false)
  else
    let ab := Rect.mk (BossAttack.x atk - BossAttack.r atk) (BossAttack.y atk - BossAttack.r atk)
                (BossAttack.r atk * 2) (BossAttack.r atk * 2) in
    if aabbIntersects phb ab then
      (* Hit player - shield absorbs if active *)
      let knockDir := if Player.x player <? BossAttack.x atk then -1 else 1 in
      ((l, Player.takeHit knockDir player), false)
    else (st, true).

Definition updateBossAttacks (dt : Q) (phb : Rect.t) (st : state) : state :=
  let '(l, player) := st in
  let frameScale := dt * 60 in
  let moved :=
    map (fun atk =>
           atk <| BossAttack.x := BossAttack.x atk + BossAttack.vx atk * frameScale |>
               <| BossAttack.y := BossAttack.y atk + BossAttack.vy atk * frameScale |>
               <| BossAttack.life := BossAttack.life atk - dt |>)
        (_bossAttacks l) in
  let '((l, player), kept) := filterM (attackFilter phb) (l, player) moved in
  (l <| _bossAttacks := kept |>, player).

(** The inner loop of the bullet callback: the first living enemy that the
    bullet overlaps takes the hit. *)
Fixpoint bulletHitsEnemy (bb : Rect.t) (enemies : list Hostile.t)
  : option (Hostile.t * list Hostile.t) :=
  match enemies with
  | [] => None
  | e :: rest =>
      if Hostile.alive e && aabbIntersects bb (Hostile.getAabb e)
      then let e := Hostile.takeHit 1 e in Some (e, e :: rest)
      else match bulletHitsEnemy bb rest with
           | Some (hit, rest') => Some (hit, e :: rest')
           | None => None
           end
  end.

Definition bulletFilter (st : state) (b : Bullet.t) : state * bool :=
  let '(l, player) := st in
  if (Bullet.life b <=? 0) || (Bullet.x b <? -100) || (width l + 100 <? Bullet.x b)
  then (st, false)
  else
    let bb := Rect.mk (Bullet.x b - 4) (Bullet.y b - 4) 8 8 in
    match bulletHitsEnemy bb (_enemies l) with
    | Some (e, enemies) =>
        let l := l <| _enemies := enemies |> in
        if negb (Hostile.alive e) then
          let pr := _progress l in
          let pr :=
            if Hostile.isFlying e
            then pr <| Progress.flyingKilled := (Progress.flyingKilled pr + 1)%Z |>
            else pr <| Progress.groundKilled := (Progress.groundKilled pr + 1)%Z |> in
          ((l <| _progress := pr |>, Player.addComboScore 80 player), false)
        else ((l, player), false)
    | None =>
        (* Bullet vs boss *)
        match _boss l with
        | Some boss =>
            if Boss.alive boss && aabbIntersects bb (Boss.getAabb boss) then
              ((l <| _boss := Some (Boss.takeHit 1 boss) |>,
                Player.addComboScore 150 player), false)
            else (st, true)
        | None => (st, true)
        end
    end.

(** Bullets: move forward and hit any enemies, then the boss. *)
Definition updateBullets (dt : Q) (st : state) : state :=
  let '(l, player) := st in
  let frameScale := dt * 60 in
  let moved :=
    map (fun b => b <| Bullet.x := Bullet.x b + Bullet.vx b * frameScale |>
                    <| Bullet.life := Bullet.life b - dt |>)
        (_bullets l) in
  let '((l, player), kept) := filterM bulletFilter (l, player) moved in
  (l <| _bullets := kept |>, player).

(** Boss defeat: stop attacks, drop many coins and a reward. *)
Definition bossDefeat (st : state) : state :=
  let '(l, player) := st in
  match _boss l with
  | Some boss =>
      if negb (Boss.alive boss) && negb (_bossRewarded l) then
        let l := l <| _bossRewarded := true |> <| _bossAttacks := [] |> in
        let pr := _progress l in
        let l :=
          l <| _progress := pr <| Progress.bossDefeatedNoShield :=
                 (Player.shieldHits player <? Player.shieldMaxHits player)%Z |> |> in
        let player := Player.addComboScore 1000 player in
        let player := player <| Player.rings := (Player.rings player + 20)%Z |> in
        let cx := Boss.x boss in
        let cy := Boss.y boss - 40 in
        let l :=
          l <| _coins := _coins l ++
                 map (fun i =>
                        {| Coin.x := cx - 120 + inject_Z i * 10;
                           Coin.y := cy - inject_Z (Z.rem i 4) * 8;
                           Coin.vx := (inject_Z (Z.rem i 5) - 2) * 2.5;
                           Coin.vy := -6 - inject_Z (Z.rem i 3) * 2;
                           Coin.active := true; Coin.static := false |})
                     (upto 24) |> in
        let rewardY := cy - 40 in
        let l :=
          l <| _powerPickups := _powerPickups l ++
                 [ {| PowerPickup.x := cx; PowerPickup.y := rewardY; PowerPickup.vy := -3.2;
                      PowerPickup.maxY := rewardY - 22; PowerPickup.type := Box.power_green;
                      PowerPickup.collected := false; PowerPickup.bob := 0 |} ] |> in
        (l, player)
      else st
  | None => st
  end.

(** [a || b] on numbers where [a] may be undefined. *)
Definition orElse (a : option Z) (b : Z) : Z :=
  match a with
  | Some v => if (v =? 0)%Z then b else v
  | None => b
  end.

(** The predicate of a task on the progress record; comparing with
    [undefined] is false. *)
Definition taskDone (p : Progress.t) (t : Task.t) : bool :=
  match Task.type t with
  | Task.coins =>
      match Task.target t with
      | Some target => (target <=? Progress.coinsCollected p)%Z
      | None => false
      end
  | Task.flyingEnemies =>
      (orElse (Task.target t) (Progress.flyingTotal p) <=? Progress.flyingKilled p)%Z
  | Task.groundEnemies =>
      (orElse (Task.target t) (Progress.groundTotal p) <=? Progress.groundKilled p)%Z
  | Task.springsUsed =>
      match Task.target t with
      | Some target => (target <=? Progress.springsUsed p)%Z
      | None => false
      end
  | Task.bothCoins => Progress.hasPowerCoin p && Progress.hasShieldCoin p
  | Task.bossNoShield => Progress.bossDefeatedNoShield p
  | Task.timeLimit =>
      Progress.reachedGoal p &&
      match Progress.goalReachedTime p, Progress.startTime p, Task.target t with
      | Some g, Some s, Some target => g - s <=? inject_Z target
      | _, _, _ => false
      end
  end.

(** Evaluate task completion. *)
Definition taskStep (st : state) (t : Task.t) : state :=
  let '(l, player) := st in
  if bool_decide (Task.id t ∈ _completedTasks l) then st
  else if taskDone (_progress l) t then
    let l := l <| _completedTasks := _completedTasks l ∪ {[ Task.id t ]} |> in
    let l := l <| _justCompleted := Some (Task.id t, 0.7) |> in
    let player :=
      if negb (Task.mandatory t)
      then player <| Player.rings := (Player.rings player + 5)%Z |>
      else player in
    (l, player)
  else st.

Definition evaluateTasks (st : state) : state :=
  fold_left taskStep (_tasks (fst st)) st.

(** [Level.update(dt, player, nowSeconds)]. *)
Definition update `{JSMath} (dt : Q) (player : Player.t) (nowSeconds : Q) (l : t) : state :=
  let st := updateProgressClock dt nowSeconds (l, player) in
  let hb := Player.getHitbox player in
  let px := Rect.x hb + Rect.w hb / 2 in
  let py := Rect.y hb + Rect.h hb / 2 in
  let phb := Player.getHitbox player in
  let st := updateSprings dt phb st in
  let st := updateBoxes dt phb st in
  let st := updateCoins dt st in
  let st := updateMagnetField dt px py st in
  let st := collectCoins px py st in
  let st := updateMagnetPickups dt px py st in
  let st := updatePowerPickups dt phb st in
  let st := updateFruits dt phb st in
  let st := updateEnemies dt phb st in
  let st := updateBoss dt phb st in
  let st := updateBossAttacks dt phb st in
  let st := updateBullets dt st in
  let st := bossDefeat st in
  evaluateTasks st.

End Level.

Definition clampZ (v min max : Z) : Z := Z.max min (Z.min max v).

Definition createLevel (levelIndex : Z) : Level.t :=
  let def := arrayGet LEVEL_DEFS (clampZ levelIndex 0 (Z.of_nat (length LEVEL_DEFS) - 1)) in
  let level := Level.new def levelIndex in
  Level.reset level.

(** ** core/input: the logical query surface

    The sets of keys held, pressed and released are abstracted to the values
    that the queries [left()], [right()], [down()] and [shieldPressed()]
    return during the tick; the jump buffer is kept as the code has it. *)

Module Input.
Record t : Type := mk {
  left : bool;
  right : bool;
  down : bool;
  shieldPressed : bool;
  _jumpBufferedUntil : Q;
  _jumpReleasedThisFrame : bool
}.

Definition jumpBuffered (nowSeconds : Q) (i : t) : bool :=
  nowSeconds <=? _jumpBufferedUntil i.

Definition consumeJumpBuffer (i : t) : t :=
  {| left := left i; right := right i; down := down i;
     shieldPressed := shieldPressed i; _jumpBufferedUntil := 0;
     _jumpReleasedThisFrame := _jumpReleasedThisFrame i |}.

Definition jumpReleasedThisFrame (i : t) : bool := _jumpReleasedThisFrame i.
End Input.

(** ** game/player: collision with the level and the per-tick update *)

(** The swept test of [_collideWithLevel] against the top of the solid [s]:
    the bottom of the hitbox [hb] was at or above the top before this tick's
    vertical motion [vy], is at or below it now, and the x-extents overlap. *)
Definition onTopCross (hb : Rect.t) (vy : Q) (s : Rect.t) : bool :=
  let prevBottom := Rect.y hb + Rect.h hb - vy in
  let nextBottom := Rect.y hb + Rect.h hb in
  (prevBottom <=? Rect.y s) &&
  (Rect.y s <=? nextBottom) &&
  (Rect.x s <? Rect.x hb + Rect.w hb) &&
  (Rect.x hb <? Rect.x s + Rect.w s).

(** Body of the first loop of [_collideWithLevel].  [hb] is the hitbox taken
    before the loop; [vy] is read from the player as the loop has left it. *)
Definition landOn (nowSeconds : Q) (hb : Rect.t) (p : Player.t) (s : Rect.t) : Player.t :=
  if 0 <=? Player.vy p then
    if onTopCross hb (Player.vy p) s then
      p <| Player.y := Rect.y s |> <| Player.vy := 0 |> <| Player.grounded := true |>
        <| Player._coyoteUntil := nowSeconds + INPUT_CONST.coyoteSeconds |>
        <| Player.jumpsRemaining := 2%Z |>
    else p
  else p.

(** Body of the second loop: horizontal push-out of the hitbox [hb2], taken
    after the first loop. *)
Definition pushOut (hb2 : Rect.t) (p : Player.t) (s : Rect.t) : Player.t :=
  let intersects :=
    (Rect.x hb2 <? Rect.x s + Rect.w s) &&
    (Rect.x s <? Rect.x hb2 + Rect.w hb2) &&
    (Rect.y hb2 <? Rect.y s + Rect.h s) &&
    (Rect.y s <? Rect.y hb2 + Rect.h hb2) in
  if negb intersects then p
  else
    let overlapLeft := Rect.x hb2 + Rect.w hb2 - Rect.x s in
    let overlapRight := Rect.x s + Rect.w s - Rect.x hb2 in
    let p :=
      if overlapLeft <? overlapRight
      then p <| Player.x := Player.x p - overlapLeft |>
      else p <| Player.x := Player.x p + overlapRight |> in
    p <| Player.vx := 0 |>.

(** [Player._collideWithLevel(level, nowSeconds)]. *)
Definition Player_collideWithLevel (level : Level.t) (nowSeconds : Q) (p : Player.t)
  : Player.t :=
  let p := p <| Player.x := clamp (Player.x p) 20 (Level.width level - 20) |> in
  let hb := Player.getHitbox p in
  let p := p <| Player.grounded := false |> in
  let solids := Level.getSolidsNear hb level in
  let p := fold_left (landOn nowSeconds hb) solids p in
  let hb2 := Player.getHitbox p in
  let p := fold_left (pushOut hb2) solids p in
  if Level.height level + 200 <? Player.y p then Player.takeHit 1 p else p.

(** [if (t > 0) t = Math.max(0, t - dt)], the statement that counts each
    timer down. *)
Definition countDown (dt t : Q) : Q := if 0 <? t then Qmax 0 (t - dt) else t.

(** The countdown block that opens [Player.update]. *)
Definition Player_tickTimers (dt : Q) (p : Player.t) : Player.t :=
  let p := p <| Player.invuln := countDown dt (Player.invuln p) |> in
  let p := p <| Player.gunCooldown := countDown dt (Player.gunCooldown p) |> in
  let p := p <| Player.powerFlash := countDown dt (Player.powerFlash p) |> in
  let p := p <| Player.shootFlash := countDown dt (Player.shootFlash p) |> in
  let p :=
    if 0 <? Player.comboTimer p then
      let p := p <| Player.comboTimer := Qmax 0 (Player.comboTimer p - dt) |> in
      if Player.comboTimer p =? 0 then p <| Player.comboCount := 0%Z |> else p
    else p in
  let p := p <| Player.shieldShatter := countDown dt (Player.shieldShatter p) |> in
  let p := p <| Player.springLaunchTimer := countDown dt (Player.springLaunchTimer p) |> in
  let p :=
    p <| Player.growthTransformTimer := countDown dt (Player.growthTransformTimer p) |> in
  p <| Player.magnetTimer := countDown dt (Player.magnetTimer p) |>.

(** The blocks of [Player.update] that follow the countdown, in the order of
    the source. *)

(** Shield toggle (only if the shield power is unlocked). *)
Definition Player_toggleShield (input : Input.t) (p : Player.t) : Player.t :=
  if Player.hasShieldPower p && Input.shieldPressed input then
    if Player.shieldActive p then
      (* Deactivate shield *)
      p <| Player.shieldActive := false |> <| Player.shieldShatter := 0.3 |>
    else
      (* Activate shield (reset hits if broken) *)
      let p := p <| Player.shieldActive := true |> in
      if (Player.shieldMaxHits p <=? Player.shieldHits p)%Z
      then p <| Player.shieldHits := 0%Z |>
      else p
  else p.

(** Buffered jump: a ground jump while grounded or within coyote time, else
    the double jump.  The input object is returned as well, since the jump
    consumes the buffer. *)
Definition Player_jump (nowSeconds : Q) (input : Input.t) (p : Player.t)
  : Player.t * Input.t :=
  if Input.jumpBuffered nowSeconds input then
    let canGroundJump := Player.grounded p || (nowSeconds <=? Player._coyoteUntil p) in
    if canGroundJump then
      ((Player._doJump p) <| Player.jumpsRemaining := 1%Z |>,
       Input.consumeJumpBuffer input)
    else if negb (Player.grounded p) && (0 <? Player.jumpsRemaining p)%Z then
      ((Player._doDoubleJump p) <| Player.jumpsRemaining := 0%Z |>,
       Input.consumeJumpBuffer input)
    else (p, input)
  else (p, input).

(** Variable jump height, the roll entry and the instant horizontal
    movement. *)
Definition Player_steer (input : Input.t) (p : Player.t) : Player.t :=
  let p :=
    if Input.jumpReleasedThisFrame input && (Player.vy p <? 0)
    then p <| Player.vy := Player.vy p * PHYS.jumpCutMultiplier |>
    else p in
  let left := Input.left input in
  let right := Input.right input in
  let down := Input.down input in
  let p :=
    if Player.grounded p && negb (Player.rolling p) && down && (0.5 <? Qabs (Player.vx p))
    then p <| Player.rolling := true |>
    else p in
  (* Instant horizontal movement: move only while key held. *)
  if Player.rolling p then
    if negb (eqb left right) then
      let dir := if left then -1 else 1 in
      p <| Player.vx := dir * PHYS.topSpeed |>
    else
      let p := p <| Player.vx := 0 |> in
      if Player.grounded p then p <| Player.rolling := false |> else p
  else if Player.grounded p then
    if negb (eqb left right) then
      let dir := if left then -1 else 1 in
      p <| Player.vx := dir * PHYS.topSpeed |>
    else p <| Player.vx := 0 |>
  else
    (* In air: same instant response *)
    if negb (eqb left right) then
      let dir := if left then -1 else 1 in
      p <| Player.vx := dir * PHYS.topSpeed |>
    else p <| Player.vx := 0 |>.

(** Gravity while airborne, then the move by this tick's velocity. *)
Definition Player_integrate (dt : Q) (p : Player.t) : Player.t :=
  let frameScale := dt * 60 in
  let p :=
    if negb (Player.grounded p) then
      let p := p <| Player.vy := Player.vy p + PHYS.gravity * frameScale |> in
      if PHYS.terminalVel <? Player.vy p then p <| Player.vy := PHYS.terminalVel |> else p
    else p in
  let p := p <| Player.x := Player.x p + Player.vx p * frameScale |> in
  let p := p <| Player.y := Player.y p + Player.vy p * frameScale |> in
  if negb (Player.vx p =? 0)
  then p <| Player.facing := if 0 <? Player.vx p then 1%Z else (-1)%Z |>
  else p.

(** [Player.update(dt, input, level, nowSeconds)]. *)
Definition Player_update (dt : Q) (input : Input.t) (level : Level.t) (nowSeconds : Q)
  (p : Player.t) : Player.t * Input.t :=
  let p := Player_tickTimers dt p in
  let p := Player_toggleShield input p in
  let '(p, input) := Player_jump nowSeconds input p in
  let p := Player_steer input p in
  let p := Player_integrate dt p in
  (Player_collideWithLevel level nowSeconds p, input).

(** The nine countdown timers of the player. *)
Definition Player_timers (p : Player.t) : list Q :=
  [ Player.invuln p; Player.gunCooldown p; Player.powerFlash p; Player.shootFlash p;
    Player.comboTimer p; Player.shieldShatter p; Player.springLaunchTimer p;
    Player.growthTransformTimer p; Player.magnetTimer p ].


(** ** Concrete states used to run the model *)

(** No key held or pressed, no jump buffered. *)
Definition idle : Input.t :=
  {| Input.left := false; Input.right := false; Input.down := false;
     Input.shieldPressed := false; Input._jumpBufferedUntil := 0;
     Input._jumpReleasedThisFrame := false |}.

(** The player as the game creates it, [new Player({x: 80, y: 220})]. *)
Definition hero : Player.t := Player.new 80 220.

(** The hero standing at [(x0, y0)]. *)
Definition hero_at (x0 y0 : Q) : Player.t :=
  hero <| Player.x := x0 |> <| Player.y := y0 |>.

(** A hero that moved away from the spawn point and has nothing left to lose
    but a life. *)
Definition hero_bare : Player.t :=
  hero <| Player.x := 640 |> <| Player.y := 300 |> <| Player.vx := 6 |> <| Player.vy := 3 |>.

(** A fixed-precision interpretation of the three functions, for running the
    model: the square root to three decimals, Bhaskara's rational
    approximation of the sine, and pi to fifteen decimals. *)
Definition approx_sqrt (q : Q) : Q :=
  inject_Z (Z.sqrt (Qfloor (q * 1000000))) / 1000.

Definition approx_PI : Q := 3.141592653589793.

Definition approx_sin (q : Q) : Q :=
  let twoPi := approx_PI * 2 in
  let r := fmod q twoPi in
  let r := if r <? 0 then r + twoPi else r in
  let half (x : Q) : Q :=
    16 * x * (approx_PI - x) / (5 * approx_PI * approx_PI - 4 * x * (approx_PI - x)) in
  if r <=? approx_PI then half r else - half (r - approx_PI).

Definition approxMath : JSMath :=
  {| Math_sin := approx_sin; Math_sqrt := approx_sqrt; Math_PI := approx_PI |}.

(** The state that a landing on a top at height [top] writes. *)
Definition landed (nowSeconds top : Q) (p : Player.t) : Player.t :=
  p <| Player.y := top |> <| Player.vy := 0 |> <| Player.grounded := true |>
    <| Player._coyoteUntil := nowSeconds + INPUT_CONST.coyoteSeconds |>
    <| Player.jumpsRemaining := 2%Z |>.

Definition nonneg (t : Q) : Prop := 0 <= t.

(** The hero one pixel into the ground of level 0, moving down by one pixel
    per tick. *)
Definition hero_falling_on_ground : Player.t := (hero_at 500 301) <| Player.vy := 1 |>.

(** The first ground segment of level 0. *)
Definition ground_0 : Rect.t := Rect.mk 0 300 980 600.

(** On level 8 the seventh stair step (top at 70) and the third sky platform
    (top at 60) overlap between x = 2450 and x = 2510; the hero falls there at
    12 pixels per tick, from a bottom at 60 to a bottom at 72. *)
Definition hero_falling_fast : Player.t := (hero_at 2480 72) <| Player.vy := 12 |>.
Definition sky_platform_8 : Rect.t := Rect.mk 2350 60 160 20.
Definition stair_step_8 : Rect.t := Rect.mk 2450 70 140 20.

(** The small hero within 20 pixels of the left edge of the world. *)
Definition hero_near_edge : Player.t := hero_at 10 220.

(** ** Observations of a level *)

(** The boxes, the boss and the bullets of a level. *)
Definition core (l : Level.t) : list Box.t * option Boss.t * list Bullet.t :=
  (Level._boxes l, Level._boss l, Level._bullets l).


(** The health and the life flag of the boss, if there is one. *)
Definition bossHealth (l : Level.t) : option (Q * bool) :=
  match Level._boss l with
  | Some b => Some (Boss.hp b, Boss.alive b)
  | None => None
  end.

(** The hero below the first coin box of level 2, rising at six pixels per
    tick: the top of the hitbox goes from 186 to 180 across the bottom edge
    of the box, at 182. *)
Definition hero_under_box : Player.t := (hero_at 396 208) <| Player.vy := -6 |>.

(** The hero coming down on the boss of level 2, whose top is at 224. *)
Definition hero_over_boss : Player.t := (hero_at 6980 230) <| Player.vy := 8 |>.
Definition boss_2 : Boss.t := Boss.new 6980 320 2 18.

(** ** What a tick of the level does to the player

    [touch p q]: [q] is [p] after some of the statements by which
    [Level.update] writes to the player, in any number and order.  Each
    constructor is one such statement of the source. *)
Inductive touch : Player.t -> Player.t -> Prop :=
| touch_none p : touch p p
| touch_then p q r : touch p q -> touch q r -> touch p r
  (* player.takeHit(knockDir): enemies, boss, boss attacks *)
| touch_takeHit knockDir p : touch p (Player.takeHit knockDir p)
  (* player.addComboScore(base): coins, stomps, bullets, boss defeat *)
| touch_addComboScore base p :
    (0 <= base)%Z -> touch p (Player.addComboScore base p)
  (* player.rings += n: coins (1), boss defeat (20), optional tasks (5) *)
| touch_rings n p : (0 <= n)%Z -> touch p (p <| Player.rings := (Player.rings p + n)%Z |>)
  (* player.vy = ..., player.vx = ..., player.grounded = false: springs, boxes, stomps *)
| touch_vy v p : touch p (p <| Player.vy := v |>)
| touch_vx v p : touch p (p <| Player.vx := v |>)
| touch_grounded p : touch p (p <| Player.grounded := false |>)
  (* springs *)
| touch_springLaunchTimer p : touch p (p <| Player.springLaunchTimer := 0.4 |>)
| touch_justLaunchedSpring p : touch p (p <| Player._justLaunchedSpring := true |>)
  (* magnet pickup *)
| touch_magnetTimer p : touch p (p <| Player.magnetTimer := 8 |>)
  (* power pickups *)
| touch_gun p : touch p (p <| Player.hasGunPower := true |> <| Player.gunCooldown := 0 |>)
| touch_shieldPower p : touch p (p <| Player.hasShieldPower := true |>)
| touch_powerFlash p : touch p (p <| Player.powerFlash := 0.5 |>)
  (* fruit *)
| touch_grow p :
    touch p (p <| Player.isBig := true |> <| Player.growthTransformTimer := 0.6 |>).

(** ** The player in play

    The shield flag is only ever raised under the test [hasShieldPower]. *)
Definition shieldConsistent (p : Player.t) : Prop :=
  Player.shieldActive p = true -> Player.hasShieldPower p = true.

(** [played p]: [p] is a state of the player object in some run of the
    program.  The object is created once, by [bootstrap]; after that it is
    written by [Player.update] and [Level.update], which the engine calls with
    its fixed step (any step, input, clock and level are admitted here), and
    by the engine itself: the shot and the spring flag in [_step], [setSpawn]
    and [respawn] wherever a level is entered, and the three counters in
    [_reset]. *)
Inductive played `{JSMath} : Player.t -> Prop :=
| played_new : played (Player.new 80 220)
| played_update dt input level nowSeconds p :
    played p -> played (fst (Player_update dt input level nowSeconds p))
| played_level dt nowSeconds level p :
    played p -> played (snd (Level.update dt p nowSeconds level))
| played_shot p :
    played p -> played (p <| Player.gunCooldown := 0.25 |> <| Player.shootFlash := 0.15 |>)
| played_spring_seen p :
    played p -> played (p <| Player._justLaunchedSpring := false |>)
| played_setSpawn x y p :
    played p -> played (Player.setSpawn x y p)
| played_respawn x y p :
    played p -> played (Player.respawn x y p)
| played_counters p :
    played p ->
    played (p <| Player.lives := 5%Z |> <| Player.rings := 0%Z |> <| Player.score := 0%Z |>).

(** A blue power coin and a gold coin within reach of the hero at the start
    of level 0, and the shield key pressed. *)
Definition level_with_blue_coin : Level.t :=
  (createLevel 0)
    <| Level._powerPickups :=
         [ {| PowerPickup.x := 80; PowerPickup.y := 206; PowerPickup.vy := 0;
              PowerPickup.maxY := 206; PowerPickup.type := Box.power_blue;
              PowerPickup.collected := false; PowerPickup.bob := 0 |} ] |>
    <| Level._coins :=
         [ {| Coin.x := 80; Coin.y := 206; Coin.vx := 0; Coin.vy := 0;
              Coin.active := true; Coin.static := true |} ] |>.
Definition shield_key : Input.t :=
  {| Input.left := false; Input.right := false; Input.down := false;
     Input.shieldPressed := true; Input._jumpBufferedUntil := 0;
     Input._jumpReleasedThisFrame := false |}.

(** The two shield flags through the rest of [Player.update]. *)
Definition shieldFlags (p : Player.t) : bool * bool :=
  (Player.shieldActive p, Player.hasShieldPower p).

(** The hero after the tick of the level in which it picks up the blue power
    coin and the gold coin, and after the tick of its own in which the
    shield key is pressed. *)
Definition hero_with_shield_power : Player.t :=
  snd (Level.update (H := approxMath) (1 / 60) hero 1 level_with_blue_coin).
Definition hero_shield_up : Player.t :=
  fst (Player_update (1 / 60) shield_key (createLevel 0) 1 hero_with_shield_power).



(** The box of a bullet once it has moved for this tick, as the bullet block
    builds it; likewise the box of a boss attack, and the box of a spring. *)
Definition bulletBox (dt : Q) (b : Bullet.t) : Rect.t :=
  Rect.mk (Bullet.x b + Bullet.vx b * (dt * 60) - 4) (Bullet.y b - 4) 8 8.
Definition attackBox (dt : Q) (a : BossAttack.t) : Rect.t :=
  Rect.mk (BossAttack.x a + BossAttack.vx a * (dt * 60) - BossAttack.r a)
          (BossAttack.y a + BossAttack.vy a * (dt * 60) - BossAttack.r a)
          (BossAttack.r a * 2) (BossAttack.r a * 2).
Definition springBox (s : Spring.t) : Rect.t :=
  Rect.mk (Spring.x s - Spring.w s / 2) (Spring.y s - Spring.h s) (Spring.w s) (Spring.h s).
(** Where the boss is, and its size. *)
Definition Boss_place (b : Boss.t) : Q * Q * Q * Q :=
  (Boss.x b, Boss.y b, Boss.w b, Boss.h b).

(** Where the player is and how it moves vertically; and, with it, the parts
    of the level that the boss block and the blocks around it read. *)
Definition stance (p : Player.t) : Q * Q * bool :=
  (Player.x p, Player.vy p, Player.grounded p).
Definition scene (st : Level.state) : list Hostile.t * list BossAttack.t * (Q * Q * bool) :=
  (Level._enemies (fst st), Level._bossAttacks (fst st), stance (snd st)).
Definition scene_t : Type := (list Hostile.t * list BossAttack.t * (Q * Q * bool))%type.

(** [e.hp] of an enemy of either kind. *)
Definition Hostile_hp (e : Hostile.t) : Q :=
  match e with Hostile.Ground e => Enemy.hp e | Hostile.Bird b => BirdEnemy.hp b end.

(** A ground enemy with two health points. *)
Definition walker : Hostile.t := Hostile.Ground (Enemy.new 500 300 120 0.6 2).

(** The task types that the first four entries of the pool can have. *)
Definition offeredType (ty : Task.type_t) : Prop :=
  ty = Task.coins \/ ty = Task.flyingEnemies \/ ty = Task.springsUsed \/ ty = Task.bothCoins.

(** * Properties *)

(** ** Boolean comparisons on rationals *)

Lemma Qltb_cases (a b : Q) :
  (a < b /\ (a <? b) = true) \/ (b <= a /\ (a <? b) = false).
Proof.
  unfold Qltb. destruct (Qlt_le_dec a b) as [Hlt | Hle].
  - left. split; [exact Hlt |].
    destruct (Qle_bool b a) eqn:E; [| reflexivity].
    apply Qle_bool_iff in E. lra.
  - right. split; [exact Hle |].
    apply Qle_bool_iff in Hle. rewrite Hle. reflexivity.
Qed.

Lemma Qleb_cases (a b : Q) :
  (a <= b /\ (a <=? b) = true) \/ (b < a /\ (a <=? b) = false).
Proof.
  destruct (Qlt_le_dec b a) as [Hlt | Hle].
  - right. split; [exact Hlt |].
    destruct (Qle_bool a b) eqn:E; [| reflexivity].
    apply Qle_bool_iff in E. lra.
  - left. split; [exact Hle |]. apply Qle_bool_iff. exact Hle.
Qed.

Lemma Qltb_true (a b : Q) : (a <? b) = true <-> a < b.
Proof. destruct (Qltb_cases a b) as [[H ->] | [H ->]]; split; intros; try easy; lra. Qed.

Lemma Qltb_false (a b : Q) : (a <? b) = false <-> b <= a.
Proof. destruct (Qltb_cases a b) as [[H ->] | [H ->]]; split; intros; try easy; lra. Qed.

Lemma Qleb_true (a b : Q) : (a <=? b) = true <-> a <= b.
Proof. apply Qle_bool_iff. Qed.

Lemma Qleb_false (a b : Q) : (a <=? b) = false <-> b < a.
Proof. destruct (Qleb_cases a b) as [[H ->] | [H ->]]; split; intros; try easy; lra. Qed.

(** Case analysis on the comparison [a <? b] or [a <=? b] that the goal
    branches on. *)
Ltac case_lt a b := destruct (Qltb_cases a b) as [[? ->] | [? ->]].
Ltac case_le a b := destruct (Qleb_cases a b) as [[? ->] | [? ->]].

(** Closed goals about concrete states: membership in a computed list, and
    comparisons of computed rationals. *)
Ltac in_list := vm_compute; repeat (first [left; reflexivity | right]).
Ltac qcompute :=
  vm_compute;
  first [ reflexivity | discriminate | intro; discriminate
        | let H := fresh in intro H; apply H; reflexivity ].

(** ** Damage: [Player.takeHit] *)

(** C10.  A player that is not invulnerable, whose shield does not absorb,
    with no rings and not big, loses exactly one life on a hit and is put
    back at the stored spawn point at rest; the invulnerability timer is 0
    afterwards, because [respawn] overwrites the 1.0 that [takeHit] has just
    assigned. *)
Theorem takeHit_bare_loses_life_unprotected (knockDir : Q) (p : Player.t) :
  Player.invuln p == 0 ->
  Player.shieldActive p && Player.hasShieldPower p = false ->
  Player.rings p = 0%Z ->
  Player.isBig p = false ->
  let p' := Player.takeHit knockDir p in
  Player.lives p' = (Player.lives p - 1)%Z /\
  Player.x p' = Player.spawnX p /\ Player.y p' = Player.spawnY p /\
  Player.vx p' = 0 /\ Player.vy p' = 0 /\
  Player.invuln p' = 0.
Proof.
  intros Hinv Hshield Hrings Hbig. unfold Player.takeHit.
  case_lt 0 (Player.invuln p); [lra |].
  rewrite Hshield, Hrings, Hbig. cbn. repeat split; reflexivity.
Qed.

Lemma takeHit_bare_loses_life_unprotected_witness :
  Player.lives (Player.takeHit 1 hero_bare) = 4%Z /\
  Player.x (Player.takeHit 1 hero_bare) = 80 /\
  Player.y (Player.takeHit 1 hero_bare) = 220 /\
  Player.vx (Player.takeHit 1 hero_bare) = 0 /\
  Player.vy (Player.takeHit 1 hero_bare) = 0 /\
  Player.invuln (Player.takeHit 1 hero_bare) = 0.
Proof.
  apply (takeHit_bare_loses_life_unprotected 1 hero_bare); reflexivity.
Defined.


(** The shield branch of [takeHit], taken when the player is not
    invulnerable and both shield flags are set. *)
Lemma takeHit_shield_branch (knockDir : Q) (p : Player.t) :
  Player.invuln p <= 0 ->
  Player.shieldActive p = true ->
  Player.hasShieldPower p = true ->
  Player.takeHit knockDir p =
  let p := p <| Player.shieldHits := (Player.shieldHits p + 1)%Z |> in
  if (Player.shieldMaxHits p <=? Player.shieldHits p)%Z
  then p <| Player.shieldActive := false |> <| Player.shieldShatter := 0.5 |>
  else p.
Proof.
  intros Hinv Hact Hpow. unfold Player.takeHit.
  case_lt 0 (Player.invuln p); [lra |].
  rewrite Hact, Hpow. reflexivity.
Qed.

(** The shield branch in full.  With the invulnerability timer at 0 and both
    shield flags set, a hit with fewer hits absorbed than the maximum leaves
    rings and lives unchanged and counts one more absorbed hit; when the count
    reaches the maximum the shield breaks and the next hit takes the ring /
    size / life path. *)
Lemma takeHit_absorbs_with_power (knockDir : Q) (p : Player.t) :
  Player.invuln p == 0 ->
  Player.shieldActive p = true ->
  Player.hasShieldPower p = true ->
  (Player.shieldHits p < Player.shieldMaxHits p)%Z ->
  let p1 := Player.takeHit knockDir p in
  Player.rings p1 = Player.rings p /\
  Player.lives p1 = Player.lives p /\
  Player.shieldHits p1 = (Player.shieldHits p + 1)%Z /\
  ((Player.shieldHits p + 1 < Player.shieldMaxHits p)%Z ->
     Player.shieldActive p1 = true /\
     Player.shieldShatter p1 = Player.shieldShatter p) /\
  ((Player.shieldHits p + 1 = Player.shieldMaxHits p)%Z ->
     Player.shieldActive p1 = false /\
     Player.shieldShatter p1 = 0.5 /\
     forall knockDir' : Q,
       let p2 := Player.takeHit knockDir' p1 in
       ((0 < Player.rings p)%Z ->
          Player.rings p2 = 0%Z /\ Player.lives p2 = Player.lives p) /\
       ((Player.rings p <= 0)%Z -> Player.isBig p = true ->
          Player.isBig p2 = false /\ Player.lives p2 = Player.lives p) /\
       ((Player.rings p <= 0)%Z -> Player.isBig p = false ->
          Player.lives p2 = (Player.lives p - 1)%Z)).
Proof.
  intros Hinv Hact Hpow Hlt p1. subst p1.
  rewrite takeHit_shield_branch by (try assumption; lra). cbn.
  destruct (Z.leb_spec (Player.shieldMaxHits p) (Player.shieldHits p + 1)) as [Hmax | Hbelow];
    cbn.
  - repeat split; try reflexivity; try lia.
    all: intros; unfold Player.takeHit; cbn.
    all: case_lt 0 (Player.invuln p); try lra.
    all: destruct (Z.ltb_spec 0 (Player.rings p)); try lia; cbn; try reflexivity.
    all: match goal with H : Player.isBig _ = _ |- _ => rewrite H end; cbn; reflexivity.
  - repeat split; try reflexivity; try assumption; intros; lia.
Qed.

(** ** The mission gate: [Level.areMandatoryTasksComplete] *)

Lemma mandatory_gate_forallb (ts : list Task.t) (c : gset string) :
  forallb (fun t => negb (Task.mandatory t && negb (bool_decide (Task.id t ∈ c)))) ts = true
  <-> forall t, In t ts -> Task.mandatory t = true -> Task.id t ∈ c.
Proof.
  rewrite forallb_forall. split.
  - intros Hall t Hin Hm. specialize (Hall t Hin). rewrite Hm in Hall. cbn in Hall.
    rewrite negb_involutive in Hall. apply bool_decide_eq_true in Hall. exact Hall.
  - intros Hall t Hin. destruct (Task.mandatory t) eqn:Hm; [| reflexivity]. cbn.
    rewrite negb_involutive. apply bool_decide_eq_true. apply Hall; assumption.
Qed.

(** The gate as a function of the task list and the completed set. *)
Lemma mandatory_gate_other_id (ts : list Task.t) (c : gset string) (id : string) :
  (forall t, In t ts -> Task.mandatory t = true -> Task.id t <> id) ->
  forallb (fun t => negb (Task.mandatory t && negb (bool_decide (Task.id t ∈ c ∪ {[ id ]}))))
    ts
  = forallb (fun t => negb (Task.mandatory t && negb (bool_decide (Task.id t ∈ c)))) ts /\
  forallb (fun t => negb (Task.mandatory t && negb (bool_decide (Task.id t ∈ c ∖ {[ id ]}))))
    ts
  = forallb (fun t => negb (Task.mandatory t && negb (bool_decide (Task.id t ∈ c)))) ts.
Proof.
  intros Hid. split.
  - apply eq_true_iff_eq. rewrite !mandatory_gate_forallb. split; intros Hall t Hin Hm.
    + specialize (Hall t Hin Hm). specialize (Hid t Hin Hm).
      apply elem_of_union in Hall as [Hc | Hs]; [exact Hc |].
      apply elem_of_singleton in Hs. contradiction.
    + apply elem_of_union. left. apply Hall; assumption.
  - apply eq_true_iff_eq. rewrite !mandatory_gate_forallb. split; intros Hall t Hin Hm.
    + specialize (Hall t Hin Hm). apply elem_of_difference in Hall as [Hc _]. exact Hc.
    + apply elem_of_difference. split; [apply Hall; assumption |].
      intros Hs. apply elem_of_singleton in Hs. exact (Hid t Hin Hm Hs).
Qed.

(** C5.  For every task list and completed set, the gate is true exactly
    when the id of every mandatory task is in the completed set, hence false
    as soon as one mandatory task's id is absent; and adding an id to the
    completed set, or removing one from it, does not change the gate when the
    id is not the id of a mandatory task. *)
Theorem areMandatoryTasksComplete_gate (l : Level.t) :
  (Level.areMandatoryTasksComplete l = true <->
   forall t, In t (Level._tasks l) -> Task.mandatory t = true ->
             Task.id t ∈ Level._completedTasks l) /\
  ((exists t, In t (Level._tasks l) /\ Task.mandatory t = true /\
              Task.id t ∉ Level._completedTasks l) ->
   Level.areMandatoryTasksComplete l = false) /\
  (forall id : string,
     (forall t, In t (Level._tasks l) -> Task.mandatory t = true -> Task.id t <> id) ->
     Level.areMandatoryTasksComplete
       (l <| Level._completedTasks := Level._completedTasks l ∪ {[ id ]} |>)
     = Level.areMandatoryTasksComplete l /\
     Level.areMandatoryTasksComplete
       (l <| Level._completedTasks := Level._completedTasks l ∖ {[ id ]} |>)
     = Level.areMandatoryTasksComplete l).
Proof.
  unfold Level.areMandatoryTasksComplete. split; [apply mandatory_gate_forallb |]. split.
  - intros (t & Hin & Hm & Hout).
    apply not_true_is_false. intros Hall. apply Hout.
    apply (proj1 (mandatory_gate_forallb _ _) Hall t Hin Hm).
  - intros id Hid. exact (mandatory_gate_other_id _ _ id Hid).
Qed.

(** In the levels that the game builds the ids of the tasks are pairwise
    distinct, so the id of an optional task is never that of a mandatory
    one. *)
Lemma append_inj_r (s a b : string) : (s ++ a = s ++ b)%string -> a = b.
Proof.
  induction s as [| c s IH]; cbn; intros Heq; [exact Heq |].
  injection Heq as Heq. apply IH. exact Heq.
Qed.

Lemma getTasksForLevel_ids_distinct (i : Z) :
  NoDup (map Task.id (getTasksForLevel i)).
Proof.
  unfold getTasksForLevel.
  set (L := ("L" ++ string_of_Z i)%string).
  assert (Hpool : forall n (pool : list Task.t), NoDup (map Task.id pool) ->
             NoDup (map Task.id (firstn n pool))).
  { intros n pool Hnd. rewrite <- firstn_map.
    apply (sublist_NoDup _ _ Hnd). apply sublist_take. }
  apply Hpool.
  destruct (2 <=? i)%Z, (4 <=? i)%Z, (3 <=? i)%Z, (5 <=? i)%Z; cbn.
  all: repeat (apply NoDup_cons; split); try apply NoDup_nil_2.
  all: rewrite ?not_elem_of_cons; repeat split; try apply not_elem_of_nil.
  all: intros Heq; apply append_inj_r in Heq; discriminate Heq.
Qed.

Lemma createLevel_task_ids (i : Z) :
  map Task.id (Level._tasks (createLevel i)) = map Task.id (getTasksForLevel i).
Proof.
  unfold createLevel, Level.reset.
  match goal with
  | |- context [let '(_, _) := ?x in _] => destruct x as [[solids boxes] enemies]
  end.
  cbn. rewrite map_map. apply map_ext. intros t. destruct (Task.type t); reflexivity.
Qed.

Lemma createLevel_optional_tasks_do_not_gate (i : Z) (l : Level.t) (t : Task.t) :
  Level._tasks l = Level._tasks (createLevel i) ->
  In t (Level._tasks l) -> Task.mandatory t = false ->
  Level.areMandatoryTasksComplete
    (l <| Level._completedTasks := Level._completedTasks l ∪ {[ Task.id t ]} |>)
  = Level.areMandatoryTasksComplete l.
Proof.
  intros Htasks Hin Hopt.
  refine (proj1 (mandatory_gate_other_id (Level._tasks l) (Level._completedTasks l)
                   (Task.id t) _)).
  intros t' Hin' Hm Heq.
  pose proof (getTasksForLevel_ids_distinct i) as Hnd.
  rewrite <- createLevel_task_ids, <- Htasks in Hnd.
  assert (Hsame : t' = t).
  { clear - Hnd Hin Hin' Heq. induction (Level._tasks l) as [| a ts IH]; [destruct Hin |].
    cbn in Hnd. apply NoDup_cons in Hnd as [Hnotin Hnd].
    destruct Hin as [-> | Hin], Hin' as [-> | Hin'].
    - reflexivity.
    - exfalso. apply Hnotin. rewrite <- Heq. apply list_elem_of_In, in_map, Hin'.
    - exfalso. apply Hnotin. rewrite Heq. apply list_elem_of_In, in_map, Hin.
    - apply IH; assumption. }
  subst t'. congruence.
Qed.

(** ** Magnet pickups *)

Section MagnetPickups.
Context `{JSMath}.




End MagnetPickups.


(** ** The collision resolver: [Player._collideWithLevel] *)

(** The horizontal pass moves [x] and zeroes [vx], nothing else. *)
Lemma pushOut_shape (hb2 : Rect.t) (p : Player.t) (s : Rect.t) :
  exists x' vx', pushOut hb2 p s = p <| Player.x := x' |> <| Player.vx := vx' |>.
Proof.
  unfold pushOut.
  destruct (negb _).
  - exists (Player.x p), (Player.vx p). destruct p; reflexivity.
  - destruct (_ <? _); eexists; eexists; reflexivity.
Qed.

Lemma pushOut_fold_shape (hb2 : Rect.t) (solids : list Rect.t) (p : Player.t) :
  exists x' vx',
    fold_left (pushOut hb2) solids p = p <| Player.x := x' |> <| Player.vx := vx' |>.
Proof.
  revert p. induction solids as [| s solids IH]; intros p; cbn [fold_left].
  - exists (Player.x p), (Player.vx p). destruct p; reflexivity.
  - destruct (pushOut_shape hb2 p s) as (x1 & vx1 & ->).
    destruct (IH (p <| Player.x := x1 |> <| Player.vx := vx1 |>)) as (x2 & vx2 & ->).
    exists x2, vx2. reflexivity.
Qed.

(** Without an overlap on both axes the horizontal pass does nothing. *)
Lemma pushOut_fold_clear (hb2 : Rect.t) (solids : list Rect.t) (p : Player.t) :
  forallb (fun s => negb (aabbIntersects hb2 s)) solids = true ->
  fold_left (pushOut hb2) solids p = p.
Proof.
  revert p. induction solids as [| s solids IH]; intros p Hclear; cbn in *; [reflexivity |].
  apply andb_true_iff in Hclear as [Hs Hrest].
  unfold pushOut at 2. unfold aabbIntersects in Hs. rewrite Hs. apply IH. exact Hrest.
Qed.

Lemma onTopCross_true (hb : Rect.t) (vy : Q) (s : Rect.t) :
  onTopCross hb vy s = true <->
  Rect.y hb + Rect.h hb - vy <= Rect.y s /\ Rect.y s <= Rect.y hb + Rect.h hb /\
  Rect.x s < Rect.x hb + Rect.w hb /\ Rect.x hb < Rect.x s + Rect.w s.
Proof.
  unfold onTopCross. rewrite !andb_true_iff, !Qleb_true, !Qltb_true. tauto.
Qed.

(** A solid that passes the test at rest passes it at any falling speed. *)
Lemma onTopCross_slower (hb : Rect.t) (vy : Q) (s : Rect.t) :
  0 <= vy -> onTopCross hb 0 s = true -> onTopCross hb vy s = true.
Proof.
  rewrite !onTopCross_true. intros Hvy (Hprev & Hrest). split; [lra | exact Hrest].
Qed.

Lemma landOn_falling (nowSeconds : Q) (hb : Rect.t) (p : Player.t) (s : Rect.t) :
  0 <= Player.vy p ->
  landOn nowSeconds hb p s
  = if onTopCross hb (Player.vy p) s then landed nowSeconds (Rect.y s) p else p.
Proof.
  intros Hvy. unfold landOn. apply Qleb_true in Hvy. rewrite Hvy. reflexivity.
Qed.

Lemma landed_landed (nowSeconds top top' : Q) (p : Player.t) :
  landed nowSeconds top' (landed nowSeconds top p) = landed nowSeconds top' p.
Proof. destruct p. reflexivity. Qed.

(** Once landed, the player has [vy = 0], and a further solid is landed on
    only if its top is exactly at the bottom of the hitbox. *)
Lemma landOn_landed (nowSeconds : Q) (hb : Rect.t) (p : Player.t) (top : Q) (s : Rect.t) :
  landOn nowSeconds hb (landed nowSeconds top p) s
  = if onTopCross hb 0 s then landed nowSeconds (Rect.y s) p else landed nowSeconds top p.
Proof.
  rewrite landOn_falling by (cbn; lra).
  change (Player.vy (landed nowSeconds top p)) with 0.
  rewrite landed_landed. reflexivity.
Qed.

Lemma fold_left_cons {A B : Type} (f : A -> B -> A) (b : B) (l : list B) (a : A) :
  fold_left f (b :: l) a = fold_left f l (f a b).
Proof. reflexivity. Qed.

(** The vertical pass.  Either no candidate passes the swept test and the
    player is left as it was, or the player has landed on the top of a
    candidate that passes it; [P] is any property shared by those tops. *)
Lemma landOn_fold (P : Q -> Prop) (nowSeconds : Q) (hb : Rect.t)
  (solids : list Rect.t) (p : Player.t) :
  0 <= Player.vy p ->
  (forall s, In s solids -> onTopCross hb (Player.vy p) s = true -> P (Rect.y s)) ->
  (fold_left (landOn nowSeconds hb) solids p = p /\
   forall s, In s solids -> onTopCross hb (Player.vy p) s = false) \/
  (exists top, P top /\ fold_left (landOn nowSeconds hb) solids p = landed nowSeconds top p).
Proof.
  intros Hvy HP.
  assert (Hafter : forall (solids : list Rect.t) (top : Q),
            P top ->
            (forall s, In s solids -> onTopCross hb (Player.vy p) s = true -> P (Rect.y s)) ->
            exists top', P top' /\
              fold_left (landOn nowSeconds hb) solids (landed nowSeconds top p)
              = landed nowSeconds top' p).
  { clear solids HP. intros solids. induction solids as [| s solids IH]; intros top Htop HP.
    - exists top. split; [exact Htop | reflexivity].
    - rewrite fold_left_cons, landOn_landed.
      destruct (onTopCross hb 0 s) eqn:Hc.
      + apply (IH (Rect.y s)).
        * apply HP; [left; reflexivity |]. apply onTopCross_slower; assumption.
        * intros s' Hin. apply HP. right. exact Hin.
      + apply (IH top Htop). intros s' Hin. apply HP. right. exact Hin. }
  revert HP. induction solids as [| s solids IH]; intros HP.
  - left. split; [reflexivity | intros s []].
  - rewrite fold_left_cons, landOn_falling by exact Hvy.
    destruct (onTopCross hb (Player.vy p) s) eqn:Hc.
    + right. apply (Hafter solids (Rect.y s)).
      * apply HP; [left; reflexivity | exact Hc].
      * intros s' Hin. apply HP. right. exact Hin.
    + destruct IH as [[Hsame Hnone] | Hland].
      * intros s' Hin. apply HP. right. exact Hin.
      * left. split; [exact Hsame |]. intros s' [<- | Hin]; [exact Hc | apply Hnone, Hin].
      * right. exact Hland.
Qed.

(** C1, as amended.  Let [S] be a solid returned by the broadphase for the
    hitbox of the resolver.  When the player is falling or stationary, its
    reconstructed previous bottom is at or above the top of [S], its new
    bottom at or below it and the x-extents overlap, and when every candidate
    that passes this same test has its top at the height of [S]'s (so in
    particular when [S] is the only one) and that top is not below the
    fall-out line [level.height + 200], then the resolver puts the player's
    bottom on the top of [S], zeroes [vy], sets [grounded], refreshes the
    coyote time and restores both jumps, however large the fall speed. *)
Theorem landing_snaps_to_solid_top (level : Level.t) (nowSeconds : Q) (p : Player.t)
  (S : Rect.t) :
  let hb :=
    Player.getHitbox (p <| Player.x := clamp (Player.x p) 20 (Level.width level - 20) |>) in
  let solids := Level.getSolidsNear hb level in
  In S solids ->
  0 <= Player.vy p ->
  Rect.y hb + Rect.h hb - Player.vy p <= Rect.y S ->
  Rect.y S <= Rect.y hb + Rect.h hb ->
  Rect.x S < Rect.x hb + Rect.w hb ->
  Rect.x hb < Rect.x S + Rect.w S ->
  (forall S', In S' solids -> onTopCross hb (Player.vy p) S' = true ->
              Rect.y S' == Rect.y S) ->
  Rect.y S <= Level.height level + 200 ->
  let p' := Player_collideWithLevel level nowSeconds p in
  Player.y p' == Rect.y S /\ Player.vy p' = 0 /\ Player.grounded p' = true /\
  Player._coyoteUntil p' = nowSeconds + INPUT_CONST.coyoteSeconds /\
  Player.jumpsRemaining p' = 2%Z.
Proof.
  intros hb solids Hin Hvy Hprev Hnext Hx1 Hx2 Huniq Hfloor p'.
  subst p'. unfold Player_collideWithLevel.
  fold hb. fold solids.
  set (p0 := p <| Player.x := clamp (Player.x p) 20 (Level.width level - 20) |>
               <| Player.grounded := false |>).
  destruct (landOn_fold (fun top => top == Rect.y S) nowSeconds hb solids p0 Hvy Huniq)
    as [[_ Hnone] | (top & Htop & Hland)].
  { specialize (Hnone S Hin).
    assert (Hc : onTopCross hb (Player.vy p0) S = true)
      by (apply onTopCross_true; cbn; repeat split; assumption).
    congruence. }
  rewrite Hland.
  destruct (pushOut_fold_shape (Player.getHitbox (landed nowSeconds top p0)) solids
              (landed nowSeconds top p0)) as (x' & vx' & ->).
  cbn [landed]. cbn.
  case_lt (Level.height level + 200) top; [lra |].
  cbn. repeat split; try reflexivity. exact Htop.
Qed.

(** The scenario of the specification: on level 0 the hero, one pixel into
    the ground with [vy = 1], lands exactly on the ground top at 300. *)
Lemma landing_snaps_to_solid_top_witness :
  Player.y (Player_collideWithLevel (createLevel 0) 1 hero_falling_on_ground)
  == Rect.y ground_0 /\
  Player.vy (Player_collideWithLevel (createLevel 0) 1 hero_falling_on_ground) = 0 /\
  Player.grounded (Player_collideWithLevel (createLevel 0) 1 hero_falling_on_ground) = true /\
  Player._coyoteUntil (Player_collideWithLevel (createLevel 0) 1 hero_falling_on_ground)
  = 1 + INPUT_CONST.coyoteSeconds /\
  Player.jumpsRemaining (Player_collideWithLevel (createLevel 0) 1 hero_falling_on_ground)
  = 2%Z.
Proof.
  refine (landing_snaps_to_solid_top (createLevel 0) 1 hero_falling_on_ground ground_0
            _ _ _ _ _ _ _ _).
  - in_list.
  - qcompute.
  - qcompute.
  - qcompute.
  - qcompute.
  - qcompute.
  - intros S' Hin Hc.
    assert (Hall : forallb (fun s => implb (onTopCross
               (Player.getHitbox (hero_falling_on_ground <| Player.x :=
                  clamp (Player.x hero_falling_on_ground) 20
                    (Level.width (createLevel 0) - 20) |>))
               (Player.vy hero_falling_on_ground) s) (Rect.y s =? Rect.y ground_0))
             (Level.getSolidsNear
               (Player.getHitbox (hero_falling_on_ground <| Player.x :=
                  clamp (Player.x hero_falling_on_ground) 20
                    (Level.width (createLevel 0) - 20) |>)) (createLevel 0)) = true)
      by (vm_compute; reflexivity).
    rewrite forallb_forall in Hall. specialize (Hall S' Hin). rewrite Hc in Hall.
    apply Qeq_bool_iff. exact Hall.
  - qcompute.
Defined.

(** C1 as stated fails where two candidates with different tops both pass the
    test.  On level 8 the hero falls at 12 pixels per tick with its bottom
    going from 60 to 72 over the overlap of the sky platform (top at 60) and
    the stair step (top at 70): both are candidates, both pass the test, the
    step comes first in the list, and the hero ends with its bottom at 70,
    ten pixels below the top of the sky platform. *)
Lemma landing_misses_overlapped_platform :
  In sky_platform_8
    (Level.getSolidsNear
       (Player.getHitbox
          (hero_falling_fast <| Player.x :=
             clamp (Player.x hero_falling_fast) 20 (Level.width (createLevel 8) - 20) |>))
       (createLevel 8)) /\
  onTopCross
    (Player.getHitbox
       (hero_falling_fast <| Player.x :=
          clamp (Player.x hero_falling_fast) 20 (Level.width (createLevel 8) - 20) |>))
    (Player.vy hero_falling_fast) sky_platform_8 = true /\
  0 <= Player.vy hero_falling_fast /\
  Rect.y sky_platform_8 == 60 /\
  Player.y (Player_collideWithLevel (createLevel 8) 1 hero_falling_fast) == 70.
Proof.
  split; [in_list |]. repeat split; qcompute.
Qed.

(** C7, as amended.  The resolver begins by clamping [x] to
    [[20, level.width - 20]], a fixed margin that does not depend on the
    hitbox; the vertical pass never moves [x]; and when no candidate overlaps
    the hitbox on both axes after the vertical pass and the player is not
    below the fall-out line, the clamped value is the player's [x] after the
    resolver. *)
Theorem collide_clamps_x_to_fixed_margin (level : Level.t) (nowSeconds : Q) (p : Player.t) :
  40 <= Level.width level ->
  let xc := clamp (Player.x p) 20 (Level.width level - 20) in
  let p0 := p <| Player.x := xc |> <| Player.grounded := false |> in
  let hb := Player.getHitbox p0 in
  let solids := Level.getSolidsNear hb level in
  let p1 := fold_left (landOn nowSeconds hb) solids p0 in
  (20 <= xc /\ xc <= Level.width level - 20) /\
  Player.x p1 = xc /\
  (forallb (fun s => negb (aabbIntersects (Player.getHitbox p1) s)) solids = true ->
   Player.y p1 <= Level.height level + 200 ->
   Player.x (Player_collideWithLevel level nowSeconds p) = xc).
Proof.
  intros Hw xc p0 hb solids p1.
  assert (Hx1 : Player.x p1 = xc).
  { subst p1. generalize solids. intros l.
    assert (Hgen : forall q, Player.x (fold_left (landOn nowSeconds hb) l q) = Player.x q).
    { induction l as [| s l IH]; intros q; [reflexivity |]. cbn [fold_left]. rewrite IH.
      unfold landOn. destruct (0 <=? _); [destruct (onTopCross _ _ _) |]; reflexivity. }
    rewrite Hgen. reflexivity. }
  split; [| split; [exact Hx1 |]].
  - subst xc. unfold clamp. split.
    + apply Q.le_max_l.
    + apply Q.max_lub; [lra | apply Q.le_min_l].
  - intros Hclear Hy. unfold Player_collideWithLevel.
    change (Player.getHitbox (p <| Player.x := clamp (Player.x p) 20 (Level.width level - 20) |>))
      with hb.
    fold solids. fold xc. fold p0. fold p1.
    rewrite pushOut_fold_clear by exact Hclear.
    case_lt (Level.height level + 200) (Player.y p1); [lra | exact Hx1].
Qed.

Lemma collide_clamps_x_to_fixed_margin_witness :
  Player.x (Player_collideWithLevel (createLevel 0) 1 hero_near_edge)
  = clamp (Player.x hero_near_edge) 20 (Level.width (createLevel 0) - 20).
Proof.
  assert (Hw : 40 <= Level.width (createLevel 0)) by qcompute.
  refine (proj2 (proj2 (collide_clamps_x_to_fixed_margin (createLevel 0) 1 hero_near_edge Hw))
            _ _).
  - vm_compute. reflexivity.
  - qcompute.
Defined.

(** C7 as stated fails: the small hero has a hitbox 16 wide, so its
    half-width is 8 and [x = 10] lies inside [[8, width - 8]]; a tick moves it
    to 20 all the same. *)
Lemma clamp_margin_is_not_half_width :
  Rect.w (Player.getHitbox hero_near_edge) / 2 == 8 /\
  clamp (Player.x hero_near_edge) (Rect.w (Player.getHitbox hero_near_edge) / 2)
    (Level.width (createLevel 0) - Rect.w (Player.getHitbox hero_near_edge) / 2) == 10 /\
  Player.x (fst (Player_update (1 / 60) idle (createLevel 0) 1 hero_near_edge)) == 20.
Proof. repeat split; qcompute. Qed.

(** ** Timers: [Player.update] *)

Lemma countDown_nonneg (dt t : Q) : 0 <= t -> 0 <= countDown dt t.
Proof.
  intros Ht. unfold countDown. case_lt 0 t; [apply Q.le_max_l | exact Ht].
Qed.


(** The countdown block applies [countDown] to each of the nine timers. *)
Lemma tickTimers_timers (dt : Q) (p : Player.t) :
  Player_timers (Player_tickTimers dt p) = map (countDown dt) (Player_timers p).
Proof.
  destruct p. unfold Player_tickTimers.
  cbv beta iota zeta delta -[Qmax Qltb Qeq_bool Qminus Qplus].
  destruct (0 <? comboTimer); [| reflexivity].
  destruct (Qmax 0 (comboTimer - dt) =? 0); reflexivity.
Qed.

Lemma toggleShield_timers (input : Input.t) (p : Player.t) :
  Forall nonneg (Player_timers p) ->
  Forall nonneg (Player_timers (Player_toggleShield input p)).
Proof.
  intros Hp. unfold Player_toggleShield.
  destruct (_ && _); [| exact Hp].
  destruct (Player.shieldActive p).
  - unfold Player_timers in *. cbn.
    repeat match goal with H : Forall _ (_ :: _) |- _ => inversion_clear H end.
    repeat constructor; try assumption. unfold nonneg. lra.
  - cbn. destruct (_ <=? _)%Z; exact Hp.
Qed.

Lemma jump_timers (nowSeconds : Q) (input : Input.t) (p : Player.t) :
  Player_timers (fst (Player_jump nowSeconds input p)) = Player_timers p.
Proof.
  unfold Player_jump.
  destruct (Input.jumpBuffered _ _); [| reflexivity].
  destruct (_ || _); [reflexivity |].
  destruct (_ && _); reflexivity.
Qed.

Lemma steer_timers (input : Input.t) (p : Player.t) :
  Player_timers (Player_steer input p) = Player_timers p.
Proof.
  unfold Player_steer. cbv zeta.
  repeat match goal with
         | |- context [if ?c then _ else _] => destruct c; cbn
         end; reflexivity.
Qed.

Lemma integrate_timers (dt : Q) (p : Player.t) :
  Player_timers (Player_integrate dt p) = Player_timers p.
Proof.
  unfold Player_integrate. cbv zeta.
  repeat match goal with
         | |- context [if ?c then _ else _] => destruct c; cbn
         end; reflexivity.
Qed.

(** A hit only ever writes 0, 0.5, 1.0 or 1.2 into a timer. *)
Lemma takeHit_timers (knockDir : Q) (p : Player.t) :
  Forall nonneg (Player_timers p) -> Forall nonneg (Player_timers (Player.takeHit knockDir p)).
Proof.
  intros Hp. unfold Player.takeHit.
  repeat match goal with
         | |- context [if ?c then _ else _] => destruct c; cbn
         end; try exact Hp.
  all: unfold Player_timers in *; cbn.
  all: repeat match goal with H : Forall _ (_ :: _) |- _ => inversion_clear H end.
  all: repeat constructor; try assumption; unfold nonneg; lra.
Qed.

Lemma landOn_fold_timers (nowSeconds : Q) (hb : Rect.t) (solids : list Rect.t)
  (p : Player.t) :
  Player_timers (fold_left (landOn nowSeconds hb) solids p) = Player_timers p.
Proof.
  revert p. induction solids as [| s solids IH]; intros p; [reflexivity |].
  rewrite fold_left_cons, IH. unfold landOn.
  destruct (0 <=? _); [destruct (onTopCross _ _ _) |]; reflexivity.
Qed.

Lemma collide_timers (level : Level.t) (nowSeconds : Q) (p : Player.t) :
  Forall nonneg (Player_timers p) ->
  Forall nonneg (Player_timers (Player_collideWithLevel level nowSeconds p)).
Proof.
  intros Hp. unfold Player_collideWithLevel.
  match goal with
  | |- context [fold_left (pushOut ?hb2) ?solids ?q] =>
      destruct (pushOut_fold_shape hb2 solids q) as (x' & vx' & Heq);
      assert (Hq : Forall nonneg (Player_timers (fold_left (pushOut hb2) solids q)))
  end.
  { rewrite Heq.
    change (Player_timers (?q <| Player.x := x' |> <| Player.vx := vx' |>))
      with (Player_timers q).
    rewrite landOn_fold_timers. exact Hp. }
  destruct (_ <? _); [apply takeHit_timers |]; exact Hq.
Qed.

(** ** Level construction: [createLevel] *)

(** [reset] assigns neither the theme, nor the index, nor the width. *)
Lemma reset_keeps_identity (l : Level.t) :
  Level.def (Level.reset l) = Level.def l /\
  Level.index (Level.reset l) = Level.index l /\
  Level.width (Level.reset l) = Level.width l.
Proof.
  unfold Level.reset. cbv zeta.
  destruct (Z.rem (Level.index l) 4 =? 0)%Z; [repeat split |].
  destruct (Z.rem (Level.index l) 4 =? 1)%Z; [repeat split |].
  destruct (Z.rem (Level.index l) 4 =? 2)%Z; repeat split.
Qed.







(** ** Loops that thread a state *)

Lemma forEach_inv {A S : Type} (I : S -> Prop) (body : S -> A -> S * A) :
  (forall s a, I s -> I (fst (body s a))) ->
  forall l s, I s -> I (fst (forEach body s l)).
Proof.
  intros Hbody l. induction l as [| a l IH]; intros s Hs; cbn; [exact Hs |].
  specialize (Hbody s a Hs). destruct (body s a) as [s1 a'].
  specialize (IH s1 Hbody). destruct (forEach body s1 l) as [s2 l']. exact IH.
Qed.

Lemma filterM_inv {A S : Type} (I : S -> Prop) (keep : S -> A -> S * bool) :
  (forall s a, I s -> I (fst (keep s a))) ->
  forall l s, I s -> I (fst (filterM keep s l)).
Proof.
  intros Hkeep l. induction l as [| a l IH]; intros s Hs; cbn; [exact Hs |].
  specialize (Hkeep s a Hs). destruct (keep s a) as [s1 k].
  specialize (IH s1 Hkeep). destruct (filterM keep s1 l) as [s2 l']. exact IH.
Qed.

Lemma fold_left_inv {A S : Type} (I : S -> Prop) (f : S -> A -> S) :
  (forall s a, I s -> I (f s a)) ->
  forall l s, I s -> I (fold_left f l s).
Proof.
  intros Hf l. induction l as [| a l IH]; intros s Hs; cbn; [exact Hs |].
  apply IH, Hf, Hs.
Qed.

(** ** Frame of the level update *)

Ltac split_ifs :=
  repeat match goal with
         | |- context [match ?c with _ => _ end] =>
             lazymatch c with
             | context [match _ with _ => _ end] => fail
             | _ => destruct c
             end
         end.

Section Frame.
Context `{JSMath}.
Variables (dt nowSeconds px py : Q) (phb : Rect.t).

Lemma updateProgressClock_core (st : Level.state) :
  core (fst (Level.updateProgressClock dt nowSeconds st)) = core (fst st).
Proof. destruct st as [l p]. reflexivity. Qed.

Lemma springStep_core (c : list Box.t * option Boss.t * list Bullet.t)
  (st : Level.state) (s : Spring.t) :
  core (fst st) = c -> core (fst (fst (Level.springStep dt phb st s))) = c.
Proof.
  destruct st as [l p]. intros Hc. unfold Level.springStep.
  split_ifs; exact Hc.
Qed.

(** A loop over one collection that writes the collection back. *)
Ltac loop_core step_core :=
  match goal with
  | |- core (fst (let '(_, _) := forEach ?body ?st ?xs in _)) = _ =>
      let Hinv := fresh "Hinv" in
      pose proof (forEach_inv (S := Level.state)
                    (fun s => core (fst s) = core (fst st)) body
                    (step_core (core (fst st))) xs st eq_refl) as Hinv;
      cbv beta in Hinv;
      destruct (forEach body st xs) as [[? ?] ?]; exact Hinv
  | |- core (fst (let '(_, _) := filterM ?keep ?st ?xs in _)) = _ =>
      let Hinv := fresh "Hinv" in
      pose proof (filterM_inv (S := Level.state)
                    (fun s => core (fst s) = core (fst st)) keep
                    (step_core (core (fst st))) xs st eq_refl) as Hinv;
      cbv beta in Hinv;
      destruct (filterM keep st xs) as [[? ?] ?]; exact Hinv
  end.

Lemma updateSprings_core (st : Level.state) :
  core (fst (Level.updateSprings dt phb st)) = core (fst st).
Proof. unfold Level.updateSprings. loop_core springStep_core. Qed.

Lemma updateCoins_core (st : Level.state) :
  core (fst (Level.updateCoins dt st)) = core (fst st).
Proof. destruct st as [l p]. reflexivity. Qed.

Lemma collectCoin_core (c : list Box.t * option Boss.t * list Bullet.t)
  (st : Level.state) (coin : Coin.t) :
  core (fst st) = c -> core (fst (fst (Level.collectCoin st coin))) = c.
Proof. destruct st as [l p]. intros Hc. exact Hc. Qed.

Lemma magnetStep_core (c : list Box.t * option Boss.t * list Bullet.t)
  (st : Level.state) (coin : Coin.t) :
  core (fst st) = c -> core (fst (fst (Level.magnetStep dt px py st coin))) = c.
Proof.
  intros Hc. unfold Level.magnetStep.
  split_ifs; first [exact Hc | apply collectCoin_core; exact Hc].
Qed.

Lemma updateMagnetField_core (st : Level.state) :
  core (fst (Level.updateMagnetField dt px py st)) = core (fst st).
Proof.
  unfold Level.updateMagnetField. destruct (0 <? _); [| reflexivity].
  loop_core magnetStep_core.
Qed.

Lemma coinStep_core (c : list Box.t * option Boss.t * list Bullet.t)
  (st : Level.state) (coin : Coin.t) :
  core (fst st) = c -> core (fst (fst (Level.coinStep px py st coin))) = c.
Proof.
  intros Hc. unfold Level.coinStep.
  split_ifs; first [exact Hc | apply collectCoin_core; exact Hc].
Qed.

Lemma collectCoins_core (st : Level.state) :
  core (fst (Level.collectCoins px py st)) = core (fst st).
Proof. unfold Level.collectCoins. loop_core coinStep_core. Qed.

Lemma magnetPickupStep_core (c : list Box.t * option Boss.t * list Bullet.t)
  (st : Level.state) (mp : MagnetPickup.t) :
  core (fst st) = c -> core (fst (fst (Level.magnetPickupStep dt px py st mp))) = c.
Proof.
  destruct st as [l p]. intros Hc. unfold Level.magnetPickupStep.
  split_ifs; exact Hc.
Qed.

Lemma updateMagnetPickups_core (st : Level.state) :
  core (fst (Level.updateMagnetPickups dt px py st)) = core (fst st).
Proof. unfold Level.updateMagnetPickups. loop_core magnetPickupStep_core. Qed.

Lemma powerPickupStep_core (c : list Box.t * option Boss.t * list Bullet.t)
  (st : Level.state) (pp : PowerPickup.t) :
  core (fst st) = c -> core (fst (fst (Level.powerPickupStep dt phb st pp))) = c.
Proof.
  destruct st as [l p]. intros Hc. unfold Level.powerPickupStep.
  split_ifs; exact Hc.
Qed.

Lemma updatePowerPickups_core (st : Level.state) :
  core (fst (Level.updatePowerPickups dt phb st)) = core (fst st).
Proof. unfold Level.updatePowerPickups. loop_core powerPickupStep_core. Qed.

Lemma fruitStep_core (c : list Box.t * option Boss.t * list Bullet.t)
  (st : Level.state) (fruit : Fruit.t) :
  core (fst st) = c -> core (fst (fst (Level.fruitStep dt phb st fruit))) = c.
Proof.
  destruct st as [l p]. intros Hc. unfold Level.fruitStep.
  split_ifs; exact Hc.
Qed.

Lemma updateFruits_core (st : Level.state) :
  core (fst (Level.updateFruits dt phb st)) = core (fst st).
Proof. unfold Level.updateFruits. loop_core fruitStep_core. Qed.

Lemma enemyStep_core (c : list Box.t * option Boss.t * list Bullet.t)
  (st : Level.state) (e : Hostile.t) :
  core (fst st) = c -> core (fst (fst (Level.enemyStep phb st e))) = c.
Proof.
  destruct st as [l p]. intros Hc. unfold Level.enemyStep.
  split_ifs; exact Hc.
Qed.

Lemma updateEnemies_core (st : Level.state) :
  core (fst (Level.updateEnemies dt phb st)) = core (fst st).
Proof.
  destruct st as [l p]. unfold Level.updateEnemies.
  match goal with
  | |- core (fst (let '(_, _) := forEach ?body ?st ?xs in _)) = _ =>
      pose proof (forEach_inv (S := Level.state)
                    (fun s => core (fst s) = core l) body
                    (enemyStep_core (core l)) xs st eq_refl) as Hinv;
      cbv beta in Hinv;
      destruct (forEach body st xs) as [[? ?] ?]; exact Hinv
  end.
Qed.

Lemma attackFilter_core (c : list Box.t * option Boss.t * list Bullet.t)
  (st : Level.state) (atk : BossAttack.t) :
  core (fst st) = c -> core (fst (fst (Level.attackFilter phb st atk))) = c.
Proof.
  destruct st as [l p]. intros Hc. unfold Level.attackFilter.
  split_ifs; exact Hc.
Qed.

Lemma updateBossAttacks_core (st : Level.state) :
  core (fst (Level.updateBossAttacks dt phb st)) = core (fst st).
Proof.
  destruct st as [l p]. unfold Level.updateBossAttacks. cbv zeta.
  loop_core attackFilter_core.
Qed.

Lemma bossDefeat_core (st : Level.state) :
  core (fst (Level.bossDefeat st)) = core (fst st).
Proof.
  destruct st as [l p]. unfold Level.bossDefeat.
  split_ifs; reflexivity.
Qed.

Lemma taskStep_core (c : list Box.t * option Boss.t * list Bullet.t)
  (st : Level.state) (t : Task.t) :
  core (fst st) = c -> core (fst (Level.taskStep st t)) = c.
Proof.
  destruct st as [l p]. intros Hc. unfold Level.taskStep.
  split_ifs; exact Hc.
Qed.

Lemma evaluateTasks_core (st : Level.state) :
  core (fst (Level.evaluateTasks st)) = core (fst st).
Proof.
  unfold Level.evaluateTasks.
  apply (fold_left_inv (fun s => core (fst s) = core (fst st)) Level.taskStep
           (taskStep_core (core (fst st)))).
  reflexivity.
Qed.
End Frame.

(** ** Boxes and boss through a tick *)


Lemma core_fields (l l' : Level.t) :
  core l = core l' ->
  Level._boxes l = Level._boxes l' /\ Level._boss l = Level._boss l' /\
  Level._bullets l = Level._bullets l'.
Proof. unfold core. intros Hc. injection Hc as -> -> ->. repeat split. Qed.

Section Boxes.
Context `{JSMath}.
Variables (dt : Q) (phb : Rect.t).

Lemma spawnContent_frame (box : Box.t) (l : Level.t) :
  core (Level.spawnContent box l) = core l.
Proof. unfold Level.spawnContent. destruct (Box.type box); reflexivity. Qed.


Lemma boxStep_frame (c : option Boss.t * list Bullet.t) (st : Level.state) (box : Box.t) :
  (Level._boss (fst st), Level._bullets (fst st)) = c ->
  (Level._boss (fst (fst (Level.boxStep dt phb st box))),
   Level._bullets (fst (fst (Level.boxStep dt phb st box)))) = c.
Proof.
  destruct st as [l p]. intros Hc. unfold Level.boxStep.
  split_ifs; try exact Hc.
  all: cbn [fst snd].
  all: match goal with
       | |- context [Level.spawnContent ?b ?l0] =>
           destruct (core_fields _ _ (spawnContent_frame b l0)) as (_ & -> & ->)
       end.
  all: exact Hc.
Qed.


Lemma updateBoxes_frame (st : Level.state) :
  Level._boss (fst (Level.updateBoxes dt phb st)) = Level._boss (fst st) /\
  Level._bullets (fst (Level.updateBoxes dt phb st)) = Level._bullets (fst st).
Proof.
  unfold Level.updateBoxes.
  pose proof (forEach_inv (S := Level.state)
                (fun s => (Level._boss (fst s), Level._bullets (fst s))
                          = (Level._boss (fst st), Level._bullets (fst st)))
                (Level.boxStep dt phb)
                (boxStep_frame (Level._boss (fst st), Level._bullets (fst st)))
                (Level._boxes (fst st)) st eq_refl) as Hinv.
  cbv beta in Hinv.
  destruct (forEach _ st _) as [[l' p'] boxes]. cbn [fst] in *.
  injection Hinv as Hboss Hbullets. split; assumption.
Qed.
End Boxes.

Section BossPhase.
Context `{JSMath}.
Variables (dt : Q) (phb : Rect.t).

Lemma Boss_update_health (x : Q) (b : Boss.t) :
  Boss.hp (fst (Boss.update dt x b)) = Boss.hp b /\
  Boss.alive (fst (Boss.update dt x b)) = Boss.alive b.
Proof.
  unfold Boss.update. split_ifs; split; reflexivity.
Qed.

Lemma bossContact_boss (boss : Boss.t) (player : Player.t) :
  fst (Level.bossContact phb boss player) = boss.
Proof. unfold Level.bossContact. split_ifs; reflexivity. Qed.

Lemma updateBoss_frame (st : Level.state) :
  Level._boxes (fst (Level.updateBoss dt phb st)) = Level._boxes (fst st) /\
  Level._bullets (fst (Level.updateBoss dt phb st)) = Level._bullets (fst st) /\
  bossHealth (fst (Level.updateBoss dt phb st)) = bossHealth (fst st).
Proof.
  destruct st as [l p]. unfold Level.updateBoss, bossHealth. cbn [fst].
  destruct (Level._boss l) as [boss |] eqn:Hboss; [| cbn; rewrite Hboss; repeat split].
  pose proof (Boss_update_health (Player.x p) boss) as (Hhp & Halive).
  destruct (Boss.update dt (Player.x p) boss) as [boss1 attack].
  pose proof (bossContact_boss boss1 p) as Hsame.
  destruct (Level.bossContact phb boss1 p) as [boss2 p2].
  cbn [fst] in *. subst boss2.
  destruct attack; cbn; rewrite Hhp, Halive; repeat split.
Qed.

Lemma updateBullets_idle (st : Level.state) :
  Level._bullets (fst st) = [] ->
  Level._boxes (fst (Level.updateBullets dt st)) = Level._boxes (fst st) /\
  Level._bullets (fst (Level.updateBullets dt st)) = [] /\
  Level._boss (fst (Level.updateBullets dt st)) = Level._boss (fst st).
Proof.
  destruct st as [l p]. cbn [fst]. intros Hnone.
  unfold Level.updateBullets. rewrite Hnone. cbn. repeat split.
Qed.


End BossPhase.

(** ** A whole tick of [Level.update] *)

Lemma boss_core (l : Level.t) : Level._boss l = snd (fst (core l)).
Proof. reflexivity. Qed.
Lemma bullets_core (l : Level.t) : Level._bullets l = snd (core l).
Proof. reflexivity. Qed.

Section WholeTick.
Context `{JSMath}.


Lemma bossHealth_core (l l' : Level.t) :
  core l = core l' ->
  bossHealth l = bossHealth l' /\ Level._bullets l = Level._bullets l'.
Proof.
  intros Hc. destruct (core_fields _ _ Hc) as (_ & Hboss & Hbullets).
  unfold bossHealth. rewrite Hboss. split; [reflexivity | exact Hbullets].
Qed.

Lemma update_boss_health (dt : Q) (player : Player.t) (nowSeconds : Q) (l : Level.t) :
  Level._bullets l = [] ->
  bossHealth (fst (Level.update dt player nowSeconds l)) = bossHealth l.
Proof.
  intros Hnone. unfold Level.update. cbv zeta.
  rewrite (proj1 (bossHealth_core _ _ (evaluateTasks_core _))).
  rewrite (proj1 (bossHealth_core _ _ (bossDefeat_core _))).
  match goal with
  | |- bossHealth (fst (Level.updateBullets _ ?st)) = _ =>
      assert (Hidle : Level._bullets (fst st) = [] /\ bossHealth (fst st) = bossHealth l)
  end.
  { rewrite (proj2 (bossHealth_core _ _ (updateBossAttacks_core _ _ _))).
    rewrite (proj1 (bossHealth_core _ _ (updateBossAttacks_core _ _ _))).
    rewrite (proj1 (proj2 (updateBoss_frame _ _ _))), (proj2 (proj2 (updateBoss_frame _ _ _))).
    match goal with
    | |- Level._bullets (fst ?st) = _ /\ _ =>
        assert (Hcore : core (fst st)
                        = core (fst (Level.updateBoxes dt (Player.getHitbox player)
                                       (Level.updateSprings dt (Player.getHitbox player)
                                          (Level.updateProgressClock dt nowSeconds
                                             (l, player))))))
    end.
    { rewrite updateEnemies_core, updateFruits_core, updatePowerPickups_core,
        updateMagnetPickups_core, collectCoins_core, updateMagnetField_core,
        updateCoins_core.
      reflexivity. }
    rewrite (proj2 (bossHealth_core _ _ Hcore)), (proj1 (bossHealth_core _ _ Hcore)).
    unfold bossHealth.
    rewrite (proj1 (updateBoxes_frame _ _ _)), (proj2 (updateBoxes_frame _ _ _)).
    fold (bossHealth (fst (Level.updateSprings dt (Player.getHitbox player)
                            (Level.updateProgressClock dt nowSeconds (l, player))))).
    assert (Hcore0 : core (fst (Level.updateSprings dt (Player.getHitbox player)
                                  (Level.updateProgressClock dt nowSeconds (l, player))))
                     = core l).
    { rewrite updateSprings_core, updateProgressClock_core. reflexivity. }
    rewrite (proj2 (bossHealth_core _ _ Hcore0)), (proj1 (bossHealth_core _ _ Hcore0)).
    split; [exact Hnone | reflexivity]. }
  destruct Hidle as [Hbullets Hhealth].
  unfold bossHealth at 1.
  rewrite (proj2 (proj2 (updateBullets_idle _ _ Hbullets))).
  exact Hhealth.
Qed.
End WholeTick.

(** ** Box activation and boss contact *)


Lemma hitsFromBelow_geometry (dt : Q) (phb : Rect.t) (player : Player.t) (box box' : Box.t) :
  Box.x box' = Box.x box -> Box.y box' = Box.y box -> Box.w box' = Box.w box ->
  Box.h box' = Box.h box ->
  Level.hitsFromBelow dt phb player box' = Level.hitsFromBelow dt phb player box.
Proof.
  intros Hx Hy Hw Hh. unfold Level.hitsFromBelow. rewrite Hx, Hy, Hw, Hh.
  reflexivity.
Qed.


(** Every box of a freshly built level is unused. *)
Lemma createLevel_boxes_unused :
  forallb (fun i => forallb (fun b => negb (Box.used b)) (Level._boxes (createLevel i)))
    (upto 10) = true.
Proof. vm_compute. reflexivity. Qed.

(** The same two situations through a whole tick of [Level.update]: the hit
    box is used, three coins were added and the hero moves down at 0.6; the
    stomped boss keeps its 18 health points and the hero leaves at -5. *)
Example update_box_hit_run :
  let r := Level.update (H := approxMath) (1 / 60) hero_under_box 1 (createLevel 2) in
  map Box.used (firstn 3 (Level._boxes (fst r))) = [true; false; false] /\
  (length (Level._coins (fst r)) = length (Level._coins (createLevel 2)) + 3)%nat /\
  Player.vy (snd r) == 0.6.
Proof. vm_compute. repeat split. Qed.

Example update_stomp_run :
  let r := Level.update (H := approxMath) (1 / 60) hero_over_boss 1 (createLevel 2) in
  Player.vy (snd r) == -5 /\ Player.grounded (snd r) = false /\
  Player.lives (snd r) = Player.lives hero_over_boss /\
  match bossHealth (fst r) with
  | Some (hp, alive) => hp == 18 /\ alive = true
  | None => False
  end.
Proof. vm_compute. repeat split. Qed.

Ltac touch_chain :=
  repeat first
    [ assumption
    | apply touch_none
    | apply touch_takeHit | apply touch_addComboScore; lia
    | apply touch_vy | apply touch_vx | apply touch_grounded
    | apply touch_springLaunchTimer | apply touch_justLaunchedSpring
    | apply touch_magnetTimer | apply touch_gun | apply touch_shieldPower
    | apply touch_powerFlash | apply touch_grow
    | apply touch_rings; lia
    | eapply touch_then; [| first
        [ apply touch_takeHit | apply touch_addComboScore; lia
        | apply touch_vy | apply touch_vx | apply touch_grounded
        | apply touch_springLaunchTimer | apply touch_justLaunchedSpring
        | apply touch_magnetTimer | apply touch_gun | apply touch_shieldPower
        | apply touch_powerFlash | apply touch_grow
        | apply touch_rings; lia ] ] ].

Section Touch.
Context `{JSMath}.
Variables (dt nowSeconds px py : Q) (phb : Rect.t).

(** A loop whose body touches the player touches the player. *)
Ltac loop_touch step_touch :=
  match goal with
  | |- touch ?p0 (snd (let '(_, _) := forEach ?body ?st ?xs in _)) =>
      let Hinv := fresh "Hinv" in
      pose proof (forEach_inv (S := Level.state)
                    (fun s => touch p0 (snd s)) body
                    (step_touch p0) xs st (touch_none _)) as Hinv;
      cbv beta in Hinv;
      destruct (forEach body st xs) as [[? ?] ?]; exact Hinv
  | |- touch ?p0 (snd (let '(_, _) := filterM ?keep ?st ?xs in _)) =>
      let Hinv := fresh "Hinv" in
      pose proof (filterM_inv (S := Level.state)
                    (fun s => touch p0 (snd s)) keep
                    (step_touch p0) xs st (touch_none _)) as Hinv;
      cbv beta in Hinv;
      destruct (filterM keep st xs) as [[? ?] ?]; exact Hinv
  end.

Lemma springStep_touch (p0 : Player.t) (st : Level.state) (s : Spring.t) :
  touch p0 (snd st) -> touch p0 (snd (fst (Level.springStep dt phb st s))).
Proof.
  destruct st as [l p]. cbn [snd]. intros Hp. unfold Level.springStep.
  split_ifs; cbn [fst snd]; touch_chain.
Qed.

Lemma updateSprings_touch (st : Level.state) :
  touch (snd st) (snd (Level.updateSprings dt phb st)).
Proof. unfold Level.updateSprings. loop_touch springStep_touch. Qed.

Lemma updateProgressClock_touch (st : Level.state) :
  snd (Level.updateProgressClock dt nowSeconds st) = snd st.
Proof. destruct st as [l p]. reflexivity. Qed.

Lemma boxStep_touch (p0 : Player.t) (st : Level.state) (box : Box.t) :
  touch p0 (snd st) -> touch p0 (snd (fst (Level.boxStep dt phb st box))).
Proof.
  destruct st as [l p]. cbn [snd]. intros Hp. unfold Level.boxStep.
  split_ifs; cbn [fst snd]; touch_chain.
Qed.

Lemma updateBoxes_touch (st : Level.state) :
  touch (snd st) (snd (Level.updateBoxes dt phb st)).
Proof. unfold Level.updateBoxes. loop_touch boxStep_touch. Qed.

Lemma updateCoins_touch (st : Level.state) :
  snd (Level.updateCoins dt st) = snd st.
Proof. destruct st as [l p]. reflexivity. Qed.

Lemma collectCoin_touch (p0 : Player.t) (st : Level.state) (c : Coin.t) :
  touch p0 (snd st) -> touch p0 (snd (fst (Level.collectCoin st c))).
Proof.
  destruct st as [l p]. cbn [snd]. intros Hp. unfold Level.collectCoin.
  cbn [fst snd].
  eapply touch_then; [| apply touch_addComboScore; lia].
  eapply touch_then; [exact Hp |]. apply (touch_rings 1). lia.
Qed.

Lemma magnetStep_touch (p0 : Player.t) (st : Level.state) (c : Coin.t) :
  touch p0 (snd st) -> touch p0 (snd (fst (Level.magnetStep dt px py st c))).
Proof.
  intros Hp. unfold Level.magnetStep.
  split_ifs; first [exact Hp | apply collectCoin_touch; exact Hp].
Qed.

Lemma updateMagnetField_touch (st : Level.state) :
  touch (snd st) (snd (Level.updateMagnetField dt px py st)).
Proof.
  unfold Level.updateMagnetField. destruct (0 <? _); [| apply touch_none].
  loop_touch magnetStep_touch.
Qed.

Lemma coinStep_touch (p0 : Player.t) (st : Level.state) (c : Coin.t) :
  touch p0 (snd st) -> touch p0 (snd (fst (Level.coinStep px py st c))).
Proof.
  intros Hp. unfold Level.coinStep.
  split_ifs; first [exact Hp | apply collectCoin_touch; exact Hp].
Qed.

Lemma collectCoins_touch (st : Level.state) :
  touch (snd st) (snd (Level.collectCoins px py st)).
Proof. unfold Level.collectCoins. loop_touch coinStep_touch. Qed.

Lemma magnetPickupStep_touch (p0 : Player.t) (st : Level.state) (mp : MagnetPickup.t) :
  touch p0 (snd st) -> touch p0 (snd (fst (Level.magnetPickupStep dt px py st mp))).
Proof.
  destruct st as [l p]. cbn [snd]. intros Hp. unfold Level.magnetPickupStep.
  split_ifs; cbn [fst snd]; touch_chain.
Qed.

Lemma updateMagnetPickups_touch (st : Level.state) :
  touch (snd st) (snd (Level.updateMagnetPickups dt px py st)).
Proof. unfold Level.updateMagnetPickups. loop_touch magnetPickupStep_touch. Qed.

Lemma powerPickupStep_touch (p0 : Player.t) (st : Level.state) (pp : PowerPickup.t) :
  touch p0 (snd st) -> touch p0 (snd (fst (Level.powerPickupStep dt phb st pp))).
Proof.
  destruct st as [l p]. cbn [snd]. intros Hp. unfold Level.powerPickupStep.
  split_ifs; cbn [fst snd]; touch_chain.
Qed.

Lemma updatePowerPickups_touch (st : Level.state) :
  touch (snd st) (snd (Level.updatePowerPickups dt phb st)).
Proof. unfold Level.updatePowerPickups. loop_touch powerPickupStep_touch. Qed.

Lemma fruitStep_touch (p0 : Player.t) (st : Level.state) (fruit : Fruit.t) :
  touch p0 (snd st) -> touch p0 (snd (fst (Level.fruitStep dt phb st fruit))).
Proof.
  destruct st as [l p]. cbn [snd]. intros Hp. unfold Level.fruitStep.
  split_ifs; cbn [fst snd]; touch_chain.
Qed.

Lemma updateFruits_touch (st : Level.state) :
  touch (snd st) (snd (Level.updateFruits dt phb st)).
Proof. unfold Level.updateFruits. loop_touch fruitStep_touch. Qed.

Lemma enemyStep_touch (p0 : Player.t) (st : Level.state) (e : Hostile.t) :
  touch p0 (snd st) -> touch p0 (snd (fst (Level.enemyStep phb st e))).
Proof.
  destruct st as [l p]. cbn [snd]. intros Hp. unfold Level.enemyStep.
  split_ifs; cbn [fst snd]; touch_chain.
Qed.

Lemma updateEnemies_touch (st : Level.state) :
  touch (snd st) (snd (Level.updateEnemies dt phb st)).
Proof.
  destruct st as [l p]. unfold Level.updateEnemies. cbn [snd].
  match goal with
  | |- touch ?p0 (snd (let '(_, _) := forEach ?body ?st ?xs in _)) =>
      pose proof (forEach_inv (S := Level.state)
                    (fun s => touch p0 (snd s)) body
                    (enemyStep_touch p0) xs st (touch_none _)) as Hinv;
      cbv beta in Hinv;
      destruct (forEach body st xs) as [[? ?] ?]; exact Hinv
  end.
Qed.

Lemma bossContact_touch (boss : Boss.t) (p : Player.t) :
  touch p (snd (Level.bossContact phb boss p)).
Proof. unfold Level.bossContact. split_ifs; cbn [fst snd]; touch_chain. Qed.

Lemma updateBoss_touch (st : Level.state) :
  touch (snd st) (snd (Level.updateBoss dt phb st)).
Proof.
  destruct st as [l p]. unfold Level.updateBoss. cbn [snd].
  destruct (Level._boss l) as [boss |]; [| apply touch_none].
  destruct (Boss.update dt (Player.x p) boss) as [boss1 attack].
  pose proof (bossContact_touch boss1 p) as Htouch.
  destruct (Level.bossContact phb boss1 p) as [boss2 p2]. exact Htouch.
Qed.

Lemma attackFilter_touch (p0 : Player.t) (st : Level.state) (atk : BossAttack.t) :
  touch p0 (snd st) -> touch p0 (snd (fst (Level.attackFilter phb st atk))).
Proof.
  destruct st as [l p]. cbn [snd]. intros Hp. unfold Level.attackFilter.
  split_ifs; cbn [fst snd]; touch_chain.
Qed.

Lemma updateBossAttacks_touch (st : Level.state) :
  touch (snd st) (snd (Level.updateBossAttacks dt phb st)).
Proof.
  destruct st as [l p]. unfold Level.updateBossAttacks. cbv zeta. cbn [snd].
  match goal with
  | |- touch ?p0 (snd (let '(_, _) := filterM ?keep ?st ?xs in _)) =>
      pose proof (filterM_inv (S := Level.state)
                    (fun s => touch p0 (snd s)) keep
                    (attackFilter_touch p0) xs st (touch_none _)) as Hinv;
      cbv beta in Hinv;
      destruct (filterM keep st xs) as [[? ?] ?]; exact Hinv
  end.
Qed.

Lemma bulletFilter_touch (p0 : Player.t) (st : Level.state) (b : Bullet.t) :
  touch p0 (snd st) -> touch p0 (snd (fst (Level.bulletFilter st b))).
Proof.
  destruct st as [l p]. cbn [snd]. intros Hp. unfold Level.bulletFilter.
  split_ifs; cbn [fst snd]; touch_chain.
Qed.

Lemma updateBullets_touch (st : Level.state) :
  touch (snd st) (snd (Level.updateBullets dt st)).
Proof.
  destruct st as [l p]. unfold Level.updateBullets. cbv zeta. cbn [snd].
  match goal with
  | |- touch ?p0 (snd (let '(_, _) := filterM ?keep ?st ?xs in _)) =>
      pose proof (filterM_inv (S := Level.state)
                    (fun s => touch p0 (snd s)) keep
                    (bulletFilter_touch p0) xs st (touch_none _)) as Hinv;
      cbv beta in Hinv;
      destruct (filterM keep st xs) as [[? ?] ?]; exact Hinv
  end.
Qed.

Lemma bossDefeat_touch (st : Level.state) :
  touch (snd st) (snd (Level.bossDefeat st)).
Proof.
  destruct st as [l p]. unfold Level.bossDefeat. cbn [snd].
  split_ifs; cbn [fst snd]; try apply touch_none.
  eapply touch_then; [apply (touch_addComboScore 1000); lia | apply (touch_rings 20); lia].
Qed.

Lemma taskStep_touch (p0 : Player.t) (st : Level.state) (t : Task.t) :
  touch p0 (snd st) -> touch p0 (snd (Level.taskStep st t)).
Proof.
  destruct st as [l p]. cbn [snd]. intros Hp. unfold Level.taskStep.
  split_ifs; cbn [fst snd]; try exact Hp.
  eapply touch_then; [exact Hp | apply (touch_rings 5); lia].
Qed.

Lemma evaluateTasks_touch (st : Level.state) :
  touch (snd st) (snd (Level.evaluateTasks st)).
Proof.
  unfold Level.evaluateTasks.
  apply (fold_left_inv (fun s => touch (snd st) (snd s)) Level.taskStep
           (taskStep_touch (snd st))).
  apply touch_none.
Qed.

End Touch.

(** A whole tick of the level touches the player. *)
Lemma update_touch `{JSMath} (dt nowSeconds : Q) (player : Player.t) (l : Level.t) :
  touch player (snd (Level.update dt player nowSeconds l)).
Proof.
  unfold Level.update. cbv zeta.
  eapply touch_then; [| apply evaluateTasks_touch].
  eapply touch_then; [| apply bossDefeat_touch].
  eapply touch_then; [| apply updateBullets_touch].
  eapply touch_then; [| apply updateBossAttacks_touch].
  eapply touch_then; [| apply updateBoss_touch].
  eapply touch_then; [| apply updateEnemies_touch].
  eapply touch_then; [| apply updateFruits_touch].
  eapply touch_then; [| apply updatePowerPickups_touch].
  eapply touch_then; [| apply updateMagnetPickups_touch].
  eapply touch_then; [| apply collectCoins_touch].
  eapply touch_then; [| apply updateMagnetField_touch].
  rewrite updateCoins_touch.
  eapply touch_then; [| apply updateBoxes_touch].
  eapply touch_then; [| apply updateSprings_touch].
  rewrite updateProgressClock_touch. apply touch_none.
Qed.

Ltac timers_tac :=
  unfold Player_timers in *; cbn;
  repeat match goal with H : Forall _ (_ :: _) |- _ => inversion_clear H end;
  repeat constructor; try assumption; unfold nonneg; lra.

Lemma respawn_timers (x0 y0 : Q) (p : Player.t) :
  Forall nonneg (Player_timers p) -> Forall nonneg (Player_timers (Player.respawn x0 y0 p)).
Proof. intros Hp. unfold Player.respawn. timers_tac. Qed.

Lemma addComboScore_timers (base : Z) (p : Player.t) :
  Forall nonneg (Player_timers p) ->
  Forall nonneg (Player_timers (Player.addComboScore base p)).
Proof. intros Hp. unfold Player.addComboScore. timers_tac. Qed.

(** Every statement by which the level writes to the player keeps the
    timers non-negative. *)
Lemma touch_timers (p q : Player.t) :
  touch p q -> Forall nonneg (Player_timers p) -> Forall nonneg (Player_timers q).
Proof.
  induction 1 as [p | p q r _ IHpq _ IHqr | k p | base p Hbase | n p Hn | v p | v p | p
                  | p | p | p | p | p | p | p]; intros Hp.
  - exact Hp.
  - apply IHqr, IHpq, Hp.
  - apply takeHit_timers, Hp.
  - apply addComboScore_timers, Hp.
  - exact Hp.
  - exact Hp.
  - exact Hp.
  - exact Hp.
  - timers_tac.
  - exact Hp.
  - timers_tac.
  - timers_tac.
  - exact Hp.
  - timers_tac.
  - timers_tac.
Qed.

Lemma takeHit_shield (knockDir : Q) (p : Player.t) :
  shieldConsistent p -> shieldConsistent (Player.takeHit knockDir p).
Proof.
  unfold shieldConsistent, Player.takeHit, Player.respawn. intros Hp.
  split_ifs; cbn; try exact Hp; discriminate.
Qed.

Lemma touch_shield (p q : Player.t) :
  touch p q -> shieldConsistent p -> shieldConsistent q.
Proof.
  induction 1 as [p | p q r _ IHpq _ IHqr | k p | base p Hbase | n p Hn | v p | v p | p
                  | p | p | p | p | p | p | p]; intros Hp.
  - exact Hp.
  - apply IHqr, IHpq, Hp.
  - apply takeHit_shield, Hp.
  - exact Hp.
  - exact Hp.
  - exact Hp.
  - exact Hp.
  - exact Hp.
  - exact Hp.
  - exact Hp.
  - exact Hp.
  - exact Hp.
  - intros _. reflexivity.
  - exact Hp.
  - exact Hp.
Qed.

Lemma toggleShield_shield (input : Input.t) (p : Player.t) :
  shieldConsistent p -> shieldConsistent (Player_toggleShield input p).
Proof.
  unfold shieldConsistent, Player_toggleShield. intros Hp.
  destruct (Player.hasShieldPower p) eqn:Hpow; cbn [andb];
    [| rewrite Hpow; exact Hp].
  destruct (Input.shieldPressed input); [| rewrite Hpow; intros _; reflexivity].
  destruct (Player.shieldActive p); [discriminate |].
  cbn. destruct (_ <=? _)%Z; intros _; exact Hpow.
Qed.

Lemma shieldFlags_consistent (p q : Player.t) :
  shieldFlags q = shieldFlags p -> shieldConsistent p -> shieldConsistent q.
Proof.
  unfold shieldFlags, shieldConsistent. intros Heq Hp.
  injection Heq as -> ->. exact Hp.
Qed.

Lemma tickTimers_shieldFlags (dt : Q) (p : Player.t) :
  shieldFlags (Player_tickTimers dt p) = shieldFlags p.
Proof.
  unfold Player_tickTimers. cbv zeta.
  repeat match goal with
         | |- context [if ?c then _ else _] => destruct c; cbn
         end; reflexivity.
Qed.

Lemma jump_shieldFlags (nowSeconds : Q) (input : Input.t) (p : Player.t) :
  shieldFlags (fst (Player_jump nowSeconds input p)) = shieldFlags p.
Proof.
  unfold Player_jump.
  destruct (Input.jumpBuffered _ _); [| reflexivity].
  destruct (_ || _); [reflexivity |].
  destruct (_ && _); reflexivity.
Qed.

Lemma steer_shieldFlags (input : Input.t) (p : Player.t) :
  shieldFlags (Player_steer input p) = shieldFlags p.
Proof.
  unfold Player_steer. cbv zeta.
  repeat match goal with
         | |- context [if ?c then _ else _] => destruct c; cbn
         end; reflexivity.
Qed.

Lemma integrate_shieldFlags (dt : Q) (p : Player.t) :
  shieldFlags (Player_integrate dt p) = shieldFlags p.
Proof.
  unfold Player_integrate. cbv zeta.
  repeat match goal with
         | |- context [if ?c then _ else _] => destruct c; cbn
         end; reflexivity.
Qed.

Lemma landOn_fold_shieldFlags (nowSeconds : Q) (hb : Rect.t) (solids : list Rect.t)
  (p : Player.t) :
  shieldFlags (fold_left (landOn nowSeconds hb) solids p) = shieldFlags p.
Proof.
  revert p. induction solids as [| s solids IH]; intros p; [reflexivity |].
  rewrite fold_left_cons, IH. unfold landOn.
  destruct (0 <=? _); [destruct (onTopCross _ _ _) |]; reflexivity.
Qed.

Lemma collide_shield (level : Level.t) (nowSeconds : Q) (p : Player.t) :
  shieldConsistent p -> shieldConsistent (Player_collideWithLevel level nowSeconds p).
Proof.
  intros Hp. unfold Player_collideWithLevel.
  match goal with
  | |- context [fold_left (pushOut ?hb2) ?solids ?q] =>
      destruct (pushOut_fold_shape hb2 solids q) as (x' & vx' & Heq);
      assert (Hq : shieldConsistent (fold_left (pushOut hb2) solids q))
  end.
  { rewrite Heq. eapply shieldFlags_consistent; [| exact Hp].
    change (shieldFlags (?q <| Player.x := x' |> <| Player.vx := vx' |>))
      with (shieldFlags q).
    rewrite landOn_fold_shieldFlags. reflexivity. }
  destruct (_ <? _); [apply takeHit_shield |]; exact Hq.
Qed.

Lemma Player_update_shield (dt : Q) (input : Input.t) (level : Level.t)
  (nowSeconds : Q) (p : Player.t) :
  shieldConsistent p ->
  shieldConsistent (fst (Player_update dt input level nowSeconds p)).
Proof.
  intros Hp. unfold Player_update.
  pose proof (jump_shieldFlags nowSeconds input
                (Player_toggleShield input (Player_tickTimers dt p))) as Hjump.
  destruct (Player_jump nowSeconds input _) as [p2 input2]. cbn [fst] in *.
  apply collide_shield.
  eapply shieldFlags_consistent;
    [rewrite integrate_shieldFlags, steer_shieldFlags; exact Hjump |].
  apply toggleShield_shield.
  eapply shieldFlags_consistent; [apply tickTimers_shieldFlags | exact Hp].
Qed.

Lemma Player_update_timers (dt : Q) (input : Input.t) (level : Level.t)
  (nowSeconds : Q) (p : Player.t) :
  Forall nonneg (Player_timers p) ->
  Forall nonneg (Player_timers (fst (Player_update dt input level nowSeconds p))).
Proof.
  intros Hp. unfold Player_update.
  pose proof (jump_timers nowSeconds input
                (Player_toggleShield input (Player_tickTimers dt p))) as Hjump.
  destruct (Player_jump nowSeconds input _) as [p2 input2]. cbn [fst] in *.
  apply collide_timers. rewrite integrate_timers, steer_timers, Hjump.
  apply toggleShield_timers. rewrite tickTimers_timers.
  induction Hp as [| t ts Ht _ IH]; cbn; constructor; [| exact IH].
  apply countDown_nonneg. exact Ht.
Qed.

Section InPlay.
Context `{JSMath}.

(** In every state of a run the shield flags are consistent and the nine
    timers are non-negative. *)
Lemma played_sound (p : Player.t) :
  played p -> shieldConsistent p /\ Forall nonneg (Player_timers p).
Proof.
  induction 1 as [| dt input level nowSeconds p _ [IHs IHt]
                  | dt nowSeconds level p _ [IHs IHt]
                  | p _ [IHs IHt] | p _ [IHs IHt] | x y p _ [IHs IHt]
                  | x y p _ [IHs IHt] | p _ [IHs IHt]].
  - split; [intros Hact; discriminate Hact | repeat constructor; unfold nonneg; cbn; lra].
  - split; [apply Player_update_shield, IHs | apply Player_update_timers, IHt].
  - split; [eapply touch_shield | eapply touch_timers]; try apply update_touch;
      assumption.
  - split; [exact IHs | timers_tac].
  - split; [exact IHs | exact IHt].
  - split; [exact IHs | exact IHt].
  - split; [intros Hact; discriminate Hact |].
    apply respawn_timers. exact IHt.
  - split; [exact IHs | exact IHt].
Qed.
End InPlay.

Section InPlayClaims.
Context `{JSMath}.

(** C2.  In every state of the player that a run of the program passes
    through, with the invulnerability timer at 0: a hit taken while the
    shield is raised ([shieldActive]) with fewer hits absorbed than the
    maximum leaves rings and lives unchanged and counts one more absorbed hit.
    While the count stays below the maximum the shield stays up; when the
    count reaches the maximum the shield breaks ([shieldActive] becomes false
    and the shatter timer starts, at 0.5), and the next hit takes the ring /
    size / life path.  The test in [takeHit] is [shieldActive &&
    hasShieldPower]; in play the first implies the second. *)
Theorem takeHit_shield_absorbs_in_play (knockDir : Q) (p : Player.t) :
  played p ->
  Player.invuln p == 0 ->
  Player.shieldActive p = true ->
  (Player.shieldHits p < Player.shieldMaxHits p)%Z ->
  let p1 := Player.takeHit knockDir p in
  Player.rings p1 = Player.rings p /\
  Player.lives p1 = Player.lives p /\
  Player.shieldHits p1 = (Player.shieldHits p + 1)%Z /\
  ((Player.shieldHits p + 1 < Player.shieldMaxHits p)%Z ->
     Player.shieldActive p1 = true /\
     Player.shieldShatter p1 = Player.shieldShatter p) /\
  ((Player.shieldHits p + 1 = Player.shieldMaxHits p)%Z ->
     Player.shieldActive p1 = false /\
     Player.shieldShatter p1 = 0.5 /\
     forall knockDir' : Q,
       let p2 := Player.takeHit knockDir' p1 in
       ((0 < Player.rings p)%Z ->
          Player.rings p2 = 0%Z /\ Player.lives p2 = Player.lives p) /\
       ((Player.rings p <= 0)%Z -> Player.isBig p = true ->
          Player.isBig p2 = false /\ Player.lives p2 = Player.lives p) /\
       ((Player.rings p <= 0)%Z -> Player.isBig p = false ->
          Player.lives p2 = (Player.lives p - 1)%Z)).
Proof.
  intros Hplayed Hinv Hact Hlt.
  apply takeHit_absorbs_with_power; try assumption.
  apply (proj1 (played_sound p Hplayed)). exact Hact.
Qed.

End InPlayClaims.

Lemma hero_shield_up_played : played (H := approxMath) hero_shield_up.
Proof. apply played_update, played_level, played_new. Qed.

Lemma takeHit_shield_absorbs_in_play_witness :
  Player.rings hero_shield_up = 1%Z /\
  Player.rings (Player.takeHit 1 hero_shield_up) = Player.rings hero_shield_up /\
  Player.lives (Player.takeHit 1 hero_shield_up) = Player.lives hero_shield_up /\
  Player.shieldHits (Player.takeHit 1 hero_shield_up)
  = (Player.shieldHits hero_shield_up + 1)%Z.
Proof.
  assert (Hinv : Player.invuln hero_shield_up == 0) by (vm_compute; reflexivity).
  assert (Hact : Player.shieldActive hero_shield_up = true) by (vm_compute; reflexivity).
  assert (Hlt : (Player.shieldHits hero_shield_up < Player.shieldMaxHits hero_shield_up)%Z)
    by (vm_compute; reflexivity).
  split; [vm_compute; reflexivity |].
  destruct (takeHit_shield_absorbs_in_play (H := approxMath) 1 hero_shield_up
              hero_shield_up_played Hinv Hact Hlt) as (Hr & Hl & Hs & _).
  exact (conj Hr (conj Hl Hs)).
Defined.


(** ** Loops that change nothing *)


Lemma forEach_idle {A S : Type} (body : S -> A -> S * A) (l : list A) (s : S) :
  Forall (fun a => fst (body s a) = s) l ->
  forEach body s l = (s, map (fun a => snd (body s a)) l).
Proof.
  induction 1 as [| a l Ha _ IH]; cbn; [reflexivity |].
  destruct (body s a) as [s1 a'] eqn:Hbody. cbn in Ha. subst s1.
  rewrite IH. reflexivity.
Qed.

(** ** The box block of [Level.update] *)


Lemma hitsFromBelow_not_rising (dt : Q) (phb : Rect.t) (player : Player.t) (box : Box.t) :
  0 <= Player.vy player -> Level.hitsFromBelow dt phb player box = false.
Proof.
  intros Hvy. unfold Level.hitsFromBelow. cbv zeta.
  rewrite (proj2 (Qleb_true _ _) Hvy). destruct (_ || _); reflexivity.
Qed.

(** A box that is used, or not struck, goes through the body of the loop
    with its flag as it was, and the state is not changed. *)
Lemma boxStep_skip (dt : Q) (phb : Rect.t) (st : Level.state) (box : Box.t) :
  Box.used box = true \/ Level.hitsFromBelow dt phb (snd st) box = false ->
  fst (Level.boxStep dt phb st box) = st /\
  Box.used (snd (Level.boxStep dt phb st box)) = Box.used box.
Proof.
  destruct st as [l p]. cbn [snd]. intros Hskip. unfold Level.boxStep.
  set (box1 := if 0 <? Box.bounceAnim box then _ else box).
  assert (Hsame : Box.x box1 = Box.x box /\ Box.y box1 = Box.y box /\
                  Box.w box1 = Box.w box /\ Box.h box1 = Box.h box /\
                  Box.used box1 = Box.used box)
    by (subst box1; destruct (0 <? Box.bounceAnim box); repeat split).
  destruct Hsame as (Hx & Hy & Hw & Hh & Hused).
  rewrite (hitsFromBelow_geometry _ _ _ box box1 Hx Hy Hw Hh).
  destruct (Box.used box1) eqn:Hu1; cbn [fst snd];
    [split; [reflexivity | congruence] |].
  destruct Hskip as [Hskip | Hskip]; [congruence |].
  rewrite Hskip. cbn [negb fst snd]. split; [reflexivity | congruence].
Qed.



Section BoxBlock.
Variables (dt : Q) (phb : Rect.t).

(** No box that is unused and struck: the block changes nothing but the
    bounce animations. *)
Lemma updateBoxes_none_struck (l : Level.t) (player : Player.t) :
  Forall (fun b => Box.used b = true \/ Level.hitsFromBelow dt phb player b = false)
    (Level._boxes l) ->
  exists boxes',
    Level.updateBoxes dt phb (l, player) = (l <| Level._boxes := boxes' |>, player) /\
    map Box.used boxes' = map Box.used (Level._boxes l).
Proof.
  intros Hskip. unfold Level.updateBoxes. cbn [fst].
  rewrite forEach_idle.
  - eexists. split; [reflexivity |].
    rewrite map_map. apply map_ext_in. intros b Hb.
    rewrite List.Forall_forall in Hskip.
    apply (boxStep_skip dt phb (l, player) b), Hskip, Hb.
  - rewrite List.Forall_forall in *. intros b Hb.
    apply (boxStep_skip dt phb (l, player) b), Hskip, Hb.
Qed.


End BoxBlock.





(** ** The boss through a tick *)

Lemma Boss_place_aabb (b b' : Boss.t) :
  Boss_place b' = Boss_place b -> Boss.getAabb b' = Boss.getAabb b.
Proof.
  unfold Boss_place, Boss.getAabb. intros Heq. injection Heq as -> -> -> ->.
  reflexivity.
Qed.

Lemma Boss_takeHit_place (amount : Q) (b : Boss.t) :
  Boss_place (Boss.takeHit amount b) = Boss_place b.
Proof. unfold Boss.takeHit. destruct (negb _); reflexivity. Qed.

(** [Boss.update] moves a living boss by its patrol step and touches neither
    [hp] nor [alive]; where the player stands only matters for the attack. *)
Lemma Boss_update_patrol (dt px : Q) (b : Boss.t) :
  Boss.hp (fst (Boss.update dt px b)) = Boss.hp b /\
  Boss.alive (fst (Boss.update dt px b)) = Boss.alive b /\
  Boss.x (fst (Boss.update dt px b))
  = (if Boss.alive b then Boss.x b + Boss.dir b * 0.7 * (dt * 60) else Boss.x b) /\
  Boss.y (fst (Boss.update dt px b)) = Boss.y b /\
  Boss.w (fst (Boss.update dt px b)) = Boss.w b /\
  Boss.h (fst (Boss.update dt px b)) = Boss.h b.
Proof.
  unfold Boss.update. cbv zeta.
  destruct (Boss.alive b); cbn [negb]; [| repeat split].
  destruct (0 <? Boss.attackCooldown b); [repeat split |].
  destruct (_ && _); repeat split.
Qed.

Lemma Boss_update_place (dt px px' : Q) (b : Boss.t) :
  Boss_place (fst (Boss.update dt px b)) = Boss_place (fst (Boss.update dt px' b)).
Proof.
  unfold Boss_place.
  destruct (Boss_update_patrol dt px b) as (_ & _ & -> & -> & -> & ->).
  destruct (Boss_update_patrol dt px' b) as (_ & _ & -> & -> & -> & ->).
  reflexivity.
Qed.

(** One bullet: the boss is left as it is unless the box of the bullet
    overlaps its own. *)
Lemma bulletFilter_boss (st : Level.state) (b : Bullet.t) (boss : Boss.t) :
  Level._boss (fst st) = Some boss ->
  exists boss',
    Level._boss (fst (fst (Level.bulletFilter st b))) = Some boss' /\
    Boss_place boss' = Boss_place boss /\
    (boss' = boss \/
     aabbIntersects (Rect.mk (Bullet.x b - 4) (Bullet.y b - 4) 8 8) (Boss.getAabb boss)
     = true).
Proof.
  destruct st as [l p]. cbn [fst]. intros Hboss. unfold Level.bulletFilter.
  destruct (_ || _); [exists boss; cbn; auto |].
  destruct (Level.bulletHitsEnemy _ _) as [[e enemies] |].
  - destruct (negb _); exists boss; cbn; auto.
  - rewrite Hboss.
    destruct (Boss.alive boss); cbn [andb]; [| exists boss; cbn; auto].
    destruct (aabbIntersects _ _) eqn:Hhit; [| exists boss; cbn; auto].
    exists (Boss.takeHit 1 boss). cbn. split; [reflexivity |].
    split; [apply Boss_takeHit_place | right; reflexivity].
Qed.

Lemma bullets_boss (bullets : list Bullet.t) (st : Level.state) (boss : Boss.t) :
  Level._boss (fst st) = Some boss ->
  exists boss',
    Level._boss (fst (fst (filterM Level.bulletFilter st bullets))) = Some boss' /\
    Boss_place boss' = Boss_place boss /\
    (boss' = boss \/
     Exists (fun b => aabbIntersects (Rect.mk (Bullet.x b - 4) (Bullet.y b - 4) 8 8)
                        (Boss.getAabb boss) = true) bullets).
Proof.
  revert st boss. induction bullets as [| b bullets IH]; intros st boss Hboss.
  - exists boss. cbn. auto.
  - cbn [filterM].
    destruct (bulletFilter_boss st b boss Hboss) as (boss1 & Hboss1 & Haabb1 & Hcase1).
    destruct (Level.bulletFilter st b) as [st1 k]. cbn [fst] in Hboss1.
    destruct (IH st1 boss1 Hboss1) as (boss2 & Hboss2 & Haabb2 & Hcase2).
    destruct (filterM Level.bulletFilter st1 bullets) as [st2 kept]. cbn [fst] in *.
    exists boss2. split; [exact Hboss2 |]. split; [congruence |].
    destruct Hcase2 as [-> | Hlater].
    + destruct Hcase1 as [-> | Hnow]; [left; reflexivity |].
      right. apply Exists_cons_hd. exact Hnow.
    + right. apply Exists_cons_tl.
      rewrite (Boss_place_aabb _ _ Haabb1) in Hlater. exact Hlater.
Qed.

Lemma updateBullets_boss (dt : Q) (st : Level.state) (boss : Boss.t) :
  Level._boss (fst st) = Some boss ->
  exists boss',
    Level._boss (fst (Level.updateBullets dt st)) = Some boss' /\
    Boss_place boss' = Boss_place boss /\
    (boss' = boss \/
     Exists (fun b => aabbIntersects (bulletBox dt b) (Boss.getAabb boss) = true)
       (Level._bullets (fst st))).
Proof.
  destruct st as [l p]. cbn [fst]. intros Hboss.
  unfold Level.updateBullets. cbv zeta.
  match goal with
  | |- context [filterM Level.bulletFilter ?st0 ?moved] =>
      destruct (bullets_boss moved st0 boss Hboss) as (boss' & Hboss' & Haabb & Hcase);
      destruct (filterM Level.bulletFilter st0 moved) as [[l2 p2] kept]
  end.
  cbn [fst] in *. exists boss'. split; [exact Hboss' |]. split; [exact Haabb |].
  destruct Hcase as [-> | Hhit]; [left; reflexivity | right].
  rewrite List.Exists_exists in *. destruct Hhit as (b' & Hin & Hb').
  apply in_map_iff in Hin. destruct Hin as (b & <- & Hin).
  exists b. split; [exact Hin |]. exact Hb'.
Qed.

Section BossBlock.
Context `{JSMath}.

(** The boss block stores the boss as its own update left it. *)
Lemma updateBoss_boss (dt : Q) (phb : Rect.t) (st : Level.state) (boss : Boss.t) :
  Level._boss (fst st) = Some boss ->
  Level._boss (fst (Level.updateBoss dt phb st))
  = Some (fst (Boss.update dt (Player.x (snd st)) boss)).
Proof.
  destruct st as [l p]. cbn [fst snd]. intros Hboss.
  unfold Level.updateBoss. rewrite Hboss.
  destruct (Boss.update dt (Player.x p) boss) as [boss1 attack].
  pose proof (bossContact_boss phb boss1 p) as Hsame.
  destruct (Level.bossContact phb boss1 p) as [boss2 p2].
  cbn [fst] in *. subst boss2. reflexivity.
Qed.

(** Through a whole tick: the boss is where its patrol step put it, and its
    [hp] and [alive] are as they were unless the box of a bullet in flight
    overlaps it. *)
Lemma update_boss_bullets_only (dt nowSeconds : Q) (player : Player.t) (l : Level.t)
    (boss : Boss.t) :
  Level._boss l = Some boss ->
  exists boss',
    Level._boss (fst (Level.update dt player nowSeconds l)) = Some boss' /\
    (forall px, Boss_place boss' = Boss_place (fst (Boss.update dt px boss))) /\
    (Boss.hp boss' <> Boss.hp boss \/ Boss.alive boss' <> Boss.alive boss ->
     Exists (fun b => aabbIntersects (bulletBox dt b) (Boss.getAabb boss') = true)
       (Level._bullets l)).
Proof.
  intros Hboss. unfold Level.update. cbv zeta.
  rewrite (boss_core (fst (Level.evaluateTasks _))), evaluateTasks_core, bossDefeat_core,
    <- boss_core.
  set (phb := Player.getHitbox player).
  match goal with
  | |- context [Level.updateBullets dt (Level.updateBossAttacks dt phb
                                          (Level.updateBoss dt phb ?st))] =>
      set (st9 := st)
  end.
  assert (Hcore9 : Level._boss (fst st9) = Some boss /\
                   Level._bullets (fst st9) = Level._bullets l).
  { subst st9.
    rewrite (boss_core (fst (Level.updateEnemies _ _ _))),
      (bullets_core (fst (Level.updateEnemies _ _ _))).
    rewrite updateEnemies_core, updateFruits_core, updatePowerPickups_core,
      updateMagnetPickups_core, collectCoins_core, updateMagnetField_core,
      updateCoins_core.
    rewrite <- boss_core, <- bullets_core.
    rewrite (proj1 (updateBoxes_frame _ _ _)), (proj2 (updateBoxes_frame _ _ _)).
    rewrite (boss_core (fst (Level.updateSprings _ _ _))),
      (bullets_core (fst (Level.updateSprings _ _ _))).
    rewrite updateSprings_core, updateProgressClock_core.
    split; [exact Hboss | reflexivity]. }
  destruct Hcore9 as [Hboss9 Hbullets9].
  set (boss1 := fst (Boss.update dt (Player.x (snd st9)) boss)).
  assert (Hcore11 : Level._boss (fst (Level.updateBossAttacks dt phb
                                        (Level.updateBoss dt phb st9))) = Some boss1 /\
                    Level._bullets (fst (Level.updateBossAttacks dt phb
                                           (Level.updateBoss dt phb st9)))
                    = Level._bullets l).
  { rewrite (boss_core (fst (Level.updateBossAttacks _ _ _))),
      (bullets_core (fst (Level.updateBossAttacks _ _ _))).
    rewrite updateBossAttacks_core, <- boss_core, <- bullets_core.
    rewrite (updateBoss_boss dt phb st9 boss Hboss9).
    rewrite (proj1 (proj2 (updateBoss_frame _ _ _))).
    split; [reflexivity | exact Hbullets9]. }
  destruct Hcore11 as [Hboss11 Hbullets11].
  destruct (updateBullets_boss dt _ boss1 Hboss11) as (boss' & Hboss' & Haabb & Hcase).
  exists boss'. split; [exact Hboss' |]. split.
  - intros px. rewrite Haabb. apply Boss_update_place.
  - intros Hchanged. rewrite Hbullets11 in Hcase.
    destruct Hcase as [-> | Hhit].
    + subst boss1.
      destruct (Boss_update_patrol dt (Player.x (snd st9)) boss) as (Hhp & Halive & _).
      destruct Hchanged as [Hc | Hc]; contradiction Hc.
    + rewrite (Boss_place_aabb _ _ Haabb). exact Hhit.
Qed.
End BossBlock.

Lemma filterM_idle {A S : Type} (keep : S -> A -> S * bool) (l : list A) (s : S) :
  Forall (fun a => fst (keep s a) = s) l -> fst (filterM keep s l) = s.
Proof.
  induction 1 as [| a l Ha _ IH]; cbn; [reflexivity |].
  destruct (keep s a) as [s1 k]. cbn in Ha. subst s1.
  destruct (filterM keep s l) as [s2 kept]. exact IH.
Qed.

Section Scene.
Context `{JSMath}.
Variables (dt nowSeconds px py : Q) (phb : Rect.t).

Ltac loop_scene step_scene :=
  match goal with
  | |- scene (let '(_, _) := forEach ?body ?st ?xs in _) = _ =>
      let Hinv := fresh "Hinv" in
      pose proof (forEach_inv (S := Level.state)
                    (fun s => scene s = scene st) body
                    (step_scene (scene st)) xs st eq_refl) as Hinv;
      cbv beta in Hinv;
      destruct (forEach body st xs) as [[? ?] ?]; exact Hinv
  | |- scene (let '(_, _) := filterM ?keep ?st ?xs in _) = _ =>
      let Hinv := fresh "Hinv" in
      pose proof (filterM_inv (S := Level.state)
                    (fun s => scene s = scene st) keep
                    (step_scene (scene st)) xs st eq_refl) as Hinv;
      cbv beta in Hinv;
      destruct (filterM keep st xs) as [[? ?] ?]; exact Hinv
  end.

Lemma updateProgressClock_scene (st : Level.state) :
  scene (Level.updateProgressClock dt nowSeconds st) = scene st.
Proof. destruct st as [l p]. reflexivity. Qed.

Lemma updateCoins_scene (st : Level.state) :
  scene (Level.updateCoins dt st) = scene st.
Proof. destruct st as [l p]. reflexivity. Qed.

Lemma collectCoin_scene (c : scene_t) (st : Level.state) (coin : Coin.t) :
  scene st = c -> scene (fst (Level.collectCoin st coin)) = c.
Proof. destruct st as [l p]. intros Hc. exact Hc. Qed.

Lemma magnetStep_scene (c : scene_t) (st : Level.state) (coin : Coin.t) :
  scene st = c -> scene (fst (Level.magnetStep dt px py st coin)) = c.
Proof.
  intros Hc. unfold Level.magnetStep.
  split_ifs; first [exact Hc | apply collectCoin_scene; exact Hc].
Qed.

Lemma updateMagnetField_scene (st : Level.state) :
  scene (Level.updateMagnetField dt px py st) = scene st.
Proof.
  unfold Level.updateMagnetField. destruct (0 <? _); [| reflexivity].
  loop_scene magnetStep_scene.
Qed.

Lemma coinStep_scene (c : scene_t) (st : Level.state) (coin : Coin.t) :
  scene st = c -> scene (fst (Level.coinStep px py st coin)) = c.
Proof.
  intros Hc. unfold Level.coinStep.
  split_ifs; first [exact Hc | apply collectCoin_scene; exact Hc].
Qed.

Lemma collectCoins_scene (st : Level.state) :
  scene (Level.collectCoins px py st) = scene st.
Proof. unfold Level.collectCoins. loop_scene coinStep_scene. Qed.

Lemma magnetPickupStep_scene (c : scene_t) (st : Level.state) (mp : MagnetPickup.t) :
  scene st = c -> scene (fst (Level.magnetPickupStep dt px py st mp)) = c.
Proof.
  destruct st as [l p]. intros Hc. unfold Level.magnetPickupStep.
  split_ifs; exact Hc.
Qed.

Lemma updateMagnetPickups_scene (st : Level.state) :
  scene (Level.updateMagnetPickups dt px py st) = scene st.
Proof. unfold Level.updateMagnetPickups. loop_scene magnetPickupStep_scene. Qed.

Lemma powerPickupStep_scene (c : scene_t) (st : Level.state) (pp : PowerPickup.t) :
  scene st = c -> scene (fst (Level.powerPickupStep dt phb st pp)) = c.
Proof.
  destruct st as [l p]. intros Hc. unfold Level.powerPickupStep.
  split_ifs; exact Hc.
Qed.

Lemma updatePowerPickups_scene (st : Level.state) :
  scene (Level.updatePowerPickups dt phb st) = scene st.
Proof. unfold Level.updatePowerPickups. loop_scene powerPickupStep_scene. Qed.

Lemma fruitStep_scene (c : scene_t) (st : Level.state) (fruit : Fruit.t) :
  scene st = c -> scene (fst (Level.fruitStep dt phb st fruit)) = c.
Proof.
  destruct st as [l p]. intros Hc. unfold Level.fruitStep.
  split_ifs; exact Hc.
Qed.

Lemma updateFruits_scene (st : Level.state) :
  scene (Level.updateFruits dt phb st) = scene st.
Proof. unfold Level.updateFruits. loop_scene fruitStep_scene. Qed.

(** Springs that the hitbox does not touch launch nobody. *)
Lemma updateSprings_quiet (l : Level.t) (p : Player.t) :
  forallb (fun s => negb (aabbIntersects phb (springBox s))) (Level._springs l) = true ->
  exists springs',
    Level.updateSprings dt phb (l, p) = (l <| Level._springs := springs' |>, p).
Proof.
  intros Hquiet. unfold Level.updateSprings. cbn [fst].
  rewrite forEach_idle; [eexists; reflexivity |].
  rewrite forallb_forall in Hquiet. rewrite List.Forall_forall. intros s Hs.
  specialize (Hquiet s Hs). unfold Level.springStep. cbv zeta.
  match goal with
  | |- context [aabbIntersects phb ?sb] =>
      assert (Hsb : sb = springBox s)
        by (unfold springBox; destruct (0 <? Spring.compress s); reflexivity);
      rewrite Hsb
  end.
  rewrite Hquiet. reflexivity.
Qed.

(** Living enemies that the hitbox does not touch once they have moved
    leave the player alone. *)
Lemma updateEnemies_quiet (l : Level.t) (p : Player.t) :
  forallb (fun e => negb (Hostile.alive e && aabbIntersects phb (Hostile.getAabb e)))
    (map (Hostile.update dt) (Level._enemies l)) = true ->
  exists enemies',
    Level.updateEnemies dt phb (l, p) = (l <| Level._enemies := enemies' |>, p).
Proof.
  intros Hquiet. unfold Level.updateEnemies.
  change (Level._enemies (l <| Level._enemies := ?v |>)) with v.
  rewrite forEach_idle.
  - eexists. cbn. reflexivity.
  - rewrite forallb_forall in Hquiet. rewrite List.Forall_forall. intros e He.
    specialize (Hquiet e He). unfold Level.enemyStep.
    destruct (Hostile.alive e); cbn [negb andb] in *; [| reflexivity].
    rewrite Hquiet. reflexivity.
Qed.

(** Boss attacks that the hitbox does not touch once they have moved leave
    the player alone. *)
Lemma updateBossAttacks_quiet (l : Level.t) (p : Player.t) :
  forallb (fun a => negb (aabbIntersects phb (attackBox dt a))) (Level._bossAttacks l)
  = true ->
  snd (Level.updateBossAttacks dt phb (l, p)) = p.
Proof.
  intros Hquiet. unfold Level.updateBossAttacks. cbv zeta.
  match goal with
  | |- context [filterM ?keep ?st ?moved] =>
      assert (Hidle : fst (filterM keep st moved) = st)
  end.
  { apply filterM_idle. rewrite List.Forall_forall. intros a' Ha'.
    apply in_map_iff in Ha'. destruct Ha' as (a & <- & Ha).
    rewrite forallb_forall in Hquiet. specialize (Hquiet a Ha).
    unfold Level.attackFilter. destruct (_ || _); [reflexivity |].
    match goal with
    | |- context [aabbIntersects phb ?ab] =>
        change ab with (attackBox dt a)
    end.
    apply negb_true_iff in Hquiet. rewrite Hquiet. reflexivity. }
  destruct (filterM _ _ _) as [[l2 p2] kept]. cbn [fst] in Hidle.
  injection Hidle as -> ->. reflexivity.
Qed.

Lemma bulletFilter_stance (c : Q * Q * bool) (st : Level.state) (b : Bullet.t) :
  stance (snd st) = c -> stance (snd (fst (Level.bulletFilter st b))) = c.
Proof.
  destruct st as [l p]. intros Hc. unfold Level.bulletFilter.
  split_ifs; exact Hc.
Qed.

Lemma updateBullets_stance (st : Level.state) :
  stance (snd (Level.updateBullets dt st)) = stance (snd st).
Proof.
  destruct st as [l p]. unfold Level.updateBullets. cbv zeta.
  match goal with
  | |- context [filterM ?keep ?st0 ?xs] =>
      pose proof (filterM_inv (S := Level.state)
                    (fun s => stance (snd s) = stance p) keep
                    (bulletFilter_stance (stance p)) xs st0 eq_refl) as Hinv;
      cbv beta in Hinv;
      destruct (filterM keep st0 xs) as [[? ?] ?]; exact Hinv
  end.
Qed.

Lemma bossDefeat_stance (st : Level.state) :
  stance (snd (Level.bossDefeat st)) = stance (snd st).
Proof. destruct st as [l p]. unfold Level.bossDefeat. split_ifs; reflexivity. Qed.

Lemma taskStep_stance (c : Q * Q * bool) (st : Level.state) (t : Task.t) :
  stance (snd st) = c -> stance (snd (Level.taskStep st t)) = c.
Proof.
  destruct st as [l p]. intros Hc. unfold Level.taskStep.
  split_ifs; exact Hc.
Qed.

Lemma evaluateTasks_stance (st : Level.state) :
  stance (snd (Level.evaluateTasks st)) = stance (snd st).
Proof.
  unfold Level.evaluateTasks.
  apply (fold_left_inv (fun s => stance (snd s) = stance (snd st)) Level.taskStep
           (taskStep_stance (stance (snd st)))).
  reflexivity.
Qed.
End Scene.

Lemma stance_fields (p : Player.t) (x v : Q) (g : bool) :
  stance p = (x, v, g) -> Player.x p = x /\ Player.vy p = v /\ Player.grounded p = g.
Proof. unfold stance. intros Heq. injection Heq as -> -> ->. repeat split. Qed.

Section Stomp.
Context `{JSMath}.

(** The boss block when the player comes down on the living boss. *)
Lemma updateBoss_stomp (dt : Q) (phb : Rect.t) (l : Level.t) (p : Player.t)
    (boss : Boss.t) :
  Level._boss l = Some boss ->
  Boss.alive boss = true ->
  aabbIntersects phb (Boss.getAabb (fst (Boss.update dt (Player.x p) boss))) = true ->
  0 < Player.vy p ->
  Rect.y phb + Rect.h phb - Player.vy p
  <= Rect.y (Boss.getAabb (fst (Boss.update dt (Player.x p) boss))) + 8 ->
  snd (Level.updateBoss dt phb (l, p))
  = p <| Player.vy := -5 |> <| Player.grounded := false |> /\
  Level._boss (fst (Level.updateBoss dt phb (l, p)))
  = Some (fst (Boss.update dt (Player.x p) boss)) /\
  (snd (Boss.update dt (Player.x p) boss) = None ->
   Level._bossAttacks (fst (Level.updateBoss dt phb (l, p))) = Level._bossAttacks l).
Proof.
  intros Hboss Halive Htouch Hfalling Habove.
  split; [| split; [apply (updateBoss_boss dt phb (l, p) boss Hboss) |]].
  - unfold Level.updateBoss. rewrite Hboss.
    destruct (Boss_update_patrol dt (Player.x p) boss) as (_ & Hlife & _).
    destruct (Boss.update dt (Player.x p) boss) as [boss1 attack]. cbn [fst] in *.
    unfold Level.bossContact. rewrite Hlife, Halive, Htouch. cbv zeta.
    rewrite (proj2 (Qltb_true _ _) Hfalling), (proj2 (Qleb_true _ _) Habove).
    reflexivity.
  - intros Hnone. unfold Level.updateBoss. rewrite Hboss.
    destruct (Boss.update dt (Player.x p) boss) as [boss1 attack]. cbn [snd] in Hnone.
    subst attack.
    destruct (Level.bossContact phb boss1 p) as [boss2 p2]. reflexivity.
Qed.

(** A tick in which the player comes down on the boss and touches nothing
    else ends with the player leaving upward at -5, off the ground. *)
Lemma update_stomp_bounce (dt nowSeconds : Q) (player : Player.t) (l : Level.t)
    (boss : Boss.t) :
  Level._boss l = Some boss ->
  Boss.alive boss = true ->
  aabbIntersects (Player.getHitbox player)
    (Boss.getAabb (fst (Boss.update dt (Player.x player) boss))) = true ->
  0 < Player.vy player ->
  Rect.y (Player.getHitbox player) + Rect.h (Player.getHitbox player) - Player.vy player
  <= Rect.y (Boss.getAabb (fst (Boss.update dt (Player.x player) boss))) + 8 ->
  forallb (fun s => negb (aabbIntersects (Player.getHitbox player) (springBox s)))
    (Level._springs l) = true ->
  forallb (fun e => negb (Hostile.alive e &&
                          aabbIntersects (Player.getHitbox player) (Hostile.getAabb e)))
    (map (Hostile.update dt) (Level._enemies l)) = true ->
  forallb (fun a => negb (aabbIntersects (Player.getHitbox player) (attackBox dt a)))
    (Level._bossAttacks l) = true ->
  snd (Boss.update dt (Player.x player) boss) = None ->
  Player.vy (snd (Level.update dt player nowSeconds l)) = -5 /\
  Player.grounded (snd (Level.update dt player nowSeconds l)) = false.
Proof.
  intros Hboss Halive Htouch Hfalling Habove Hsprings Henemies Hattacks Hnone.
  set (phb := Player.getHitbox player) in *.
  assert (Hstance : stance (snd (Level.update dt player nowSeconds l))
                    = (Player.x player, -5, false)).
  { unfold Level.update. cbv zeta. fold phb.
    rewrite evaluateTasks_stance, bossDefeat_stance, updateBullets_stance.
    (* the first three blocks leave the state as it is, their own lists apart *)
    destruct (Level.updateProgressClock dt nowSeconds (l, player)) as [l1 p1] eqn:Hclock.
    assert (Hl1 : Level._springs l1 = Level._springs l /\ Level._boss l1 = Some boss /\
                  scene (l1, p1) = scene (l, player) /\ p1 = player).
    { unfold Level.updateProgressClock in Hclock. injection Hclock as <- <-.
      repeat split. exact Hboss. }
    destruct Hl1 as (Hsp1 & Hboss1 & Hscene1 & ->).
    rewrite <- Hsp1 in Hsprings.
    destruct (updateSprings_quiet dt phb l1 player Hsprings) as (springs' & ->).
    destruct (updateBoxes_none_struck dt phb (l1 <| Level._springs := springs' |>) player)
      as (boxes' & -> & _).
    { rewrite List.Forall_forall. intros b _. right.
      apply hitsFromBelow_not_rising. lra. }
    set (l3 := l1 <| Level._springs := springs' |> <| Level._boxes := boxes' |>).
    assert (Hscene3 : scene (l3, player) = scene (l, player)) by exact Hscene1.
    assert (Hboss3 : Level._boss l3 = Some boss) by exact Hboss1.
    (* the blocks up to the fruits do not touch the scene *)
    set (st9 := Level.updateFruits dt phb _).
    assert (Hscene9 : scene st9 = scene (l, player)).
    { subst st9.
      rewrite updateFruits_scene, updatePowerPickups_scene, updateMagnetPickups_scene,
        collectCoins_scene, updateMagnetField_scene, updateCoins_scene.
      exact Hscene3. }
    assert (Hboss9 : Level._boss (fst st9) = Some boss).
    { subst st9.
      rewrite boss_core, updateFruits_core, updatePowerPickups_core,
        updateMagnetPickups_core, collectCoins_core, updateMagnetField_core,
        updateCoins_core.
      exact Hboss3. }
    clearbody st9. destruct st9 as [l9 p9].
    unfold scene, stance in Hscene9. cbn [fst snd] in Hscene9, Hboss9.
    injection Hscene9 as Hen9 Hat9 Hx9 Hvy9 Hgr9.
    rewrite <- Hen9 in Henemies.
    destruct (updateEnemies_quiet dt phb l9 p9 Henemies) as (enemies' & ->).
    rewrite <- Hx9 in Htouch, Habove, Hnone. rewrite <- Hvy9 in Hfalling, Habove.
    set (l10 := l9 <| Level._enemies := enemies' |>).
    assert (Hboss10 : Level._boss l10 = Some boss) by exact Hboss9.
    assert (Hat10 : Level._bossAttacks l10 = Level._bossAttacks l) by exact Hat9.
    clearbody l10.
    destruct (updateBoss_stomp dt phb l10 p9 boss Hboss10 Halive Htouch Hfalling Habove)
      as (Hp11 & _ & Hat11).
    specialize (Hat11 Hnone).
    destruct (Level.updateBoss dt phb (l10, p9)) as [l11 p11].
    cbn [fst snd] in Hp11, Hat11. subst p11.
    rewrite updateBossAttacks_quiet.
    - unfold stance. cbn. rewrite Hx9. reflexivity.
    - rewrite Hat11, Hat10. exact Hattacks. }
  destruct (stance_fields _ _ _ _ Hstance) as (_ & Hvy & Hgr).
  split; assumption.
Qed.
End Stomp.

(** C6, as amended.  When the player comes down on the living boss (after
    the boss's own move of this tick the hitbox overlaps the boss, the player
    is falling and was above the top of the boss, with a tolerance of 8), the
    boss block of [Level.update] sets the player's vertical velocity to -5,
    off the ground, and stores the boss with [hp] and [alive] as they were;
    the position of the boss is changed by its own patrol step, by
    [dir * 0.7 * dt * 60] in x, and by nothing else.  If nothing else touches
    the player in that tick (no spring, no living enemy, no boss attack, and
    the boss launches none), the whole [Level.update] ends with the player at
    -5, off the ground.  In every tick, whatever the player does, the boss
    ends where its patrol step put it, and its [hp] and [alive] are as they
    were unless the box of a bullet in flight overlaps the boss. *)
Theorem boss_stomp_bounces_bullets_only_harm `{JSMath} (dt nowSeconds : Q)
    (player : Player.t) (l : Level.t) (boss : Boss.t) :
  Level._boss l = Some boss ->
  Boss.alive boss = true ->
  aabbIntersects (Player.getHitbox player)
    (Boss.getAabb (fst (Boss.update dt (Player.x player) boss))) = true ->
  0 < Player.vy player ->
  Rect.y (Player.getHitbox player) + Rect.h (Player.getHitbox player) - Player.vy player
  <= Rect.y (Boss.getAabb (fst (Boss.update dt (Player.x player) boss))) + 8 ->
  (snd (Level.updateBoss dt (Player.getHitbox player) (l, player))
   = player <| Player.vy := -5 |> <| Player.grounded := false |> /\
   exists boss1,
     Level._boss (fst (Level.updateBoss dt (Player.getHitbox player) (l, player)))
     = Some boss1 /\
     Boss.hp boss1 = Boss.hp boss /\
     Boss.alive boss1 = true /\
     Boss.x boss1 = Boss.x boss + Boss.dir boss * 0.7 * (dt * 60) /\
     Boss.y boss1 = Boss.y boss) /\
  (forallb (fun s => negb (aabbIntersects (Player.getHitbox player) (springBox s)))
     (Level._springs l) = true ->
   forallb (fun e => negb (Hostile.alive e &&
                           aabbIntersects (Player.getHitbox player) (Hostile.getAabb e)))
     (map (Hostile.update dt) (Level._enemies l)) = true ->
   forallb (fun a => negb (aabbIntersects (Player.getHitbox player) (attackBox dt a)))
     (Level._bossAttacks l) = true ->
   snd (Boss.update dt (Player.x player) boss) = None ->
   Player.vy (snd (Level.update dt player nowSeconds l)) = -5 /\
   Player.grounded (snd (Level.update dt player nowSeconds l)) = false) /\
  (forall dt' nowSeconds' player' l' boss0,
     Level._boss l' = Some boss0 ->
     exists boss',
       Level._boss (fst (Level.update dt' player' nowSeconds' l')) = Some boss' /\
       Boss.x boss'
       = (if Boss.alive boss0 then Boss.x boss0 + Boss.dir boss0 * 0.7 * (dt' * 60)
          else Boss.x boss0) /\
       Boss.y boss' = Boss.y boss0 /\
       (Boss.hp boss' <> Boss.hp boss0 \/ Boss.alive boss' <> Boss.alive boss0 ->
        Exists (fun b => aabbIntersects (bulletBox dt' b) (Boss.getAabb boss') = true)
          (Level._bullets l'))).
Proof.
  intros Hboss Halive Htouch Hfalling Habove. split; [| split].
  - destruct (updateBoss_stomp dt (Player.getHitbox player) l player boss
                Hboss Halive Htouch Hfalling Habove) as (Hplayer & Hstored & _).
    split; [exact Hplayer |].
    exists (fst (Boss.update dt (Player.x player) boss)).
    destruct (Boss_update_patrol dt (Player.x player) boss)
      as (Hhp & Hlife & Hx & Hy & _).
    rewrite Halive in Hx, Hlife. repeat split; assumption.
  - intros Hsprings Henemies Hattacks Hnone.
    apply (update_stomp_bounce dt nowSeconds player l boss); assumption.
  - intros dt' nowSeconds' player' l' boss0 Hboss0.
    destruct (update_boss_bullets_only dt' nowSeconds' player' l' boss0 Hboss0)
      as (boss' & Hboss' & Hplace & Hharm).
    exists boss'. split; [exact Hboss' |].
    specialize (Hplace 0).
    destruct (Boss_update_patrol dt' 0 boss0) as (_ & _ & Hx & Hy & _).
    unfold Boss_place in Hplace. injection Hplace as Hx' Hy' _ _.
    split; [congruence |]. split; [congruence | exact Hharm].
Qed.

Lemma boss_stomp_bounces_bullets_only_harm_witness :
  Player.vy (snd (Level.update (H := approxMath) (1 / 60) hero_over_boss 1 (createLevel 2)))
  = -5 /\
  Player.grounded
    (snd (Level.update (H := approxMath) (1 / 60) hero_over_boss 1 (createLevel 2)))
  = false.
Proof.
  assert (Hboss : Level._boss (createLevel 2) = Some boss_2) by (vm_compute; reflexivity).
  assert (Htouch : aabbIntersects (Player.getHitbox hero_over_boss)
                     (Boss.getAabb (fst (Boss.update (1 / 60) (Player.x hero_over_boss)
                                           boss_2))) = true)
    by (vm_compute; reflexivity).
  assert (Hfalling : 0 < Player.vy hero_over_boss) by qcompute.
  assert (Habove : Rect.y (Player.getHitbox hero_over_boss)
                   + Rect.h (Player.getHitbox hero_over_boss) - Player.vy hero_over_boss
                   <= Rect.y (Boss.getAabb (fst (Boss.update (1 / 60)
                                                   (Player.x hero_over_boss) boss_2))) + 8)
    by qcompute.
  assert (Hsprings : forallb (fun s => negb (aabbIntersects (Player.getHitbox hero_over_boss)
                                              (springBox s)))
                       (Level._springs (createLevel 2)) = true)
    by (vm_compute; reflexivity).
  assert (Henemies : forallb (fun e => negb (Hostile.alive e &&
                                             aabbIntersects (Player.getHitbox hero_over_boss)
                                               (Hostile.getAabb e)))
                       (map (Hostile.update (H := approxMath) (1 / 60))
                          (Level._enemies (createLevel 2))) = true)
    by (vm_compute; reflexivity).
  assert (Hattacks : forallb (fun a => negb (aabbIntersects (Player.getHitbox hero_over_boss)
                                              (attackBox (1 / 60) a)))
                       (Level._bossAttacks (createLevel 2)) = true)
    by (vm_compute; reflexivity).
  assert (Hnone : snd (Boss.update (1 / 60) (Player.x hero_over_boss) boss_2) = None)
    by (vm_compute; reflexivity).
  exact (proj1 (proj2
           (boss_stomp_bounces_bullets_only_harm (H := approxMath) (1 / 60) 1
              hero_over_boss (createLevel 2) boss_2
              Hboss eq_refl Htouch Hfalling Habove))
           Hsprings Henemies Hattacks Hnone).
Defined.

(** C6 as stated fails for the position: in the tick of the stomp the boss
    of level 2 goes from x = 6980 to x = 6979.3, its patrol step, while its
    health stays at 18 and the player leaves at -5. *)
Lemma stomp_tick_moves_boss :
  Level._boss (createLevel 2) = Some boss_2 /\
  Boss.x boss_2 == 6980 /\
  match Level._boss (fst (Level.update (H := approxMath) (1 / 60) hero_over_boss 1
                            (createLevel 2))) with
  | Some boss' =>
      Boss.x boss' == 6979.3 /\ ~ Boss.x boss' == Boss.x boss_2 /\
      Boss.hp boss' == 18 /\ Boss.alive boss' = true
  | None => False
  end /\
  Player.vy (snd (Level.update (H := approxMath) (1 / 60) hero_over_boss 1 (createLevel 2)))
  == -5.
Proof. vm_compute. repeat split; intros Heq; discriminate Heq. Qed.

(** ** core/math *)

(** [clamp] with ordered bounds returns a value within them, returns its
    argument when that is within them already, and is idempotent. *)
Theorem clamp_within_bounds (v lo hi : Q) :
  lo <= hi ->
  (lo <= clamp v lo hi /\ clamp v lo hi <= hi) /\
  (lo <= v -> v <= hi -> clamp v lo hi == v) /\
  clamp (clamp v lo hi) lo hi == clamp v lo hi.
Proof.
  intros Hbounds. unfold clamp.
  assert (Hin : lo <= Qmax lo (Qmin hi v) /\ Qmax lo (Qmin hi v) <= hi).
  { split; [apply Q.le_max_l |].
    apply Q.max_lub; [exact Hbounds | apply Q.le_min_l]. }
  split; [exact Hin |]. split.
  - intros Hlo Hhi. rewrite (Q.min_r _ _ Hhi). apply Q.max_r, Hlo.
  - destruct Hin as [Hlo Hhi]. rewrite (Q.min_r _ _ Hhi). apply Q.max_r, Hlo.
Qed.

Lemma clamp_within_bounds_witness :
  (20 <= clamp 7 20 6180 /\ clamp 7 20 6180 <= 6180) /\
  (20 <= 7 -> 7 <= 6180 -> clamp 7 20 6180 == 7) /\
  clamp (clamp 7 20 6180) 20 6180 == clamp 7 20 6180.
Proof. apply (clamp_within_bounds 7 20 6180). qcompute. Defined.

(** With the bounds the wrong way round, [clamp] returns the lower bound
    whatever the value. *)
Theorem clamp_inverted_bounds (v lo hi : Q) :
  hi <= lo -> clamp v lo hi == lo.
Proof.
  intros Hinv. unfold clamp. apply Q.max_l.
  apply Qle_trans with hi; [apply Q.le_min_l | exact Hinv].
Qed.

Lemma clamp_inverted_bounds_witness : clamp 500 20 (-20) == 20.
Proof. apply (clamp_inverted_bounds 500 20 (-20)). qcompute. Defined.

(** The overlap test does not depend on the order of its arguments. *)
Theorem aabbIntersects_symmetric (a b : Rect.t) :
  aabbIntersects a b = aabbIntersects b a.
Proof.
  unfold aabbIntersects.
  destruct (Rect.x a <? _), (Rect.x b <? _), (Rect.y a <? _), (Rect.y b <? _);
    reflexivity.
Qed.

(** The overlap test is strict: rectangles that only share an edge, such as
    a hitbox standing on the top of a platform, do not intersect. *)
Theorem aabbIntersects_touching (a b : Rect.t) :
  Rect.x a + Rect.w a <= Rect.x b \/ Rect.y a + Rect.h a <= Rect.y b ->
  aabbIntersects a b = false /\ aabbIntersects b a = false.
Proof.
  intros Hedge.
  assert (Hab : aabbIntersects a b = false).
  { unfold aabbIntersects.
    destruct Hedge as [Hedge | Hedge]; rewrite (proj2 (Qltb_false _ _) Hedge);
      rewrite ?andb_false_r; reflexivity. }
  split; [exact Hab |]. rewrite aabbIntersects_symmetric. exact Hab.
Qed.

Lemma aabbIntersects_touching_witness :
  aabbIntersects (Player.getHitbox (hero_at 500 300)) ground_0 = false /\
  aabbIntersects ground_0 (Player.getHitbox (hero_at 500 300)) = false.
Proof.
  apply (aabbIntersects_touching (Player.getHitbox (hero_at 500 300)) ground_0).
  right. qcompute.
Defined.

(** ** game/player: damage *)

(** Whatever the state of the player, one call of [takeHit] costs at most
    one life, never adds a life, never changes the score, and leaves the
    rings either as they were or at zero. *)
Theorem takeHit_costs_at_most_one_life (knockDir : Q) (p : Player.t) :
  (Player.lives p - 1 <= Player.lives (Player.takeHit knockDir p) <= Player.lives p)%Z /\
  Player.score (Player.takeHit knockDir p) = Player.score p /\
  (Player.rings (Player.takeHit knockDir p) = Player.rings p \/
   Player.rings (Player.takeHit knockDir p) = 0%Z).
Proof.
  destruct p. unfold Player.takeHit, Player.respawn.
  cbv beta iota zeta delta -[Qltb Z.leb Z.ltb Z.add Z.sub Z.le andb].
  repeat match goal with
         | |- context [if ?c then _ else _] => destruct c
         end.
  all: cbn; repeat split; first [lia | left; reflexivity | right; reflexivity].
Qed.

(** A life is lost only by a player that is not invulnerable, whose shield
    does not absorb, with no rings and small; every other hit leaves the
    lives as they are.  (The converse of the life-loss rule.) *)
Theorem takeHit_life_lost_only_when_bare (knockDir : Q) (p : Player.t) :
  Player.lives (Player.takeHit knockDir p) <> Player.lives p ->
  Player.invuln p <= 0 /\
  Player.shieldActive p && Player.hasShieldPower p = false /\
  (Player.rings p <= 0)%Z /\
  Player.isBig p = false /\
  Player.x (Player.takeHit knockDir p) = Player.spawnX p /\
  Player.y (Player.takeHit knockDir p) = Player.spawnY p.
Proof.
  destruct p. unfold Player.takeHit, Player.respawn.
  cbv beta iota zeta delta -[Qltb Z.leb Z.ltb Z.add Z.sub Z.le andb Qle].
  destruct (Qltb_cases 0 invuln) as [[Hinv ->] | [Hinv ->]].
  { intros Hlost. contradiction Hlost. reflexivity. }
  destruct (shieldActive && hasShieldPower).
  { destruct (_ <=? _)%Z; intros Hlost; contradiction Hlost; reflexivity. }
  destruct (0 <? rings)%Z eqn:Hrings.
  { intros Hlost. contradiction Hlost. reflexivity. }
  destruct isBig.
  { intros Hlost. contradiction Hlost. reflexivity. }
  intros _. apply Z.ltb_ge in Hrings. repeat split; assumption.
Qed.

Lemma takeHit_life_lost_only_when_bare_witness :
  Player.invuln hero_bare <= 0 /\
  Player.shieldActive hero_bare && Player.hasShieldPower hero_bare = false /\
  (Player.rings hero_bare <= 0)%Z /\
  Player.isBig hero_bare = false /\
  Player.x (Player.takeHit 1 hero_bare) = Player.spawnX hero_bare /\
  Player.y (Player.takeHit 1 hero_bare) = Player.spawnY hero_bare.
Proof.
  apply (takeHit_life_lost_only_when_bare 1 hero_bare).
  vm_compute. discriminate.
Defined.

(** ** game/enemy, game/boss: damage *)

(** The arithmetic of a hit: [hp = Math.max(0, hp - amount)], dead when the
    result is [<= 0]. *)
Lemma hit_rule (hp amount : Q) :
  0 <= amount -> 0 <= hp ->
  0 <= Qmax 0 (hp - amount) /\ Qmax 0 (hp - amount) <= hp /\
  ((Qmax 0 (hp - amount) <=? 0) = false <-> amount < hp).
Proof.
  intros Hamount Hhp.
  assert (Hmax : 0 <= Qmax 0 (hp - amount)) by apply Q.le_max_l.
  assert (Hge : hp - amount <= Qmax 0 (hp - amount)) by apply Q.le_max_r.
  split; [exact Hmax |]. split; [apply Q.max_lub; lra |].
  rewrite Qleb_false.
  destruct (Q.max_spec 0 (hp - amount)) as [[Hcmp Heq] | [Hcmp Heq]];
    rewrite Heq; split; intros; lra.
Qed.

(** [Boss.takeHit]: the health never goes below zero and never goes up; the
    boss is alive afterwards exactly when it was alive and the damage was
    less than its health; a dead boss is left as it is. *)
Theorem Boss_takeHit_health (amount : Q) (b : Boss.t) :
  0 <= amount ->
  0 <= Boss.hp b ->
  (0 <= Boss.hp (Boss.takeHit amount b) /\ Boss.hp (Boss.takeHit amount b) <= Boss.hp b) /\
  (Boss.alive (Boss.takeHit amount b) = true <->
   Boss.alive b = true /\ amount < Boss.hp b) /\
  (Boss.alive b = false -> Boss.takeHit amount b = b) /\
  (Boss.alive b = true -> Boss.hp (Boss.takeHit amount b) == Qmax 0 (Boss.hp b - amount)).
Proof.
  intros Hamount Hhp.
  destruct (hit_rule (Boss.hp b) amount Hamount Hhp) as (Hlo & Hhi & Hlive).
  unfold Boss.takeHit.
  destruct (Boss.alive b) eqn:Halive; cbn [negb].
  - cbn [Boss.hp Boss.alive].
    split; [split; assumption |]. split; [| split; [discriminate | reflexivity]].
    destruct (Qmax 0 (Boss.hp b - amount) <=? 0).
    + split; [discriminate |]. intros [_ Hless].
      apply Hlive in Hless. discriminate Hless.
    + split; [| reflexivity]. intros _. split; [reflexivity |].
      apply Hlive. reflexivity.
  - split; [split; [exact Hhp | lra] |].
    split; [| split; [reflexivity | discriminate]].
    rewrite Halive. split; [discriminate | intros [Hcontra _]; discriminate Hcontra].
Qed.

Lemma Boss_takeHit_health_witness :
  Boss.alive (Boss.takeHit 1 boss_2) = true /\ Boss.hp (Boss.takeHit 1 boss_2) == 17.
Proof.
  assert (Hamount : 0 <= 1) by qcompute.
  assert (Hhp : 0 <= Boss.hp boss_2) by qcompute.
  destruct (Boss_takeHit_health 1 boss_2 Hamount Hhp) as (_ & Hlife & _ & Hleft).
  split.
  - apply (proj2 Hlife). split; [reflexivity | qcompute].
  - rewrite (Hleft eq_refl). qcompute.
Defined.

(** [Enemy.takeHit] and [BirdEnemy.takeHit]: the same rule for both kinds of
    enemy, and a hit never turns one kind into the other. *)
Theorem Hostile_takeHit_health (amount : Q) (e : Hostile.t) :
  0 <= amount ->
  0 <= Hostile_hp e ->
  (0 <= Hostile_hp (Hostile.takeHit amount e) /\
   Hostile_hp (Hostile.takeHit amount e) <= Hostile_hp e) /\
  (Hostile.alive (Hostile.takeHit amount e) = true <->
   Hostile.alive e = true /\ amount < Hostile_hp e) /\
  (Hostile.alive e = false -> Hostile.takeHit amount e = e) /\
  Hostile.isFlying (Hostile.takeHit amount e) = Hostile.isFlying e.
Proof.
  intros Hamount Hhp.
  destruct e as [e | e]; cbn [Hostile.takeHit Hostile_hp Hostile.alive Hostile.isFlying] in *.
  - destruct (hit_rule (Enemy.hp e) amount Hamount Hhp) as (Hlo & Hhi & Hlive).
    unfold Enemy.takeHit.
    destruct (Enemy.alive e) eqn:Halive; cbn [negb].
    + cbn [Enemy.hp Enemy.alive].
      split; [split; assumption |]. split; [| split; [discriminate | reflexivity]].
      destruct (Qmax 0 (Enemy.hp e - amount) <=? 0).
      * split; [discriminate |]. intros [_ Hless].
        apply Hlive in Hless. discriminate Hless.
      * split; [| reflexivity]. intros _. split; [reflexivity |].
        apply Hlive. reflexivity.
    + split; [split; [exact Hhp | lra] |].
      split; [| split; reflexivity].
      rewrite Halive. split; [discriminate | intros [Hcontra _]; discriminate Hcontra].
  - destruct (hit_rule (BirdEnemy.hp e) amount Hamount Hhp) as (Hlo & Hhi & Hlive).
    unfold BirdEnemy.takeHit.
    destruct (BirdEnemy.alive e) eqn:Halive; cbn [negb].
    + cbn [BirdEnemy.hp BirdEnemy.alive].
      split; [split; assumption |]. split; [| split; [discriminate | reflexivity]].
      destruct (Qmax 0 (BirdEnemy.hp e - amount) <=? 0).
      * split; [discriminate |]. intros [_ Hless].
        apply Hlive in Hless. discriminate Hless.
      * split; [| reflexivity]. intros _. split; [reflexivity |].
        apply Hlive. reflexivity.
    + split; [split; [exact Hhp | lra] |].
      split; [| split; reflexivity].
      rewrite Halive. split; [discriminate | intros [Hcontra _]; discriminate Hcontra].
Qed.

Lemma Hostile_takeHit_health_witness :
  Hostile.alive (Hostile.takeHit 1 walker) = true /\
  Hostile.alive (Hostile.takeHit 2 walker) = false.
Proof.
  pose (e := walker).
  change (Hostile.alive (Hostile.takeHit 1 e) = true /\
          Hostile.alive (Hostile.takeHit 2 e) = false).
  assert (Hhp : 0 <= Hostile_hp e) by qcompute.
  assert (H1 : 0 <= 1) by qcompute.
  assert (H2 : 0 <= 2) by qcompute.
  split.
  - apply (proj1 (proj2 (Hostile_takeHit_health 1 e H1 Hhp))).
    split; [reflexivity | qcompute].
  - destruct (Hostile.alive (Hostile.takeHit 2 e)) eqn:Hlife; [| reflexivity].
    apply (proj1 (proj2 (Hostile_takeHit_health 2 e H2 Hhp))) in Hlife.
    destruct Hlife as [_ Hless]. vm_compute in Hless. discriminate Hless.
Defined.

(** ** game/player: score *)

(** [addComboScore] with a base that is not negative never lowers the score:
    it adds at least the base, exactly the base when no combo is running, and
    it (re)starts the combo timer at 1.5 with a combo count of at least 1. *)
Theorem addComboScore_adds_at_least_base (base : Z) (p : Player.t) :
  (0 <= base)%Z ->
  (0 <= Player.comboCount p)%Z ->
  (Player.score p + base <= Player.score (Player.addComboScore base p))%Z /\
  (Player.comboTimer p <= 0 ->
   Player.score (Player.addComboScore base p) = (Player.score p + base)%Z) /\
  (1 <= Player.comboCount (Player.addComboScore base p))%Z /\
  Player.comboTimer (Player.addComboScore base p) = 1.5 /\
  Player.lives (Player.addComboScore base p) = Player.lives p /\
  Player.rings (Player.addComboScore base p) = Player.rings p.
Proof.
  intros Hbase Hcombo. destruct p. unfold Player.addComboScore.
  cbv beta iota zeta delta -[Qltb Z.add Z.le Qle Math_floor Qmult Qplus Qminus inject_Z].
  cbn [Player.comboCount Player.comboTimer] in *.
  set (nowCombo := if 0 <? comboTimer then (comboCount + 1)%Z else 1%Z).
  assert (Hnow : (1 <= nowCombo)%Z) by (subst nowCombo; destruct (0 <? comboTimer); lia).
  assert (Hmult : inject_Z base <= inject_Z base * (1 + (inject_Z nowCombo - 1) * 0.5)).
  { assert (Hn : 1 <= inject_Z nowCombo)
      by (change 1 with (inject_Z 1); rewrite <- Zle_Qle; exact Hnow).
    assert (Hb : 0 <= inject_Z base)
      by (change 0 with (inject_Z 0); rewrite <- Zle_Qle; exact Hbase).
    nra. }
  apply Qfloor_resp_le in Hmult. rewrite Qfloor_Z in Hmult.
  unfold Math_floor.
  split; [lia |]. split; [| repeat split; exact Hnow].
  intros Hidle. subst nowCombo. rewrite (proj2 (Qltb_false _ _) Hidle).
  f_equal.
  assert (Heq : inject_Z base * (1 + (inject_Z 1 - 1) * 0.5) == inject_Z base) by ring.
  rewrite Heq. apply Qfloor_Z.
Qed.

Lemma addComboScore_adds_at_least_base_witness :
  (Player.score hero + 100 <= Player.score (Player.addComboScore 100 hero))%Z /\
  Player.score (Player.addComboScore 100 hero) = (Player.score hero + 100)%Z.
Proof.
  assert (Hbase : (0 <= 100)%Z) by lia.
  assert (Hcombo : (0 <= Player.comboCount hero)%Z) by (vm_compute; discriminate).
  destruct (addComboScore_adds_at_least_base 100 hero Hbase Hcombo) as (Hle & Hidle & _).
  split; [exact Hle |]. apply Hidle. qcompute.
Defined.

Lemma rem_3_cases (n : Z) :
  (Z.rem n 3 = -2 \/ Z.rem n 3 = -1 \/ Z.rem n 3 = 0 \/ Z.rem n 3 = 1 \/ Z.rem n 3 = 2)%Z.
Proof.
  pose proof (Z.rem_bound_abs n 3 ltac:(lia)) as Hbound. lia.
Qed.

(** ** game/level: the mission tasks *)

(** For every index, [getTasksForLevel] returns between two and four tasks;
    the first is the mandatory coin task; and no task of type [bossNoShield],
    [groundEnemies] or [timeLimit] is ever returned, because the pool is cut
    after at most four entries and those three are pushed from the fifth
    place on. *)
Theorem getTasksForLevel_offers_four_types (levelIndex : Z) :
  (2 <= length (getTasksForLevel levelIndex) <= 4)%nat /\
  (exists t rest,
     getTasksForLevel levelIndex = t :: rest /\
     Task.type t = Task.coins /\ Task.mandatory t = true) /\
  Forall (fun t => offeredType (Task.type t)) (getTasksForLevel levelIndex).
Proof.
  unfold getTasksForLevel. cbv zeta.
  set (L := ("L" ++ string_of_Z levelIndex)%string).
  set (m := Z.max 2 (2 + Z.rem levelIndex 3)).
  assert (Hm : m = 2%Z \/ m = 3%Z \/ m = 4%Z)
    by (subst m; destruct (rem_3_cases levelIndex) as [Hr | [Hr | [Hr | [Hr | Hr]]]];
        rewrite Hr; cbn; tauto).
  clearbody m.
  destruct (Z.leb_spec 2 levelIndex) as [Hge | Hlt].
  - set (rest := (if (4 <=? levelIndex)%Z then _ else _) ++ _). cbn [app]. clearbody rest.
    match goal with
    | |- context [Z.to_nat (Z.min (Z.of_nat (length ?pool)) m)] =>
        assert (Hcount : Z.to_nat (Z.min (Z.of_nat (length pool)) m) = Z.to_nat m)
          by (cbn [length]; f_equal; lia)
    end.
    rewrite Hcount.
    destruct Hm as [-> | [-> | ->]].
    all: change (Z.to_nat 2) with 2%nat; change (Z.to_nat 3) with 3%nat;
      change (Z.to_nat 4) with 4%nat; cbn [firstn length].
    all: split; [split; apply Nat.leb_le; reflexivity |];
      split; [eexists; eexists; repeat split |].
    all: repeat (apply List.Forall_cons; [unfold offeredType; cbn [Task.type]; tauto |]);
      apply List.Forall_nil.
  - rewrite (proj2 (Z.leb_gt 4 levelIndex)), (proj2 (Z.leb_gt 3 levelIndex)),
      (proj2 (Z.leb_gt 5 levelIndex)) by lia.
    cbn [app length].
    destruct Hm as [-> | [-> | ->]].
    all: cbn [firstn length Z.of_nat Z.min Z.to_nat Pos.of_succ_nat Pos.succ Z.compare
                Pos.compare Pos.compare_cont Pos.to_nat Pos.iter_op Init.Nat.add].
    all: split; [split; apply Nat.leb_le; reflexivity |];
      split; [eexists; eexists; repeat split |].
    all: repeat (apply List.Forall_cons; [unfold offeredType; cbn [Task.type]; tauto |]);
      apply List.Forall_nil.
Qed.

(** ** game/level: the broadphase *)

(** [getSolidsNear] never drops a platform that the hitbox overlaps, nor one
    whose top the hitbox could cross: every solid of the level whose x-extent
    meets that of the hitbox is among the candidates (the margin of 96 only
    adds more), and so is the 8-high top of every box that meets it. *)
Theorem getSolidsNear_keeps_overlapping (hb : Rect.t) (l : Level.t) (s : Rect.t) :
  In s (Level._solids l) ->
  Rect.x s < Rect.x hb + Rect.w hb ->
  Rect.x hb < Rect.x s + Rect.w s ->
  In s (Level.getSolidsNear hb l) /\
  (forall b, In b (Level._boxes l) ->
     Box.x b < Rect.x hb + Rect.w hb -> Rect.x hb < Box.x b + Box.w b ->
     In (Rect.mk (Box.x b) (Box.y b) (Box.w b) 8) (Level.getSolidsNear hb l)).
Proof.
  intros Hin Hleft Hright. unfold Level.getSolidsNear. cbv zeta. split.
  - apply in_or_app. left. apply list_elem_of_In, list_elem_of_filter.
    split; [| apply list_elem_of_In; exact Hin].
    apply Is_true_true, andb_true_iff. split; apply Qltb_true; lra.
  - intros b Hb Hbl Hbr. apply in_or_app. right.
    apply (in_map (fun b => Rect.mk (Box.x b) (Box.y b) (Box.w b) 8)).
    apply list_elem_of_In, list_elem_of_filter.
    split; [| apply list_elem_of_In; exact Hb].
    apply Is_true_true, andb_true_iff. split; apply Qltb_true; lra.
Qed.

Lemma getSolidsNear_keeps_overlapping_witness :
  In ground_0 (Level.getSolidsNear (Player.getHitbox (hero_at 500 301)) (createLevel 0)).
Proof.
  assert (Hin : In ground_0 (Level._solids (createLevel 0))) by in_list.
  assert (Hleft : Rect.x ground_0 < Rect.x (Player.getHitbox (hero_at 500 301))
                                    + Rect.w (Player.getHitbox (hero_at 500 301)))
    by qcompute.
  assert (Hright : Rect.x (Player.getHitbox (hero_at 500 301))
                   < Rect.x ground_0 + Rect.w ground_0) by qcompute.
  exact (proj1 (getSolidsNear_keeps_overlapping (Player.getHitbox (hero_at 500 301))
                  (createLevel 0) ground_0 Hin Hleft Hright)).
Defined.

(** ** game/level: what a tick does to the player's counters *)

Lemma takeHit_counters (knockDir : Q) (p : Player.t) :
  (0 <= Player.comboCount p)%Z ->
  Player.score (Player.takeHit knockDir p) = Player.score p /\
  (Player.lives (Player.takeHit knockDir p) <= Player.lives p)%Z /\
  (0 <= Player.comboCount (Player.takeHit knockDir p))%Z.
Proof.
  intros Hcombo. destruct p. unfold Player.takeHit, Player.respawn.
  cbv beta iota zeta delta -[Qltb Z.leb Z.ltb Z.add Z.sub Z.le andb].
  cbn [Player.comboCount] in Hcombo.
  repeat match goal with
         | |- context [if ?c then _ else _] => destruct c
         end.
  all: cbn; repeat split; lia.
Qed.

Lemma touch_counters (p q : Player.t) :
  touch p q ->
  (0 <= Player.comboCount p)%Z ->
  (Player.score p <= Player.score q)%Z /\
  (Player.lives q <= Player.lives p)%Z /\
  (0 <= Player.comboCount q)%Z.
Proof.
  induction 1 as [p | p q r _ IHpq _ IHqr | k p | base p Hbase | n p Hn | v p | v p | p
                  | p | p | p | p | p | p | p]; intros Hp.
  - repeat split; (lia || exact Hp).
  - destruct (IHpq Hp) as (Hs1 & Hl1 & Hc1). destruct (IHqr Hc1) as (Hs2 & Hl2 & Hc2).
    repeat split; lia.
  - destruct (takeHit_counters k p Hp) as (Hs & Hl & Hc). repeat split; lia.
  - destruct p. unfold Player.addComboScore.
    cbn [Player.comboCount] in Hp.
    cbv beta iota zeta delta -[Qltb Z.add Z.le Qle Math_floor Qmult Qplus Qminus inject_Z].
    set (nowCombo := if 0 <? comboTimer then (comboCount + 1)%Z else 1%Z).
    assert (Hnow : (1 <= nowCombo)%Z)
      by (subst nowCombo; destruct (0 <? comboTimer); lia).
    assert (Hmult : inject_Z base <= inject_Z base * (1 + (inject_Z nowCombo - 1) * 0.5)).
    { assert (Hn1 : 1 <= inject_Z nowCombo)
        by (change 1 with (inject_Z 1); rewrite <- Zle_Qle; exact Hnow).
      assert (Hb : 0 <= inject_Z base)
        by (change 0 with (inject_Z 0); rewrite <- Zle_Qle; exact Hbase).
      nra. }
    apply Qfloor_resp_le in Hmult. rewrite Qfloor_Z in Hmult. unfold Math_floor.
    repeat split; lia.
  - repeat split; (cbn; lia) || exact Hp.
  - repeat split; (cbn; lia) || exact Hp.
  - repeat split; (cbn; lia) || exact Hp.
  - repeat split; (cbn; lia) || exact Hp.
  - repeat split; (cbn; lia) || exact Hp.
  - repeat split; (cbn; lia) || exact Hp.
  - repeat split; (cbn; lia) || exact Hp.
  - repeat split; (cbn; lia) || exact Hp.
  - repeat split; (cbn; lia) || exact Hp.
  - repeat split; (cbn; lia) || exact Hp.
  - repeat split; (cbn; lia) || exact Hp.
Qed.

(** Through a whole tick of [Level.update] the score never goes down, not
    even when a life is lost, and no life is ever gained. *)
Theorem Level_update_keeps_score `{JSMath} (dt nowSeconds : Q) (player : Player.t)
    (l : Level.t) :
  (0 <= Player.comboCount player)%Z ->
  (Player.score player <= Player.score (snd (Level.update dt player nowSeconds l)))%Z /\
  (Player.lives (snd (Level.update dt player nowSeconds l)) <= Player.lives player)%Z.
Proof.
  intros Hcombo.
  destruct (touch_counters _ _ (update_touch dt nowSeconds player l) Hcombo)
    as (Hs & Hl & _).
  split; assumption.
Qed.

Lemma Level_update_keeps_score_witness :
  (Player.score hero_over_boss
   <= Player.score (snd (Level.update (H := approxMath) (1 / 60) hero_over_boss 1
                           (createLevel 2))))%Z /\
  (Player.lives (snd (Level.update (H := approxMath) (1 / 60) hero_over_boss 1
                        (createLevel 2)))
   <= Player.lives hero_over_boss)%Z.
Proof.
  assert (Hcombo : (0 <= Player.comboCount hero_over_boss)%Z) by (vm_compute; discriminate).
  exact (Level_update_keeps_score (H := approxMath) (1 / 60) 1 hero_over_boss
           (createLevel 2) Hcombo).
Defined.

(** ** game/level: bullets *)

Lemma filterM_length {A S : Type} (keep : S -> A -> S * bool) (l : list A) (s : S) :
  (length (snd (filterM keep s l)) <= length l)%nat.
Proof.
  revert s. induction l as [| a l IH]; intros s; cbn; [lia |].
  destruct (keep s a) as [s1 k]. specialize (IH s1).
  destruct (filterM keep s1 l) as [s2 kept]. cbn in *. destruct k; cbn; lia.
Qed.

(** [Level.update] never adds a bullet: the bullets after a tick are at most
    as many as before (only [spawnBullet], called by the engine, adds one). *)
Theorem Level_update_adds_no_bullet `{JSMath} (dt nowSeconds : Q) (player : Player.t)
    (l : Level.t) :
  (length (Level._bullets (fst (Level.update dt player nowSeconds l)))
   <= length (Level._bullets l))%nat /\
  (forall x y dir,
     length (Level._bullets (Level.spawnBullet x y dir l)) = S (length (Level._bullets l))).
Proof.
  split.
  - unfold Level.update. cbv zeta.
    rewrite (bullets_core (fst (Level.evaluateTasks _))), evaluateTasks_core,
      bossDefeat_core, <- bullets_core.
    match goal with
    | |- context [Level.updateBullets dt ?st] =>
        assert (Hbefore : Level._bullets (fst st) = Level._bullets l);
        [| destruct st as [l11 p11] ]
    end.
    { rewrite (bullets_core (fst (Level.updateBossAttacks _ _ _))), updateBossAttacks_core,
        <- bullets_core.
      rewrite (proj1 (proj2 (updateBoss_frame _ _ _))).
      rewrite (bullets_core (fst (Level.updateEnemies _ _ _))), updateEnemies_core,
        updateFruits_core, updatePowerPickups_core, updateMagnetPickups_core,
        collectCoins_core, updateMagnetField_core, updateCoins_core, <- bullets_core.
      rewrite (proj2 (updateBoxes_frame _ _ _)).
      rewrite (bullets_core (fst (Level.updateSprings _ _ _))), updateSprings_core,
        updateProgressClock_core.
      reflexivity. }
    cbn [fst] in Hbefore. rewrite <- Hbefore.
    unfold Level.updateBullets. cbv zeta.
    match goal with
    | |- context [filterM ?keep ?st0 ?moved] =>
        pose proof (filterM_length keep moved st0) as Hlen;
        destruct (filterM keep st0 moved) as [[l12 p12] kept]
    end.
    cbn [fst snd] in *. rewrite length_map in Hlen. exact Hlen.
  - intros x y dir. unfold Level.spawnBullet. cbn. rewrite length_app. cbn. lia.
Qed.

(** ** game/player: speed after an update *)

Lemma steer_vx (input : Input.t) (p : Player.t) :
  Qabs (Player.vx (Player_steer input p)) <= PHYS.topSpeed.
Proof.
  unfold Player_steer. cbv zeta.
  repeat match goal with
         | |- context [if ?c then _ else _] => destruct c; cbn
         end.
  all: qcompute.
Qed.

Lemma integrate_vx (dt : Q) (p : Player.t) :
  Player.vx (Player_integrate dt p) = Player.vx p.
Proof.
  unfold Player_integrate. cbv zeta.
  repeat match goal with
         | |- context [if ?c then _ else _] => destruct c; cbn
         end; reflexivity.
Qed.

Lemma landOn_fold_vx (nowSeconds : Q) (hb : Rect.t) (solids : list Rect.t) (p : Player.t) :
  Player.vx (fold_left (landOn nowSeconds hb) solids p) = Player.vx p.
Proof.
  revert p. induction solids as [| s solids IH]; intros p; [reflexivity |].
  rewrite fold_left_cons, IH. unfold landOn.
  destruct (0 <=? _); [destruct (onTopCross _ _ _) |]; reflexivity.
Qed.

Lemma pushOut_fold_vx (hb2 : Rect.t) (solids : list Rect.t) (p : Player.t) :
  Qabs (Player.vx p) <= PHYS.topSpeed ->
  Qabs (Player.vx (fold_left (pushOut hb2) solids p)) <= PHYS.topSpeed.
Proof.
  revert p. induction solids as [| s solids IH]; intros p Hp; [exact Hp |].
  rewrite fold_left_cons. apply IH. unfold pushOut. cbv zeta.
  destruct (negb _); [exact Hp |].
  destruct (_ <? _); cbn; qcompute.
Qed.

Lemma takeHit_one_vx (p : Player.t) :
  Qabs (Player.vx p) <= PHYS.topSpeed ->
  Qabs (Player.vx (Player.takeHit 1 p)) <= PHYS.topSpeed.
Proof.
  intros Hp. unfold Player.takeHit, Player.respawn.
  repeat match goal with
         | |- context [if ?c then _ else _] => destruct c; cbn
         end; try exact Hp.
  all: qcompute.
Qed.

Lemma collide_vx (level : Level.t) (nowSeconds : Q) (p : Player.t) :
  Qabs (Player.vx p) <= PHYS.topSpeed ->
  Qabs (Player.vx (Player_collideWithLevel level nowSeconds p)) <= PHYS.topSpeed.
Proof.
  intros Hp. unfold Player_collideWithLevel.
  match goal with
  | |- context [fold_left (pushOut ?hb2) ?solids ?q] =>
      assert (Hq : Qabs (Player.vx (fold_left (pushOut hb2) solids q)) <= PHYS.topSpeed)
  end.
  { apply pushOut_fold_vx. rewrite landOn_fold_vx. exact Hp. }
  destruct (_ <? _); [apply takeHit_one_vx |]; exact Hq.
Qed.

(** After [Player.update] the horizontal speed is at most [topSpeed],
    whatever the state and the input were: the steering block writes
    [-topSpeed], 0 or [topSpeed], the push-out writes 0, and the knockback of
    a fall-out hit is slower. *)
Theorem Player_update_bounds_vx (dt : Q) (input : Input.t) (level : Level.t)
    (nowSeconds : Q) (p : Player.t) :
  Qabs (Player.vx (fst (Player_update dt input level nowSeconds p))) <= PHYS.topSpeed.
Proof.
  unfold Player_update.
  destruct (Player_jump nowSeconds input _) as [p2 input2]. cbn [fst].
  apply collide_vx. rewrite integrate_vx. apply steer_vx.
Qed.

(** ** game/level: the mission tasks through a tick *)

Lemma taskStep_completed (c : gset string) (st : Level.state) (t : Task.t) :
  c ⊆ Level._completedTasks (fst st) ->
  c ⊆ Level._completedTasks (fst (Level.taskStep st t)).
Proof.
  destruct st as [l p]. cbn [fst]. intros Hc. unfold Level.taskStep.
  destruct (bool_decide _); [exact Hc |].
  destruct (Level.taskDone _ _); [| exact Hc].
  cbn. intros x Hx. apply elem_of_union. left. apply Hc, Hx.
Qed.

(** The evaluation of the tasks only ever adds to the set of completed
    tasks, and when no open task is done it changes nothing: a completed task
    is not evaluated again, so its reward is given once. *)
Theorem evaluateTasks_only_adds (st : Level.state) :
  Level._completedTasks (fst st) ⊆ Level._completedTasks (fst (Level.evaluateTasks st)) /\
  (forallb (fun t => bool_decide (Task.id t ∈ Level._completedTasks (fst st))
                     || negb (Level.taskDone (Level._progress (fst st)) t))
     (Level._tasks (fst st)) = true ->
   Level.evaluateTasks st = st).
Proof.
  split.
  - unfold Level.evaluateTasks.
    apply (fold_left_inv
             (fun s => Level._completedTasks (fst st) ⊆ Level._completedTasks (fst s))
             Level.taskStep (taskStep_completed _)).
    reflexivity.
  - unfold Level.evaluateTasks. intros Hidle.
    induction (Level._tasks (fst st)) as [| t ts IH]; [reflexivity |].
    cbn [forallb] in Hidle. apply andb_true_iff in Hidle as [Ht Hts].
    cbn [fold_left].
    assert (Hstep : Level.taskStep st t = st).
    { destruct st as [l p]. cbn [fst] in *. unfold Level.taskStep.
      destruct (bool_decide _); [reflexivity |].
      cbn [orb] in Ht. apply negb_true_iff in Ht. rewrite Ht. reflexivity. }
    rewrite Hstep. apply IH, Hts.
Qed.

(** ** game/level: [reset] *)

Ltac reset_cases l :=
  unfold Level.reset; cbv zeta;
  match goal with
  | |- context [let '(_, _) := ?x in _] => destruct x as [[solids boxes] enemies]
  end.

Lemma reset_frame (l : Level.t) :
  Level._bullets (Level.reset l) = Level._bullets l /\
  Level._bossAttacks (Level.reset l) = Level._bossAttacks l /\
  Level._fruits (Level.reset l) = Level._fruits l.
Proof. reset_cases l. repeat split. Qed.

Lemma reset_progress (l : Level.t) :
  Level._completedTasks (Level.reset l) = ∅ /\
  Level._bossRewarded (Level.reset l) = false.
Proof. reset_cases l. split; reflexivity. Qed.

Lemma reset_boss (l : Level.t) :
  exists boss, Level._boss (Level.reset l) = Some boss /\
                Boss.alive boss = true /\ Boss.hp boss = Boss.maxHp boss.
Proof. reset_cases l. eexists; split; [reflexivity | split; reflexivity]. Qed.

Lemma Forall_map_const {A B} (P : B -> Prop) (f : A -> B) (xs : list A) :
  (forall a, P (f a)) -> Forall P (map f xs).
Proof. intros Hf. induction xs; cbn; [apply List.Forall_nil | apply List.Forall_cons; auto]. Qed.

Ltac boxes_unused :=
  repeat first
    [ apply List.Forall_nil
    | apply List.Forall_cons; [reflexivity |]
    | apply Forall_app; split
    | apply Forall_map_const; intros ?; reflexivity ].

Lemma reset_boxes_unused (l : Level.t) :
  Forall (fun b => Box.used b = false) (Level._boxes (Level.reset l)).
Proof.
  unfold Level.reset; cbv zeta.
  match goal with
  | |- context [let '(_, _) := ?x in _] =>
      assert (Hx : Forall (fun b => Box.used b = false) (snd (fst x)));
      [| destruct x as [[solids boxes] enemies]; exact Hx]
  end.
  destruct (Z.rem (Level.index l) 4 =? 0)%Z;
    [| destruct (Z.rem (Level.index l) 4 =? 1)%Z;
       [| destruct (Z.rem (Level.index l) 4 =? 2)%Z]];
    cbn [fst snd]; boxes_unused.
Qed.

Lemma reset_idem (l : Level.t) : Level.reset (Level.reset l) = Level.reset l.
Proof.
  pose proof (reset_keeps_identity l) as (Hd & Hi & Hw).
  unfold Level.reset at 1.
  rewrite Hi, Hw. clear Hd Hi Hw.
  unfold Level.reset.
  cbv zeta.
  match goal with
  | |- context [let '(_, _) := ?x in _] => destruct x as [[solids boxes] enemies]
  end.
  repeat match goal with
         | |- context [@set _ _ _ _ ?v _] =>
             tryif is_var v then fail else (generalize v; intro)
         end.
  destruct l.
  vm_compute. reflexivity.
Qed.

(** [reset] rebuilds the level from its index and its width alone.  It
    leaves the bullets, the boss attacks and the fruits that are in flight
    as they are: the constructor creates these three arrays and [reset] never
    assigns them.  Every box it makes is unused, its boss is alive at full
    health, no task is completed and the boss reward is not given; and a
    second [reset] changes nothing more. *)
Theorem reset_rebuilds_level (l : Level.t) :
  (Level._bullets (Level.reset l) = Level._bullets l /\
   Level._bossAttacks (Level.reset l) = Level._bossAttacks l /\
   Level._fruits (Level.reset l) = Level._fruits l) /\
  Forall (fun b => Box.used b = false) (Level._boxes (Level.reset l)) /\
  (exists boss, Level._boss (Level.reset l) = Some boss /\
                Boss.alive boss = true /\ Boss.hp boss = Boss.maxHp boss) /\
  (Level._completedTasks (Level.reset l) = ∅ /\
   Level._bossRewarded (Level.reset l) = false) /\
  Level.reset (Level.reset l) = Level.reset l.
Proof.
  split; [apply reset_frame |].
  split; [apply reset_boxes_unused |].
  split; [apply reset_boss |].
  split; [apply reset_progress | apply reset_idem].
Qed.

Lemma getTasksForLevel_head (levelIndex : Z) :
  exists t rest,
    getTasksForLevel levelIndex = t :: rest /\
    Task.type t = Task.coins /\ Task.mandatory t = true.
Proof.
  unfold getTasksForLevel. cbv zeta. cbn [app].
  match goal with
  | |- context [firstn _ (_ :: _ :: _ :: ?rest)] => generalize rest; intros rest'
  end.
  match goal with
  | |- context [firstn (Z.to_nat ?c) _] =>
      assert (Hc : Z.to_nat c = S (Nat.pred (Z.to_nat c))) by (cbn [length]; lia);
      rewrite Hc
  end.
  cbn [firstn].
  eexists; eexists; repeat split.
Qed.

(** A level that was just reset never passes the mission gate: for every
    index the first task offered is the coin task, it is mandatory, and
    [reset] leaves no task completed.  So the gate of a fresh level is closed
    whatever the level. *)
Theorem reset_closes_gate (l : Level.t) (levelIndex : Z) :
  Level.areMandatoryTasksComplete (Level.reset l) = false /\
  Level.areMandatoryTasksComplete (createLevel levelIndex) = false.
Proof.
  assert (Hreset : forall l0, Level.areMandatoryTasksComplete (Level.reset l0) = false).
  { intros l0. unfold Level.areMandatoryTasksComplete.
    reset_cases l0. cbn.
    destruct (getTasksForLevel_head (Level.index l0)) as (t & rest & -> & Hty & Hm).
    cbn [map forallb]. rewrite Hty. cbn [Task.mandatory Task.id].
    rewrite Hm. rewrite bool_decide_eq_false_2 by apply not_elem_of_empty.
    reflexivity. }
  split; [apply Hreset | unfold createLevel; cbv zeta; apply Hreset].
Qed.
